(** * paraDuplex: the Meta Ads campaign dashboard ([app.py])

    A shallow embedding of the dashboard script and of the part of
    Python, pandas, Streamlit and plotly it relies on, followed by the
    properties of the loader, the filter, the KPIs, the chart inputs and
    the detail listing.

    Conventions of the embedding:
    - a Python [str] is the list of its code points;
    - a [float64] is an IEEE 754 binary64 value ([spec_float] with
      precision 53 and maximal exponent 1024);
    - a pandas [Series] is a typed column, a [DataFrame] an index and an
      ordered list of labelled columns; a label is looked up by first
      match, frames are expected to carry pairwise distinct labels;
    - an operation that can raise returns a [result]; the script itself
      runs in a monad that records what it sends to the page and ends
      normally, by [st.stop()], or by an exception that is not handled;
    - what the widgets return (the selected campaigns and dates) and what
      [pd.read_csv] finds on disk are inputs of the model;
    - [numpy]'s index sort is a parameter of the sorting functions, bound
      by what [numpy] promises of every kind of sort; its scalar quicksort
      is given as one instance. *)

From Stdlib Require Import String Ascii.
From Stdlib Require Import ZArith NArith List Bool Lia.
From Stdlib Require Import Permutation Sorted.
From Stdlib Require Import Floats.SpecFloat.
Import ListNotations.

Local Open Scope string_scope.
Local Open Scope list_scope.

(* ===================================================================== *)
(** ** Python strings *)
(* ===================================================================== *)

Module Py.

Definition char := N.
Definition str := list char.

(** A literal of the source, for code points below 256. *)
Definition of_string (s : string) : str :=
  map N_of_ascii (list_ascii_of_string s).

Definition colon : char := 58%N.

(** [str.isspace] on one character (CPython's [_PyUnicode_IsWhitespace]). *)
Definition isspace (c : char) : bool :=
  (((9 <=? c) && (c <=? 13)) || ((28 <=? c) && (c <=? 32))
   || (c =? 133) || (c =? 160) || (c =? 5760)
   || ((8192 <=? c) && (c <=? 8202))
   || (c =? 8232) || (c =? 8233) || (c =? 8239) || (c =? 8287)
   || (c =? 12288))%N.

Fixpoint eqb (a b : str) : bool :=
  match a, b with
  | [], [] => true
  | x :: a', y :: b' => N.eqb x y && eqb a' b'
  | _, _ => false
  end.

(** [x in values] for a list of strings. *)
Definition mem (x : str) (values : list str) : bool := existsb (eqb x) values.

(** [s.split(sep)] for a separator of one character. *)
Fixpoint split (sep : char) (s : str) : list str :=
  match s with
  | [] => [[]]
  | c :: s' =>
      if N.eqb c sep then [] :: split sep s'
      else match split sep s' with
           | [] => [[c]]
           | w :: ws => (c :: w) :: ws
           end
  end.

(** [l[-1]]; [None] stands for [IndexError]. *)
Fixpoint last_item {A : Type} (l : list A) : option A :=
  match l with
  | [] => None
  | [x] => Some x
  | _ :: l' => last_item l'
  end.

Fixpoint lstrip (s : str) : str :=
  match s with
  | [] => []
  | c :: s' => if isspace c then lstrip s' else s
  end.

Definition rstrip (s : str) : str := rev (lstrip (rev s)).

(** [s.strip()] *)
Definition strip (s : str) : str := lstrip (rstrip s).

(** [s * k] *)
Definition repeat_str (s : str) (k : Z) : str :=
  concat (repeat s (Z.to_nat k)).

(** [a <= b] on strings: code points, lexicographically. *)
Fixpoint leb (a b : str) : bool :=
  match a, b with
  | [], _ => true
  | _ :: _, [] => false
  | x :: a', y :: b' => N.ltb x y || (N.eqb x y && leb a' b')
  end.

End Py.

(* ===================================================================== *)
(** ** float64 *)
(* ===================================================================== *)

Module F64.

Definition t := spec_float.

Definition prec : Z := 53.
Definition emax : Z := 1024.

Definition add : t -> t -> t := SFadd prec emax.
Definition mul : t -> t -> t := SFmul prec emax.
Definition div : t -> t -> t := SFdiv prec emax.
Definition leb : t -> t -> bool := SFleb.

(** Conversion of an integer, rounding to nearest even. *)
Definition of_int (z : Z) : t := binary_normalize prec emax z 0 false.

Definition zero : t := S754_zero false.
Definition nan : t := S754_nan.
Definition inf : t := S754_infinity false.

Definition isnan (x : t) : bool :=
  match x with S754_nan => true | _ => false end.

(** [math.isfinite] *)
Definition isfinite (x : t) : bool :=
  match x with
  | S754_zero _ | S754_finite _ _ _ => true
  | S754_infinity _ | S754_nan => false
  end.

Definition iszero (x : t) : bool :=
  match x with S754_zero _ => true | _ => false end.

Definition isinf (x : t) : bool :=
match x with S754_infinity _ => true | _ => false end.

(** The order [numpy] sorts floats by: the IEEE order, every NaN last. *)
Definition sort_leb (x y : t) : bool := isnan y || SFleb x y.

End F64.

(** Two's complement wrap-around of [int64] arithmetic. *)
Definition wrap64 (z : Z) : Z :=
  ((z + 2 ^ 63) mod 2 ^ 64 - 2 ^ 63)%Z.

(* ===================================================================== *)
(** ** Exceptions and results *)
(* ===================================================================== *)

Inductive exn_class :=
| FileNotFoundError
| EmptyDataError
| ParserError
| KeyError
| ValueError
| TypeError
| AttributeError
| IndexError
| UnicodeDecodeError
| OSError
| StreamlitAPIException.

Record exn := Exc { exn_cls : exn_class; exn_msg : string }.

Inductive result (A : Type) :=
| Ok (a : A)
| Err (e : exn).
Arguments Ok {A} a.
Arguments Err {A} e.

Definition rbind {A B : Type} (r : result A) (k : A -> result B) : result B :=
  match r with
  | Ok a => k a
  | Err e => Err e
  end.

Declare Scope result_scope.
Delimit Scope result_scope with result.
Notation "'let?' x ':=' r 'in' k" := (rbind r (fun x => k))
  (at level 10, x name, r at level 100, k at level 200) : result_scope.

Local Open Scope result_scope.

Fixpoint label_eqb (a b : string) : bool :=
  match a, b with
  | EmptyString, EmptyString => true
  | String x a', String y b' => Ascii.eqb x y && label_eqb a' b'
  | _, _ => false
  end.

(** [repr] of a string key, as [str(KeyError(k))] prints it. *)
Definition quoted (k : string) : string := ("'" ++ k ++ "'")%string.

(* ===================================================================== *)
(** ** pandas: Series and DataFrame *)
(* ===================================================================== *)

(** A timestamp is a number of nanoseconds since the epoch; [None] is
    [NaT]. *)
Definition timestamp := option Z.

Inductive Series :=
| Int64 (v : list Z)
| Float64 (v : list F64.t)
| Object (v : list Py.str)
| Datetime64 (v : list timestamp).

Definition size (s : Series) : nat :=
  match s with
  | Int64 v => length v
  | Float64 v => length v
  | Object v => length v
  | Datetime64 v => length v
  end.

Record DataFrame := Frame {
  index : list Z;
  columns : list (string * Series)
}.

(** [pd.DataFrame()] *)
Definition empty_frame : DataFrame := Frame [] [].

Definition nrows (df : DataFrame) : nat := length (index df).

(** [df.empty]: some axis has length 0. *)
Definition empty (df : DataFrame) : bool :=
  Nat.eqb (length (index df)) 0 || Nat.eqb (length (columns df)) 0.

Fixpoint lookup (c : string) (cols : list (string * Series)) : option Series :=
  match cols with
  | [] => None
  | (c', s) :: cols' => if label_eqb c c' then Some s else lookup c cols'
  end.

(** [df[c]] *)
Definition getitem (df : DataFrame) (c : string) : result Series :=
  match lookup c (columns df) with
  | Some s => Ok s
  | None => Err (Exc KeyError (quoted c))
  end.

Fixpoint assign (c : string) (s : Series) (cols : list (string * Series))
  : list (string * Series) :=
  match cols with
  | [] => [(c, s)]
  | (c', s') :: cols' =>
      if label_eqb c c' then (c, s) :: cols' else (c', s') :: assign c s cols'
  end.

(** [df[c] = s]: the column is replaced where it stands, or added last. *)
Definition setitem (df : DataFrame) (c : string) (s : Series) : DataFrame :=
  Frame (index df) (assign c s (columns df)).

Fixpoint translate (mapping : list (string * string)) (c : string) : string :=
  match mapping with
  | [] => c
  | (old, new) :: mapping' =>
      if label_eqb c old then new else translate mapping' c
  end.

(** [df.rename(columns=mapping)]: labels absent from the frame are
    ignored. *)
Definition rename (mapping : list (string * string)) (df : DataFrame)
  : DataFrame :=
  Frame (index df)
        (map (fun cs => (translate mapping (fst cs), snd cs)) (columns df)).

Fixpoint zip_with {A B C : Type} (f : A -> B -> C) (a : list A) (b : list B)
  : list C :=
  match a, b with
  | x :: a', y :: b' => f x y :: zip_with f a' b'
  | _, _ => []
  end.

(** The values of a numeric column as floats. *)
Definition as_float (s : Series) : option (list F64.t) :=
  match s with
  | Int64 v => Some (map F64.of_int v)
  | Float64 v => Some v
  | Object _ | Datetime64 _ => None
  end.

(** [a / b]: true division, in float64 on numeric columns. On a column of
    dtype object pandas divides element by element, a string has no
    division, and the [TypeError] comes with the first element. (A column
    of dtype object with no element at all, as every column of a file
    with a header line only is, divides without error: the model leaves
    that case out, and the properties of the loader are stated for
    exports with rows or with numeric columns.) *)
Definition truediv (a b : Series) : result Series :=
  match as_float a, as_float b with
  | Some x, Some y => Ok (Float64 (zip_with F64.div x y))
  | _, _ => Err (Exc TypeError "unsupported operand type(s) for /")
  end.

(** [s * k] for a Python integer [k]. *)
Definition mul_scalar (s : Series) (k : Z) : result Series :=
  match s with
  | Float64 v => Ok (Float64 (map (fun x => F64.mul x (F64.of_int k)) v))
  | Int64 v => Ok (Int64 (map (fun x => wrap64 (x * k)) v))
  | Object v => Ok (Object (map (fun x => Py.repeat_str x k) v))
  | Datetime64 _ => Err (Exc TypeError "unsupported operand type(s) for *")
  end.

(** Positional selection by a boolean mask ([numpy.compress]). *)
Fixpoint compress {A : Type} (mask : list bool) (l : list A) : list A :=
  match mask, l with
  | b :: mask', x :: l' =>
      if b then x :: compress mask' l' else compress mask' l'
  | _, _ => []
  end.

Definition compress_series (mask : list bool) (s : Series) : Series :=
  match s with
  | Int64 v => Int64 (compress mask v)
  | Float64 v => Float64 (compress mask v)
  | Object v => Object (compress mask v)
  | Datetime64 v => Datetime64 (compress mask v)
  end.

(** [df[mask]] for a boolean mask over the rows. *)
Definition select (mask : list bool) (df : DataFrame) : DataFrame :=
  Frame (compress mask (index df))
        (map (fun cs => (fst cs, compress_series mask (snd cs))) (columns df)).

(** [l[indexer]]: positional selection; [None] stands for [IndexError]. *)
Fixpoint take_list {A : Type} (indexer : list nat) (l : list A)
  : option (list A) :=
  match indexer with
  | [] => Some []
  | i :: indexer' =>
      match nth_error l i, take_list indexer' l with
      | Some x, Some r => Some (x :: r)
      | _, _ => None
      end
  end.

Definition out_of_bounds : exn := Exc IndexError "indices are out-of-bounds".

Definition take_result {A : Type} (indexer : list nat) (l : list A)
  : result (list A) :=
  match take_list indexer l with
  | Some r => Ok r
  | None => Err out_of_bounds
  end.

Definition take_series (indexer : list nat) (s : Series) : result Series :=
  match s with
  | Int64 v => let? r := take_result indexer v in Ok (Int64 r)
  | Float64 v => let? r := take_result indexer v in Ok (Float64 r)
  | Object v => let? r := take_result indexer v in Ok (Object r)
  | Datetime64 v => let? r := take_result indexer v in Ok (Datetime64 r)
  end.

Fixpoint take_columns (indexer : list nat) (cols : list (string * Series))
  : result (list (string * Series)) :=
  match cols with
  | [] => Ok []
  | (c, s) :: cols' =>
      let? s' := take_series indexer s in
      let? r := take_columns indexer cols' in
      Ok ((c, s') :: r)
  end.

(** [df.take(indexer)] *)
Definition take (indexer : list nat) (df : DataFrame) : result DataFrame :=
  let? ix := take_result indexer (index df) in
  let? cols := take_columns indexer (columns df) in
  Ok (Frame ix cols).

Fixpoint getitems_columns (df : DataFrame) (labels : list string)
  : result (list (string * Series)) :=
  match labels with
  | [] => Ok []
  | c :: labels' =>
      let? s := getitem df c in
      let? r := getitems_columns df labels' in
      Ok ((c, s) :: r)
  end.

(** [df[[c1, ..., cn]]] *)
Definition getitems (df : DataFrame) (labels : list string)
  : result DataFrame :=
  let? cols := getitems_columns df labels in
  Ok (Frame (index df) cols).

(** [s.unique()] on values: first occurrences, in order of appearance. *)
Fixpoint unique_from (seen : list Py.str) (v : list Py.str) : list Py.str :=
  match v with
  | [] => []
  | x :: v' =>
      if Py.mem x seen then unique_from seen v'
      else x :: unique_from (x :: seen) v'
  end.

Definition unique (v : list Py.str) : list Py.str := unique_from [] v.

(** [s.isin(values)] where [values] are strings. *)
Definition isin (s : Series) (values : list Py.str) : list bool :=
  match s with
  | Object v => map (fun x => Py.mem x values) v
  | _ => repeat false (size s)
  end.

Definition invalid_comparison : exn :=
  Exc TypeError "Invalid comparison with Timestamp".

(** [s >= t] and [s <= t] for a [Timestamp] [t]; [NaT] compares false. *)
Definition ge_timestamp (s : Series) (t : Z) : result (list bool) :=
  match s with
  | Datetime64 v =>
      Ok (map (fun x => match x with Some a => (t <=? a)%Z | None => false end) v)
  | _ => Err invalid_comparison
  end.

Definition le_timestamp (s : Series) (t : Z) : result (list bool) :=
  match s with
  | Datetime64 v =>
      Ok (map (fun x => match x with Some a => (a <=? t)%Z | None => false end) v)
  | _ => Err invalid_comparison
  end.

(** [m1 & m2] on boolean masks. *)
Definition mask_and (m1 m2 : list bool) : list bool := zip_with andb m1 m2.

(** [s == c] for a string [c]. *)
Definition eq_str (s : Series) (c : Py.str) : list bool :=
  match s with
  | Object v => map (fun x => Py.eqb x c) v
  | _ => repeat false (size s)
  end.

(** The result of [s.sum()] or of another reduction to one number. *)
Inductive scalar :=
| IntValue (z : Z)
| FloatValue (x : F64.t).

Definition nan_to_zero (x : F64.t) : F64.t :=
  if F64.isnan x then F64.zero else x.

(** [nansum]: NaN counts as 0. The terms are added here from left to
    right; [numpy] adds eight values or more pairwise, so that its sum can
    differ from this one by rounding. *)
Definition nansum (v : list F64.t) : F64.t :=
  fold_left F64.add (map nan_to_zero v) F64.zero.

Definition count_valid (v : list F64.t) : nat :=
  length (filter (fun x => negb (F64.isnan x)) v).

(** [nanmean]: the sum with NaN as 0 divided by the number of values that
    are not NaN; NaN when there is none. *)
Definition nanmean (v : list F64.t) : F64.t :=
  match count_valid v with
  | O => F64.nan
  | S _ as n => F64.div (nansum v) (F64.of_int (Z.of_nat n))
  end.

Definition bad_format : exn := Exc ValueError "Unknown format code".
Definition bad_operand : exn := Exc TypeError "unsupported operand type".

(** [s.sum()], as far as its result can be formatted as a number. *)
Definition sum (s : Series) : result scalar :=
  match s with
  | Int64 v => Ok (IntValue (fold_left (fun a x => wrap64 (a + x)) v 0%Z))
  | Float64 v => Ok (FloatValue (nansum v))
  | Object _ => Err bad_format
  | Datetime64 _ => Err bad_operand
  end.

(** [s.mean()] with the default [skipna=True]. *)
Definition mean (s : Series) : result F64.t :=
  match s with
  | Int64 v => Ok (nanmean (map F64.of_int v))
  | Float64 v => Ok (nanmean v)
  | Object _ | Datetime64 _ => Err bad_operand
  end.

Definition ts_min (v : list timestamp) : timestamp :=
  fold_left (fun acc x =>
               match acc, x with
               | Some a, Some b => Some (Z.min a b)
               | None, _ => x
               | _, None => acc
               end) v None.

Definition ts_max (v : list timestamp) : timestamp :=
  fold_left (fun acc x =>
               match acc, x with
               | Some a, Some b => Some (Z.max a b)
               | None, _ => x
               | _, None => acc
               end) v None.

Definition no_to_pydatetime : exn :=
  Exc AttributeError "object has no attribute 'to_pydatetime'".

(** [s.min().to_pydatetime()] and [s.max().to_pydatetime()] *)
Definition min_pydatetime (s : Series) : result timestamp :=
  match s with
  | Datetime64 v => Ok (ts_min v)
  | _ => Err no_to_pydatetime
  end.

Definition max_pydatetime (s : Series) : result timestamp :=
  match s with
  | Datetime64 v => Ok (ts_max v)
  | _ => Err no_to_pydatetime
  end.

(** [pd.to_datetime(d)] for a [datetime.date] given as a number of days
    since the epoch: midnight of that day. *)
Definition to_datetime (d : Z) : Z := (d * 86400000000000)%Z.

Fixpoint map_result {A B : Type} (f : A -> result B) (l : list A)
  : result (list B) :=
  match l with
  | [] => Ok []
  | x :: l' =>
      let? y := f x in
      let? r := map_result f l' in
      Ok (y :: r)
  end.

(* ===================================================================== *)
(** ** plotly and Streamlit: what the script sends to the page *)
(* ===================================================================== *)

(** [go.Scatter(x=..., y=..., name=..., line=dict(color=...))] *)
Record trace := Scatter {
  trace_x : Series;
  trace_y : Series;
  trace_name : Py.str;
  trace_color : string
}.

Inductive figure :=
| ScatterFigure (data_frame : DataFrame) (x y color size : string)
                (hover_data : list string)
| BarFigure (data_frame : DataFrame) (x : string) (y : list string)
| TraceFigure (data : list trace).

Inductive element :=
| st_error (body : string)
| st_warning (body : string)
| st_header (body : string)
| st_subheader (body : string)
| st_columns (n : nat)
| st_tabs (labels : list string)
| st_multiselect (label : string) (options labels : list Py.str)
| st_date_input (label : string) (value min_value max_value : timestamp)
| st_metric (label : string) (value : scalar)
| st_plotly_chart (fig : figure)
| st_dataframe (data : DataFrame)
| st_expander (label : string).

(** [px.colors.qualitative.Plotly] *)
Definition color_sequence : list string :=
  ["#636EFA"; "#EF553B"; "#00CC96"; "#AB63FA"; "#FFA15A";
   "#19D3F3"; "#FF6692"; "#B6E880"; "#FF97FF"; "#FECB52"].

Definition missing_column : exn :=
  Exc ValueError "Value is not the name of a column in 'data_frame'".

Definition has_columns (df : DataFrame) (labels : list string) : bool :=
  forallb (fun c => match lookup c (columns df) with
                    | Some _ => true
                    | None => false
                    end) labels.

Definition invalid_size : exn :=
  Exc ValueError
      "Invalid element(s) received for the 'size' property of scatter.marker".

(** What plotly accepts as the sizes of the markers: numbers that are not
    negative; NaN is refused. *)
Definition valid_sizes (s : Series) : bool :=
  match s with
  | Int64 v => forallb (fun z => (0 <=? z)%Z) v
  | Float64 v => forallb (fun x => F64.leb F64.zero x) v
  | Object _ | Datetime64 _ => false
  end.

(** [px.scatter] and [px.bar]: the figure keeps the frame it is given; a
    column that is named and absent is a [ValueError], and so is a size
    of a marker that plotly does not accept. *)
Definition px_scatter (df : DataFrame) (x y color size : string)
  (hover_data : list string) : result figure :=
  if has_columns df (x :: y :: color :: size :: hover_data) then
    match lookup size (columns df) with
    | Some s =>
        if valid_sizes s then Ok (ScatterFigure df x y color size hover_data)
        else Err invalid_size
    | None => Err missing_column
    end
  else Err missing_column.

Definition px_bar (df : DataFrame) (x : string) (y : list string)
  : result figure :=
  if has_columns df (x :: y) then Ok (BarFigure df x y)
  else Err missing_column.

(** How a run of the script ends. *)
Inductive outcome (A : Type) :=
| Done (a : A)
| Raised (e : exn)
| Stopped.
Arguments Done {A} a.
Arguments Raised {A} e.
Arguments Stopped {A}.

(** A piece of script: from the elements shown so far to an outcome and
    the elements shown after it. *)
Definition script (A : Type) := list element -> outcome A * list element.

Definition ret {A : Type} (a : A) : script A := fun page => (Done a, page).

Definition bind {A B : Type} (m : script A) (k : A -> script B) : script B :=
  fun page =>
    match m page with
    | (Done a, page') => k a page'
    | (Raised e, page') => (Raised e, page')
    | (Stopped, page') => (Stopped, page')
    end.

(** A Streamlit call that shows one element. *)
Definition show (e : element) : script unit :=
  fun page => (Done tt, page ++ [e]).

(** [st.stop()] *)
Definition stop {A : Type} : script A := fun page => (Stopped, page).

Definition lift {A : Type} (r : result A) : script A :=
  fun page =>
    match r with
    | Ok a => (Done a, page)
    | Err e => (Raised e, page)
    end.

(** [try: body except classes as e: handler(e)]; [handles e] tells whether
    the class of [e] is one of the listed ones. *)
Definition try_except {A : Type} (body : script A) (handles : exn -> bool)
  (handler : exn -> script A) : script A :=
  fun page =>
    match body page with
    | (Raised e, page') =>
        if handles e then handler e page' else (Raised e, page')
    | r => r
    end.

(** The calendar day of a timestamp, as a number of days since the
    epoch. *)
Definition date_of (t : Z) : Z := (t / 86400000000000)%Z.

Definition no_date : exn := Exc ValueError "NaTType does not support date".

Definition date_out_of_range : exn :=
  Exc StreamlitAPIException
      "The default value must lie between the min_value and the max_value".

(** [st.date_input(label, value=, min_value=, max_value=)] for three
    [datetime] arguments: Streamlit takes the day of each; it refuses a
    missing date ([NaT]), a [min_value] after the [max_value], and a
    [value] outside the two. *)
Definition date_input (label : string) (value min_value max_value : timestamp)
  : script unit :=
  match value, min_value, max_value with
  | Some v, Some lo, Some hi =>
      if ((date_of lo <=? date_of hi) && (date_of lo <=? date_of v)
          && (date_of v <=? date_of hi))%Z
      then show (st_date_input label value min_value max_value)
      else lift (Err date_out_of_range)
  | _, _, _ => lift (Err no_date)
  end.

Declare Scope script_scope.
Delimit Scope script_scope with script.
Notation "x <- m ;; k" := (bind m (fun x => k))
  (at level 61, m at next level, right associativity) : script_scope.
Notation "m ;; k" := (bind m (fun _ => k))
  (at level 61, right associativity) : script_scope.

Local Open Scope script_scope.

(* ===================================================================== *)
(** ** The script: loader *)
(* ===================================================================== *)

Definition renamed_columns : list (string * string) :=
  [("Nombre de la campaña", "campana");
   ("Importe gastado (BOB)", "gasto");
   ("Impresiones", "impresiones");
   ("Alcance", "alcance");
   ("Resultados", "resultados");
   ("Coste por resultados", "costo_por_resultado")].

(** The classes of the [except] clause of [cargar_datos]. *)
Definition handled (e : exn) : bool :=
  match exn_cls e with
  | FileNotFoundError | EmptyDataError | KeyError | ParserError => true
  | _ => false
  end.

(** The lines of [cargar_datos] between the call of [pd.read_csv] and the
    [return]: the columns are renamed and the two metrics added. *)
Definition metricas (data : DataFrame) : result DataFrame :=
  let df_clean := rename renamed_columns data in
  let? resultados := getitem df_clean "resultados" in
  let? impresiones := getitem df_clean "impresiones" in
  let? q := truediv resultados impresiones in
  let? ctr := mul_scalar q 100 in
  let df_clean := setitem df_clean "CTR" ctr in
  let? gasto := getitem df_clean "gasto" in
  let? impresiones := getitem df_clean "impresiones" in
  let? q := truediv gasto impresiones in
  let? cpm := mul_scalar q 1000 in
  let df_clean := setitem df_clean "CPM" cpm in
  Ok df_clean.

(** [cargar_datos()]. [read_csv] is what the call of [pd.read_csv] on the
    export file gives: the parsed frame, or the exception it raises. *)
Definition cargar_datos (read_csv : result DataFrame) : script DataFrame :=
  try_except
    (lift (let? data := read_csv in metricas data))
    handled
    (fun e =>
       show (st_error ("Error al cargar datos: " ++ exn_msg e)%string) ;;
       ret empty_frame).

(* ===================================================================== *)
(** ** The script: filter, KPIs, charts and detail listing *)
(* ===================================================================== *)

(** What the sidebar widgets return: the selected campaigns and the two
    selected dates, as numbers of days since the epoch. *)
Record inputs := Inputs {
  campanas_seleccionadas : list Py.str;
  fecha_min : Z;
  fecha_max : Z
}.

Definition no_item : exn := Exc IndexError "list index out of range".
Definition no_split : exn := Exc AttributeError "object has no attribute 'split'".

(** [lambda x: x.split(":")[-1].strip()] *)
Definition format_func (x : Py.str) : result Py.str :=
  match Py.last_item (Py.split Py.colon x) with
  | Some part => Ok (Py.strip part)
  | None => Err no_item
  end.

(** The options of the multiselect and the labels Streamlit shows for
    them. *)
Definition multiselect_options (campana : Series)
  : result (list Py.str * list Py.str) :=
  match campana with
  | Object v =>
      let options := unique v in
      let? labels := map_result format_func options in
      Ok (options, labels)
  | _ =>
      match size campana with
      | O => Ok ([], [])
      | S _ => Err no_split
      end
  end.

(** The frame [df_filtrado]. *)
Definition filtrar (df : DataFrame) (seleccion : list Py.str)
  (fecha_min fecha_max : Z) : result DataFrame :=
  let? campana := getitem df "campana" in
  let m1 := isin campana seleccion in
  let? inicio := getitem df "Inicio del informe" in
  let? m2 := ge_timestamp inicio (to_datetime fecha_min) in
  let? fin := getitem df "Fin del informe" in
  let? m3 := le_timestamp fin (to_datetime fecha_max) in
  Ok (select (mask_and (mask_and m1 m2) m3) df).

(** [campana.split(":")[-1].strip()], the name of a trace. *)
Definition nombre_traza (campana : Py.str) : result Py.str :=
  match Py.last_item (Py.split Py.colon campana) with
  | Some part => Ok (Py.strip part)
  | None => Err no_item
  end.

Definition color_at (i : nat) : result string :=
  match nth_error color_sequence i with
  | Some c => Ok c
  | None => Err no_item
  end.

(** The body of the loop of the third tab, from its [i]-th turn on. *)
Fixpoint add_traces (df_filtrado : DataFrame) (i : nat)
  (campanas : list Py.str) : result (list trace) :=
  match campanas with
  | [] => Ok []
  | campana :: rest =>
      let? col := getitem df_filtrado "campana" in
      let temp_df := select (eq_str col campana) df_filtrado in
      let? x := getitem temp_df "Inicio del informe" in
      let? y := getitem temp_df "resultados" in
      let? name := nombre_traza campana in
      let? color := color_at i in
      let? traces := add_traces df_filtrado (S i) rest in
      Ok (Scatter x y name color :: traces)
  end.

(** The traces of the third tab. *)
Definition evolucion (df_filtrado : DataFrame) : result (list trace) :=
  let? campana := getitem df_filtrado "campana" in
  match campana with
  | Object v => add_traces df_filtrado 0 (unique v)
  | _ =>
      match size campana with
      | O => Ok []
      | S _ => Err no_split
      end
  end.

Definition detail_columns : list string :=
  ["campana"; "Inicio del informe"; "Fin del informe";
   "gasto"; "resultados"; "impresiones"; "alcance";
   "CTR"; "CPM"; "costo_por_resultado"].

Definition ts_leb (a b : timestamp) : bool :=
  match a, b with
  | Some x, Some y => (x <=? y)%Z
  | _, None => true
  | None, Some _ => false
  end.

Definition is_nat (a : timestamp) : bool :=
  match a with None => true | Some _ => false end.

Section Dashboard.

(** [numpy]'s [argsort] with the default [kind="quicksort"]: given an
    order and the keys, the positions of the keys in ascending order. *)
Variable argsort : forall A : Type, (A -> A -> bool) -> list A -> list nat.

(** [pandas.core.sorting.nargsort] with [na_position="last"]: missing
    keys are set aside and come last; for a descending sort the keys are
    reversed, sorted ascending, and the result reversed. *)
Definition nargsort {A : Type} (leb : A -> A -> bool) (isna : A -> bool)
  (ascending : bool) (items : list A) : result (list nat) :=
  let idx := seq 0 (length items) in
  let mask := map isna items in
  let non_nans := compress (map negb mask) items in
  let non_nan_idx := compress (map negb mask) idx in
  let nan_idx := compress mask idx in
  let non_nans := if ascending then non_nans else rev non_nans in
  let non_nan_idx := if ascending then non_nan_idx else rev non_nan_idx in
  let? indexer := take_result (argsort A leb non_nans) non_nan_idx in
  let indexer := if ascending then indexer else rev indexer in
  Ok (indexer ++ nan_idx).

Definition argsort_series (s : Series) (ascending : bool)
  : result (list nat) :=
  match s with
  | Int64 v => nargsort Z.leb (fun _ => false) ascending v
  | Float64 v => nargsort F64.sort_leb F64.isnan ascending v
  | Object v => nargsort Py.leb (fun _ => false) ascending v
  | Datetime64 v => nargsort ts_leb is_nat ascending v
  end.

(** [df.sort_values(by, ascending=ascending)] *)
Definition sort_values (df : DataFrame) (by_ : string) (ascending : bool)
  : result DataFrame :=
  let? k := getitem df by_ in
  let? indexer := argsort_series k ascending in
  take indexer df.

(** The frame given to [px.bar] in the second tab. *)
Definition comparacion (df_filtrado : DataFrame) : result DataFrame :=
  sort_values df_filtrado "resultados" false.

(** The frame given to [st.dataframe]. *)
Definition detalle (df_filtrado : DataFrame) : result DataFrame :=
  let? sub := getitems df_filtrado detail_columns in
  sort_values sub "gasto" false.

(** Everything after the guard on [df_filtrado.empty]. *)
Definition presentar (df_filtrado : DataFrame) : script unit :=
  show (st_header "📈 Métricas Clave") ;;
  show (st_columns 4) ;;
  total_gasto <- lift (let? s := getitem df_filtrado "gasto" in sum s) ;;
  show (st_metric "Total Gastado (BOB)" total_gasto) ;;
  total_resultados <-
    lift (let? s := getitem df_filtrado "resultados" in sum s) ;;
  show (st_metric "Resultados Totales" total_resultados) ;;
  ctr <- lift (let? s := getitem df_filtrado "CTR" in mean s) ;;
  show (st_metric "CTR Promedio" (FloatValue ctr)) ;;
  cpm <- lift (let? s := getitem df_filtrado "CPM" in mean s) ;;
  show (st_metric "CPM Promedio" (FloatValue cpm)) ;;
  show (st_tabs ["📊 Eficiencia"; "📌 Comparación"; "📅 Evolución"]) ;;
  show (st_subheader "Eficiencia de Campañas") ;;
  fig <- lift (px_scatter df_filtrado "gasto" "resultados" "campana"
                 "impresiones" ["costo_por_resultado"; "CTR"; "CPM"]) ;;
  show (st_plotly_chart fig) ;;
  show (st_subheader "Comparación entre Campañas") ;;
  fig <- lift (let? sorted := comparacion df_filtrado in
               px_bar sorted "campana" ["resultados"; "gasto"]) ;;
  show (st_plotly_chart fig) ;;
  show (st_subheader "Evolución Temporal") ;;
  traces <- lift (evolucion df_filtrado) ;;
  show (st_plotly_chart (TraceFigure traces)) ;;
  show (st_header "📋 Datos Detallados") ;;
  tabla <- lift (detalle df_filtrado) ;;
  show (st_dataframe tabla) ;;
  show (st_expander "ℹ️ Acerca de este dashboard").

(** The script, from the call of the loader to its last line. *)
Definition app (read_csv : result DataFrame) (ui : inputs) : script unit :=
  df <- cargar_datos read_csv ;;
  if empty df then
    show (st_warning "No se encontraron datos. Verifica el archivo CSV.") ;;
    stop
  else
    show (st_header "🔍 Filtros") ;;
    options <- lift (let? campana := getitem df "campana" in
                     multiselect_options campana) ;;
    show (st_multiselect "Seleccionar campañas" (fst options) (snd options)) ;;
    show (st_columns 2) ;;
    lo <- lift (let? s := getitem df "Inicio del informe" in
                min_pydatetime s) ;;
    hi <- lift (let? s := getitem df "Fin del informe" in
                max_pydatetime s) ;;
    date_input "Fecha inicial" lo lo hi ;;
    date_input "Fecha final" hi lo hi ;;
    df_filtrado <- lift (filtrar df (campanas_seleccionadas ui)
                           (fecha_min ui) (fecha_max ui)) ;;
    if empty df_filtrado then
      show (st_warning "No hay datos con los filtros seleccionados.") ;;
      stop
    else presentar df_filtrado.

End Dashboard.

(* ===================================================================== *)
(** ** Rows of a frame *)
(* ===================================================================== *)

(** The properties below speak of the rows of a table; a frame stores
    columns. [rows] is the row by row reading of a frame. *)
Inductive cell :=
| IntCell (z : Z)
| FloatCell (x : F64.t)
| StrCell (s : Py.str)
| TimeCell (t : timestamp).

Definition cells (s : Series) : list cell :=
  match s with
  | Int64 v => map IntCell v
  | Float64 v => map FloatCell v
  | Object v => map StrCell v
  | Datetime64 v => map TimeCell v
  end.

Definition row := list (string * cell).

Definition add_field (c : string) (x : cell) (r : row) : row := (c, x) :: r.

Definition rows_of (ix : list Z) (cols : list (string * Series)) : list row :=
  fold_right (fun cs acc => zip_with (add_field (fst cs)) (cells (snd cs)) acc)
             (map (fun _ => []) ix) cols.

Definition rows (df : DataFrame) : list row :=
  rows_of (index df) (columns df).

Fixpoint field (c : string) (r : row) : option cell :=
  match r with
  | [] => None
  | (c', x) :: r' => if label_eqb c c' then Some x else field c r'
  end.

(** The value of a numeric cell as a float. *)
Definition number (x : cell) : option F64.t :=
  match x with
  | IntCell z => Some (F64.of_int z)
  | FloatCell x => Some x
  | StrCell _ | TimeCell _ => None
  end.

Definition number_field (c : string) (r : row) : option F64.t :=
  match field c r with
  | Some x => number x
  | None => None
  end.

(** Every column has one value per row. *)
Definition aligned (df : DataFrame) : Prop :=
  Forall (fun cs => size (snd cs) = nrows df) (columns df).

Definition well_formed (df : DataFrame) : Prop :=
  NoDup (map fst (columns df)) /\ aligned df.

(** The condition of the filter, read on one row: the campaign is one of
    the selected ones, the report starts at the selected start or later
    and ends at the selected end or earlier. *)
Definition cell_in (seleccion : list Py.str) (x : cell) : bool :=
  match x with
  | StrCell c => Py.mem c seleccion
  | _ => false
  end.

Definition cell_ge (t : Z) (x : cell) : bool :=
  match x with
  | TimeCell (Some a) => (t <=? a)%Z
  | _ => false
  end.

Definition cell_le (t : Z) (x : cell) : bool :=
  match x with
  | TimeCell (Some b) => (b <=? t)%Z
  | _ => false
  end.

Definition row_selected (seleccion : list Py.str) (fecha_min fecha_max : Z)
  (r : row) : bool :=
  match field "campana" r, field "Inicio del informe" r,
        field "Fin del informe" r with
  | Some c, Some a, Some b =>
      cell_in seleccion c
      && cell_ge (to_datetime fecha_min) a
      && cell_le (to_datetime fecha_max) b
  | _, _, _ => false
  end.

(** The restriction of a row to some labels. *)
Fixpoint restrict (labels : list string) (r : row) : row :=
  match labels with
  | [] => []
  | c :: labels' =>
      match field c r with
      | Some x => (c, x) :: restrict labels' r
      | None => restrict labels' r
      end
  end.

(** A numeric column in descending order, missing values last. *)
Definition descending (s : Series) : Prop :=
  match s with
  | Int64 v => StronglySorted (fun a b => (b <= a)%Z) v
  | Float64 v =>
      exists valid missing,
        v = valid ++ missing
        /\ Forall (fun x => F64.isnan x = false) valid
        /\ Forall (fun x => F64.isnan x = true) missing
        /\ StronglySorted (fun a b => F64.leb b a = true) valid
  | Object _ | Datetime64 _ => False
  end.

Definition numeric (s : Series) : bool :=
  match s with
  | Int64 _ | Float64 _ => true
  | Object _ | Datetime64 _ => false
  end.

(** What [numpy] promises of [argsort] whatever the [kind]: for a total
    preorder, a permutation of the positions that puts the keys in
    ascending order. The order among equal keys is promised by the stable
    kinds only, and the default one is not stable. *)
Definition sorts
  (argsort : forall A : Type, (A -> A -> bool) -> list A -> list nat) : Prop :=
  forall (A : Type) (leb : A -> A -> bool),
    (forall a b, leb a b = true \/ leb b a = true) ->
    (forall a b c, leb a b = true -> leb b c = true -> leb a c = true) ->
    forall keys,
      Permutation (argsort A leb keys) (seq 0 (length keys))
      /\ forall sorted,
          take_list (argsort A leb keys) keys = Some sorted ->
          StronglySorted (fun a b => leb a b = true) sorted.

(** Elements that present results: KPIs, charts, the detail table. *)
Definition presents (e : element) : bool :=
  match e with
  | st_metric _ _ | st_plotly_chart _ | st_dataframe _ => true
  | _ => false
  end.

(* ===================================================================== *)
(** ** Readings of the specification, to compare the script with *)
(* ===================================================================== *)

Fixpoint total_of (c : string) (campana : Py.str) (rs : list row) : F64.t :=
  match rs with
  | [] => F64.zero
  | r :: rs' =>
      match field "campana" r, number_field c r with
      | Some (StrCell k), Some x =>
          if Py.eqb k campana then F64.add x (total_of c campana rs')
          else total_of c campana rs'
      | _, _ => total_of c campana rs'
      end
  end.

Definition campaign_names (rs : list row) : list Py.str :=
  flat_map (fun r => match field "campana" r with
                     | Some (StrCell k) => [k]
                     | _ => []
                     end) rs.

(** Per-campaign grouped totals of results and spend: one entry per
    distinct campaign, with the sums of its rows. *)
Definition grouped_totals (rs : list row) : list (Py.str * F64.t * F64.t) :=
  map (fun k => (k, total_of "resultados" k rs, total_of "gasto" k rs))
      (unique (campaign_names rs)).

(** A mean that excludes the values that are not finite. *)
Definition mean_excluding (v : list F64.t) : F64.t :=
  nanmean (filter F64.isfinite v).

(** A mean that takes the values that are not finite as zero. *)
Definition mean_zeroing (v : list F64.t) : F64.t :=
  nanmean (map (fun x => if F64.isfinite x then x else F64.zero) v).

(** Rows with the same spend keep their relative order from [before] to
    [after]. *)
Definition same_spend (g : cell) (r : row) : bool :=
  match field "gasto" r, g with
  | Some (IntCell a), IntCell b => (a =? b)%Z
  | Some (FloatCell a), FloatCell b => SFeqb a b
  | _, _ => false
  end.

Definition ties_kept (before after : list row) : Prop :=
  forall g, filter (same_spend g) after = filter (same_spend g) before.

(** Timestamps in chronological order. *)
Definition chronological (s : Series) : Prop :=
  match s with
  | Datetime64 v => StronglySorted (fun a b => ts_leb a b = true) v
  | _ => False
  end.

(* ===================================================================== *)
(** ** A sort that keeps the promise of [argsort] and is not stable *)
(* ===================================================================== *)

Fixpoint insert_key {A : Type} (leb : A -> A -> bool) (p : nat * A)
  (l : list (nat * A)) : list (nat * A) :=
  match l with
  | [] => [p]
  | q :: l' =>
      if leb (snd q) (snd p) then q :: insert_key leb p l' else p :: l
  end.

(** Insertion from the right, each key going after the keys it equals. *)
Definition insertion_argsort (A : Type) (leb : A -> A -> bool)
  (keys : list A) : list nat :=
  map fst (fold_right (insert_key leb) []
                      (combine (seq 0 (length keys)) keys)).

(* ===================================================================== *)
(** ** [numpy]'s quicksort *)
(* ===================================================================== *)

(** The index sort [numpy] runs for [kind="quicksort"], the default of
    [sort_values], as its scalar routine [aquicksort_] has it: a quicksort
    on the array of positions with the median of three as pivot, an
    insertion sort for ranges of 17 positions or fewer, and a heapsort
    once the partitions have gone deeper than twice the binary logarithm
    of the length. Keys are compared with the strict order only, and
    nothing keeps equal keys in their order. (For 64-bit keys, on
    processors with AVX-512 or AVX2, recent versions of [numpy] run a
    vectorised quicksort in its place; it is not stable either, and may
    leave equal keys in another order than this one.) *)
Module Numpy.

Section Quicksort.

Variable A : Type.
(** [Tag::less], the strict order of the keys. *)
Variable lt : A -> A -> bool.
Variable v : list A.

(** [v[i] < v[j]] *)
Definition less (i j : nat) : bool :=
  match nth_error v i, nth_error v j with
  | Some x, Some y => lt x y
  | _, _ => false
  end.

(** [tosort[p]] and [tosort[p] = x] *)
Definition get (tosort : list nat) (p : nat) : nat := nth p tosort 0.

Fixpoint set (tosort : list nat) (p x : nat) : list nat :=
  match tosort, p with
  | [], _ => []
  | _ :: t, O => x :: t
  | y :: t, S p' => y :: set t p' x
  end.

(** [INTP_SWAP(tosort[p], tosort[q])] *)
Definition swap (tosort : list nat) (p q : nat) : list nat :=
  set (set tosort p (get tosort q)) q (get tosort p).

(** [do ++pi; while (v[*pi] < vp)] and [do --pj; while (vp < v[*pj])];
    [vp] is given by its position in [v]. *)
Fixpoint scan_up (fuel : nat) (tosort : list nat) (vp pi : nat) : nat :=
  match fuel with
  | O => pi
  | S fuel' =>
      if less (get tosort (S pi)) vp then scan_up fuel' tosort vp (S pi)
      else S pi
  end.

Fixpoint scan_down (fuel : nat) (tosort : list nat) (vp pj : nat) : nat :=
  match fuel with
  | O => pj
  | S fuel' =>
      if less vp (get tosort (pred pj)) then scan_down fuel' tosort vp (pred pj)
      else pred pj
  end.

Fixpoint partition_loop (fuel : nat) (tosort : list nat) (vp pi pj : nat)
  : list nat * nat :=
  match fuel with
  | O => (tosort, pi)
  | S fuel' =>
      let pi := scan_up (length tosort) tosort vp pi in
      let pj := scan_down (length tosort) tosort vp pj in
      if (pj <=? pi)%nat then (tosort, pi)
      else partition_loop fuel' (swap tosort pi pj) vp pi pj
  end.

(** The partition of [tosort[pl..pr]] around the median of three; the
    result is the array and the final place of the pivot. *)
Definition partition (tosort : list nat) (pl pr : nat) : list nat * nat :=
  let pm := pl + (pr - pl) / 2 in
  let tosort :=
    if less (get tosort pm) (get tosort pl) then swap tosort pm pl
    else tosort in
  let tosort :=
    if less (get tosort pr) (get tosort pm) then swap tosort pr pm
    else tosort in
  let tosort :=
    if less (get tosort pm) (get tosort pl) then swap tosort pm pl
    else tosort in
  let vp := get tosort pm in
  let tosort := swap tosort pm (pr - 1) in
  let '(tosort, pi) :=
    partition_loop (length tosort) tosort vp pl (pr - 1) in
  (swap tosort pi (pr - 1), pi).

(** The insertion sort of [tosort[pl..pr]]. *)
Fixpoint insert_down (fuel : nat) (tosort : list nat) (pl pj vi : nat)
  : list nat :=
  match fuel with
  | O => set tosort pj vi
  | S fuel' =>
      if (pl <? pj)%nat && less vi (get tosort (pj - 1))
      then insert_down fuel' (set tosort pj (get tosort (pj - 1))) pl (pj - 1) vi
      else set tosort pj vi
  end.

Fixpoint insertion (fuel : nat) (tosort : list nat) (pl pi pr : nat)
  : list nat :=
  match fuel with
  | O => tosort
  | S fuel' =>
      if (pi <=? pr)%nat
      then insertion fuel'
             (insert_down (length tosort) tosort pl pi (get tosort pi))
             pl (S pi) pr
      else tosort
  end.

(** [aheapsort_] on the [n] positions from [pl] on; [a[k]] of the C code,
    which counts from 1, is [tosort[pl + k - 1]]. *)
Fixpoint sift (fuel : nat) (tosort : list nat) (pl tmp i j n : nat)
  : list nat :=
  match fuel with
  | O => set tosort (pl + i - 1) tmp
  | S fuel' =>
      if (j <=? n)%nat then
        let j :=
          if (j <? n)%nat
             && less (get tosort (pl + j - 1)) (get tosort (pl + j))
          then j + 1 else j in
        if less tmp (get tosort (pl + j - 1))
        then sift fuel' (set tosort (pl + i - 1) (get tosort (pl + j - 1)))
                  pl tmp j (j + j) n
        else set tosort (pl + i - 1) tmp
      else set tosort (pl + i - 1) tmp
  end.

Fixpoint heapify (l : nat) (tosort : list nat) (pl n : nat) : list nat :=
  match l with
  | O => tosort
  | S l' =>
      heapify l' (sift n tosort pl (get tosort (pl + l - 1)) l (l + l) n) pl n
  end.

Fixpoint sortdown (n : nat) (tosort : list nat) (pl : nat) : list nat :=
  match n with
  | O => tosort
  | S n' =>
      match n' with
      | O => tosort
      | S _ =>
          let tmp := get tosort (pl + n - 1) in
          let tosort := set tosort (pl + n - 1) (get tosort pl) in
          sortdown n' (sift n' tosort pl tmp 1 2 n') pl
      end
  end.

Definition aheapsort (tosort : list nat) (pl n : nat) : list nat :=
  sortdown n (heapify (n / 2) tosort pl n) pl.

(** The loop of [aquicksort_] on [tosort[pl..pr]]. [popped] tells that
    the range comes from the stack (or is the whole array): only then is
    the depth looked at. Of the two parts of a partition the larger one is
    pushed on the stack and the smaller one sorted first. *)
Fixpoint aquicksort_loop (fuel : nat) (popped : bool) (cdepth : Z)
  (tosort : list nat) (pl pr : nat) : list nat :=
  match fuel with
  | O => tosort
  | S fuel' =>
      if popped && (cdepth <? 0)%Z then aheapsort tosort pl (S pr - pl)
      else if (16 <? pr - pl)%nat then
        let '(tosort, pi) := partition tosort pl pr in
        let cdepth := (cdepth - 1)%Z in
        if (pi - pl <? pr - pi)%nat then
          let tosort := aquicksort_loop fuel' false cdepth tosort pl (pi - 1) in
          aquicksort_loop fuel' true cdepth tosort (pi + 1) pr
        else
          let tosort := aquicksort_loop fuel' false cdepth tosort (pi + 1) pr in
          aquicksort_loop fuel' true cdepth tosort pl (pi - 1)
      else insertion (length tosort) tosort pl (S pl) pr
  end.

(** [npy_aquicksort]: the positions [0 .. num - 1] sorted by their keys. *)
Definition aquicksort : list nat :=
  let num := length v in
  aquicksort_loop (S num) true (2 * Z.log2 (Z.of_nat num))
                  (seq 0 num) 0 (num - 1).

End Quicksort.

(** [a.argsort(kind="quicksort")] for keys ordered by [leb]. *)
Definition argsort (A : Type) (leb : A -> A -> bool) (keys : list A)
  : list nat :=
  aquicksort A (fun a b => negb (leb b a)) keys.

End Numpy.

(* ===================================================================== *)
(** ** A small export, for examples *)
(* ===================================================================== *)

Definition day (d : Z) : timestamp := Some (to_datetime d).

Definition camp_a : Py.str := Py.of_string "A: desc1".
Definition camp_b : Py.str := Py.of_string "B: desc2".

(** Three rows as [pd.read_csv] gives them: campaign A on 2025-06-10 and
    on 2025-06-09, in this order, then campaign B. *)
Definition exportacion : DataFrame :=
  Frame [0; 1; 2]%Z
    [("Nombre de la campaña", Object [camp_a; camp_a; camp_b]);
     ("Inicio del informe", Datetime64 [day 20249; day 20248; day 20248]);
     ("Fin del informe", Datetime64 [day 20277; day 20277; day 20277]);
     ("Fin", Datetime64 [None; None; None]);
     ("Importe gastado (BOB)",
      Float64 [F64.of_int 100; F64.of_int 100; F64.of_int 50]);
     ("Impresiones", Int64 [0; 1000; 2000]%Z);
     ("Alcance", Int64 [0; 800; 1500]%Z);
     ("Resultados", Int64 [10; 5; 5]%Z);
     ("Coste por resultados",
      Float64 [F64.of_int 10; F64.of_int 20; F64.of_int 10])].

(** The same export without the column of the campaign names. *)
Definition exportacion_sin_campana : DataFrame :=
  Frame (index exportacion) (tl (columns exportacion)).

(** Every campaign and the whole period selected. *)
Definition todo : inputs := Inputs [camp_a; camp_b] 20248 20277.

(** A period that ends before the first report starts. *)
Definition nada : inputs := Inputs [camp_a; camp_b] 20000 20001.

(** The export once cleaned, and once filtered with everything
    selected. *)
Definition limpio : DataFrame :=
  match metricas exportacion with
  | Ok df => df
  | Err _ => empty_frame
  end.

Definition filtrado : DataFrame :=
  match filtrar limpio (campanas_seleccionadas todo) (fecha_min todo)
          (fecha_max todo) with
  | Ok df => df
  | Err _ => empty_frame
  end.

(** A filtered table with eleven campaigns, one row each. *)
Definition once_campanas : DataFrame :=
  Frame (map Z.of_nat (seq 0 11))
    [("campana", Object (map (fun n => [67%N; N.of_nat n]) (seq 65 11)));
     ("Inicio del informe", Datetime64 (repeat (day 20248) 11));
     ("resultados", Int64 (repeat 1%Z 11))].

(** The same export without the column of the reach. *)
Definition exportacion_sin_alcance : DataFrame :=
  Frame (index exportacion)
        (filter (fun cs => negb (label_eqb (fst cs) "Alcance"))
                (columns exportacion)).

(** An export of 600 rows of one campaign, all with the same spend, told
    apart by their results (0, 1, 2, ... in the order of the file). *)
Definition exportacion_empates : DataFrame :=
  Frame (map Z.of_nat (seq 0 600))
    [("Nombre de la campaña", Object (repeat camp_a 600));
     ("Inicio del informe", Datetime64 (repeat (day 20248) 600));
     ("Fin del informe", Datetime64 (repeat (day 20277) 600));
     ("Fin", Datetime64 (repeat None 600));
     ("Importe gastado (BOB)", Float64 (repeat (F64.of_int 100) 600));
     ("Impresiones", Int64 (repeat 1000%Z 600));
     ("Alcance", Int64 (repeat 800%Z 600));
     ("Resultados", Int64 (map Z.of_nat (seq 0 600)));
     ("Coste por resultados", Float64 (repeat (F64.of_int 10) 600))].

(** The table the script filters out of an export when every campaign and
    the whole period are selected. *)
Definition todo_filtrado (data : DataFrame) : result DataFrame :=
  let? clean := metricas data in
  filtrar clean (campanas_seleccionadas todo) (fecha_min todo) (fecha_max todo).

(** The same export without the column of the results. *)
Definition exportacion_sin_resultados : DataFrame :=
  Frame (index exportacion)
        (filter (fun cs => negb (label_eqb (fst cs) "Resultados"))
                (columns exportacion)).

(* ===================================================================== *)
(** ** Notions the proofs use *)
(* ===================================================================== *)

(** The frame [metricas] returns on numeric columns. *)
Definition with_metrics (data : DataFrame) (x y g : list F64.t) : DataFrame :=
  let ctr := map (fun q => F64.mul q (F64.of_int 100)) (zip_with F64.div x y) in
  let cpm := map (fun q => F64.mul q (F64.of_int 1000)) (zip_with F64.div g y) in
  setitem (setitem (rename renamed_columns data) "CTR" (Float64 ctr))
          "CPM" (Float64 cpm).

(** The points of the trace of campaign [c]: the values of a column at
    the rows of [c], in the order of the table. *)
Definition points_of (v : list Py.str) (c : Py.str) (s : Series) : Series :=
  compress_series (map (fun k => Py.eqb k c) v) s.

Definition trace_of (v : list Py.str) (inicio resultados : Series)
  (c : Py.str) (t : trace) : Prop :=
  nombre_traza c = Ok (trace_name t)
  /\ trace_x t = points_of v c inicio
  /\ trace_y t = points_of v c resultados.

(** A float read as a triple of integers compared lexicographically. *)
Definition float_rank (x : F64.t) : Z * Z * Z :=
  match x with
  | S754_nan => (3, 0, 0)
  | S754_infinity false => (2, 0, 0)
  | S754_infinity true => (-2, 0, 0)
  | S754_zero _ => (0, 0, 0)
  | S754_finite false m e => (1, e, Zpos m)
  | S754_finite true m e => (-1, - e, Zneg m)
  end%Z.

Definition lex_le (a b : Z * Z * Z) : Prop :=
  let '(a1, a2, a3) := a in
  let '(b1, b2, b3) := b in
  (a1 < b1 \/ (a1 = b1 /\ (a2 < b2 \/ (a2 = b2 /\ a3 <= b3))))%Z.

(** The order of the pairs of a position and a key the insertion sort
    works on. *)
Definition key_before {A : Type} (leb : A -> A -> bool) (p q : nat * A)
  : Prop :=
  leb (snd p) (snd q) = true.

(** A piece of script that only adds to the page, and adds only elements
    that satisfy [P]. *)
Definition adds {A : Type} (P : element -> Prop) (m : script A) : Prop :=
  forall page, exists shown, snd (m page) = page ++ shown /\ Forall P shown.

Ltac distinct_labels :=
  repeat (apply NoDup_cons; [simpl; intuition discriminate|]); apply NoDup_nil.

(* ===================================================================== *)
(** ** Further notions: labels, sums, messages *)
(* ===================================================================== *)

(** The labels of the columns, in order. *)
Definition labels (df : DataFrame) : list string := map fst (columns df).

(** The sum of integers, without wrap-around. *)
Definition Zsum (v : list Z) : Z := fold_right Z.add 0%Z v.

Definition no_data_warning : element :=
  st_warning "No se encontraron datos. Verifica el archivo CSV.".

Definition load_error (e : exn) : element :=
  st_error ("Error al cargar datos: " ++ exn_msg e)%string.

(** The columns the loader computes the metrics from. *)
Definition metric_columns : list string :=
  ["resultados"; "impresiones"; "gasto"].

(** One step of [min] and of [max] over a column of dates, missing dates
    skipped. *)
Definition ts_step_min (acc x : timestamp) : timestamp :=
  match acc, x with
  | Some a, Some b => Some (Z.min a b)
  | None, _ => x
  | _, None => acc
  end.

Definition ts_step_max (acc x : timestamp) : timestamp :=
  match acc, x with
  | Some a, Some b => Some (Z.max a b)
  | None, _ => x
  | _, None => acc
  end.


(* ===================================================================== *)
(* ===================================================================== *)
(** * Properties *)
(* ===================================================================== *)
(* ===================================================================== *)

(* ===================================================================== *)
(** ** Facts on Python strings *)
(* ===================================================================== *)

Lemma str_eqb_eq (a b : Py.str) : Py.eqb a b = true <-> a = b.
Proof.
  revert b; induction a as [|x a IH]; intros [|y b]; simpl;
    try (split; (reflexivity || discriminate)).
  rewrite andb_true_iff, N.eqb_eq, IH.
  split; [intros [-> ->]; reflexivity | intros H; inversion H; auto].
Qed.

Lemma str_mem_In (x : Py.str) (values : list Py.str) :
  Py.mem x values = true <-> In x values.
Proof.
  unfold Py.mem. rewrite existsb_exists. split.
  - intros (y & Hy & E). apply str_eqb_eq in E. subst. exact Hy.
  - intros H. exists x. split; [exact H | apply str_eqb_eq; reflexivity].
Qed.

Lemma split_no_sep (sep : Py.char) (s : Py.str) :
  ~ In sep s -> Py.split sep s = [s].
Proof.
  induction s as [|c s IH]; intros H; simpl; [reflexivity|].
  destruct (N.eqb_spec c sep) as [->|_].
  - exfalso. apply H. left. reflexivity.
  - rewrite IH; [reflexivity|]. intros K. apply H. right. exact K.
Qed.

Lemma split_at_sep (sep : Py.char) (pre suf : Py.str) :
  exists w ws, Py.split sep (pre ++ sep :: suf) = (w :: ws) ++ Py.split sep suf.
Proof.
  induction pre as [|c pre (w & ws & IH)]; simpl.
  - rewrite N.eqb_refl. exists [], []. reflexivity.
  - destruct (N.eqb c sep).
    + exists [], (w :: ws). rewrite IH. reflexivity.
    + rewrite IH. simpl. exists (c :: w), ws. reflexivity.
Qed.

Lemma split_not_nil (sep : Py.char) (s : Py.str) : Py.split sep s <> [].
Proof.
  destruct s as [|c s]; simpl; [discriminate|].
  destruct (N.eqb c sep); [discriminate|].
  destruct (Py.split sep s); discriminate.
Qed.

Lemma last_item_app {A : Type} (l1 l2 : list A) :
  l2 <> [] -> Py.last_item (l1 ++ l2) = Py.last_item l2.
Proof.
  intros H. induction l1 as [|x l1 IH]; simpl; [reflexivity|].
  rewrite IH. destruct (l1 ++ l2) eqn:E; [|reflexivity].
  apply app_eq_nil in E. destruct E as [_ E]. contradiction.
Qed.

Lemma last_split_after (pre suf : Py.str) :
  ~ In Py.colon suf ->
  Py.last_item (Py.split Py.colon (pre ++ Py.colon :: suf)) = Some suf.
Proof.
  intros H. destruct (split_at_sep Py.colon pre suf) as (w & ws & E).
  rewrite E, last_item_app by apply split_not_nil.
  rewrite split_no_sep by exact H. reflexivity.
Qed.

Lemma lstrip_decomp (s : Py.str) :
  exists ws, s = ws ++ Py.lstrip s /\ forallb Py.isspace ws = true.
Proof.
  induction s as [|c s (ws & E & H)]; simpl.
  - exists []. split; reflexivity.
  - destruct (Py.isspace c) eqn:Hc.
    + exists (c :: ws). simpl. rewrite Hc, H. split; [f_equal; exact E | reflexivity].
    + exists []. split; reflexivity.
Qed.

Lemma lstrip_head (s : Py.str) (c : Py.char) (t : Py.str) :
  Py.lstrip s = c :: t -> Py.isspace c = false.
Proof.
  induction s as [|x s IH]; simpl; [discriminate|].
  destruct (Py.isspace x) eqn:Hx; [exact IH|].
  intros E. inversion E. subst. exact Hx.
Qed.

Lemma lstrip_nil (s : Py.str) :
  Py.lstrip s = [] <-> forallb Py.isspace s = true.
Proof.
  induction s as [|c s IH]; simpl; [tauto|].
  destruct (Py.isspace c); simpl; [exact IH|].
  split; discriminate.
Qed.

Lemma forallb_rev {A : Type} (p : A -> bool) (l : list A) :
  forallb p (rev l) = forallb p l.
Proof.
  induction l as [|x l IH]; simpl; [reflexivity|].
  rewrite forallb_app, IH. simpl. rewrite andb_true_r. apply andb_comm.
Qed.

Lemma rstrip_decomp (s : Py.str) :
  exists ws, s = Py.rstrip s ++ ws /\ forallb Py.isspace ws = true.
Proof.
  unfold Py.rstrip. destruct (lstrip_decomp (rev s)) as (ws & E & H).
  exists (rev ws). split.
  - rewrite <- rev_app_distr, <- E, rev_involutive. reflexivity.
  - rewrite forallb_rev. exact H.
Qed.

(** [strip] removes a run of white space at each end and nothing else;
    what is left neither starts nor ends with white space. *)
Lemma strip_spec (s : Py.str) :
  exists a b,
    s = a ++ Py.strip s ++ b
    /\ forallb Py.isspace a = true
    /\ forallb Py.isspace b = true
    /\ (forall c t, Py.strip s = c :: t -> Py.isspace c = false)
    /\ (forall t c, Py.strip s = t ++ [c] -> Py.isspace c = false).
Proof.
  destruct (rstrip_decomp s) as (b & Eb & Hb).
  destruct (lstrip_decomp (Py.rstrip s)) as (a & Ea & Ha).
  exists a, b. unfold Py.strip. repeat split.
  - rewrite app_assoc, <- Ea. exact Eb.
  - exact Ha.
  - exact Hb.
  - intros c t. apply lstrip_head.
  - intros t c E.
    assert (R : rev (Py.rstrip s) = Py.lstrip (rev s))
      by (unfold Py.rstrip; apply rev_involutive).
    rewrite E in Ea.
    rewrite Ea, app_assoc, rev_app_distr in R. simpl in R.
    symmetry in R. apply lstrip_head in R. exact R.
Qed.

Lemma strip_nil (s : Py.str) :
  Py.strip s = [] <-> forallb Py.isspace s = true.
Proof.
  unfold Py.strip. rewrite lstrip_nil.
  destruct (rstrip_decomp s) as (ws & E & H).
  rewrite E at 2. rewrite forallb_app, H, andb_true_r. tauto.
Qed.

Lemma last_colon_decomp (x : Py.str) :
  ~ In Py.colon x
  \/ exists pre suf, x = pre ++ Py.colon :: suf /\ ~ In Py.colon suf.
Proof.
  induction x as [|c x [IH|(pre & suf & -> & IH)]].
  - left. intros [].
  - destruct (N.eqb_spec c Py.colon) as [->|Hc].
    + right. exists [], x. split; [reflexivity | exact IH].
    + left. intros [K|K]; [apply Hc; exact K | apply IH; exact K].
  - right. exists (c :: pre), suf. split; [reflexivity | exact IH].
Qed.

(** C10. The label of a campaign, in the multiselect ([format_func]) and
    as the name of its trace ([nombre_traza]), is the part of the name
    after its last colon, stripped of the white space around it, and is
    computed without an exception: so it is for [pre ++ ":" ++ suf] when
    [suf] holds no colon. A name [suf] with no colon is its own label once
    stripped, and that label is empty only when the name holds nothing but
    white space. *)
Theorem label_after_last_colon (pre suf : Py.str) :
  ~ In Py.colon suf ->
  format_func (pre ++ Py.colon :: suf) = Ok (Py.strip suf)
  /\ nombre_traza (pre ++ Py.colon :: suf) = Ok (Py.strip suf)
  /\ format_func suf = Ok (Py.strip suf)
  /\ nombre_traza suf = Ok (Py.strip suf)
  /\ (Py.strip suf = [] <-> forallb Py.isspace suf = true).
Proof.
  intros H. unfold format_func, nombre_traza.
  rewrite last_split_after by exact H.
  rewrite split_no_sep by exact H. simpl.
  repeat split; apply strip_nil.
Qed.

Lemma label_after_last_colon_witness :
  format_func (Py.of_string "Ventas: junio : promo ")
  = Ok (Py.of_string "promo")
  /\ format_func (Py.of_string " promo ") = Ok (Py.of_string "promo").
Proof.
  assert (H : ~ In Py.colon (Py.of_string " promo ")).
  { vm_compute. intros H.
    repeat (destruct H as [H|H]; [discriminate H|]). exact H. }
  pose proof (label_after_last_colon (Py.of_string "Ventas: junio ")
                (Py.of_string " promo ") H) as (E1 & _ & E2 & _).
  split; [exact E1 | exact E2].
Defined.

(* ===================================================================== *)
(** ** Facts on masks and positional selection *)
(* ===================================================================== *)

Lemma compress_nil_r {A : Type} (m : list bool) : compress m (@nil A) = [].
Proof. destruct m as [|[] m]; reflexivity. Qed.

Lemma compress_map {A B : Type} (f : A -> B) (m : list bool) (l : list A) :
  compress m (map f l) = map f (compress m l).
Proof.
  revert l; induction m as [|b m IH]; intros [|x l]; simpl; try reflexivity.
  destruct b; simpl; rewrite IH; reflexivity.
Qed.

Lemma zip_with_nil_r {A B C : Type} (f : A -> B -> C) (a : list A) :
  zip_with f a [] = [].
Proof. destruct a; reflexivity. Qed.

Lemma compress_zip_with {A B C : Type} (f : A -> B -> C) (m : list bool)
  (a : list A) (b : list B) :
  compress m (zip_with f a b) = zip_with f (compress m a) (compress m b).
Proof.
  revert a b; induction m as [|x m IH]; intros [|u a] [|v b]; simpl;
    try reflexivity.
  - rewrite zip_with_nil_r. reflexivity.
  - destruct x; simpl; rewrite IH; reflexivity.
Qed.

Lemma compress_idem {A : Type} (m : list bool) (l : list A) :
  compress (compress m m) (compress m l) = compress m l.
Proof.
  revert l; induction m as [|b m IH]; intros [|x l]; simpl; try reflexivity.
  - apply compress_nil_r.
  - destruct b; simpl; rewrite IH; reflexivity.
Qed.

Lemma compress_filter {A : Type} (p : A -> bool) (l : list A) :
  compress (map p l) l = filter p l.
Proof.
  induction l as [|x l IH]; simpl; [reflexivity|].
  destruct (p x); rewrite IH; reflexivity.
Qed.

Lemma compress_repeat {A : Type} (m : list bool) (x : A) (n : nat) :
  compress m (repeat x n) = repeat x (length (compress m (repeat x n))).
Proof.
  revert n; induction m as [|b m IH]; intros [|n]; simpl; try reflexivity.
  destruct b; simpl; rewrite <- IH; reflexivity.
Qed.

Lemma repeat_map_const {A B : Type} (y : B) (l : list A) :
  repeat y (length l) = map (fun _ => y) l.
Proof. induction l as [|x l IH]; simpl; [|rewrite IH]; reflexivity. Qed.

Lemma zip_with_length {A B C : Type} (f : A -> B -> C) (a : list A)
  (b : list B) :
  length (zip_with f a b) = Nat.min (length a) (length b).
Proof.
  revert b; induction a as [|x a IH]; intros [|y b]; simpl; try reflexivity.
  rewrite IH. reflexivity.
Qed.

Lemma cells_length (s : Series) : length (cells s) = size s.
Proof. destruct s; simpl; apply length_map. Qed.

Lemma cells_compress (m : list bool) (s : Series) :
  cells (compress_series m s) = compress m (cells s).
Proof. destruct s; simpl; symmetry; apply compress_map. Qed.

(* ===================================================================== *)
(** ** Facts on labels, columns and rows *)
(* ===================================================================== *)

Lemma label_eqb_eq (a b : string) : label_eqb a b = true <-> a = b.
Proof.
  revert b; induction a as [|x a IH]; intros [|y b]; simpl;
    try (split; (reflexivity || discriminate)).
  rewrite andb_true_iff, Ascii.eqb_eq, IH.
  split; [intros [-> ->]; reflexivity | intros H; inversion H; auto].
Qed.

Lemma label_eqb_refl (a : string) : label_eqb a a = true.
Proof. apply label_eqb_eq. reflexivity. Qed.

Lemma lookup_select (c : string) (m : list bool) (cols : list (string * Series)) :
  lookup c (map (fun cs => (fst cs, compress_series m (snd cs))) cols)
  = option_map (compress_series m) (lookup c cols).
Proof.
  induction cols as [|[c' s] cols IH]; simpl; [reflexivity|].
  destruct (label_eqb c c'); [reflexivity | exact IH].
Qed.

Lemma getitem_select (df : DataFrame) (c : string) (m : list bool) (s : Series) :
  getitem df c = Ok s ->
  getitem (select m df) c = Ok (compress_series m s).
Proof.
  unfold getitem, select. simpl. rewrite lookup_select.
  destruct (lookup c (columns df)); [|discriminate].
  intros E. inversion E. reflexivity.
Qed.

Lemma getitem_lookup (df : DataFrame) (c : string) (s : Series) :
  getitem df c = Ok s <-> lookup c (columns df) = Some s.
Proof.
  unfold getitem. destruct (lookup c (columns df)).
  - split; intros E; inversion E; reflexivity.
  - split; discriminate.
Qed.

Lemma lookup_assign_same (c : string) (s : Series) (cols : list (string * Series)) :
  lookup c (assign c s cols) = Some s.
Proof.
  induction cols as [|[c' s'] cols IH]; simpl.
  - rewrite label_eqb_refl. reflexivity.
  - destruct (label_eqb c c') eqn:E; simpl.
    + rewrite label_eqb_refl. reflexivity.
    + rewrite E. exact IH.
Qed.

Lemma lookup_assign_other (c c' : string) (s : Series)
  (cols : list (string * Series)) :
  label_eqb c' c = false ->
  lookup c' (assign c s cols) = lookup c' cols.
Proof.
  intros H. induction cols as [|[k s'] cols IH]; simpl.
  - rewrite H. reflexivity.
  - destruct (label_eqb c k) eqn:E; simpl.
    + apply label_eqb_eq in E. subst k. rewrite H. reflexivity.
    + rewrite IH. reflexivity.
Qed.

Lemma Forall_assign (P : string * Series -> Prop) (c : string) (s : Series)
  (cols : list (string * Series)) :
  P (c, s) -> Forall P cols -> Forall P (assign c s cols).
Proof.
  intros Hs H. induction H as [|[k s'] cols Hk H IH]; simpl.
  - constructor; [exact Hs | constructor].
  - destruct (label_eqb c k); constructor; assumption.
Qed.

Lemma rows_of_length (ix : list Z) (cols : list (string * Series)) :
  Forall (fun cs => size (snd cs) = length ix) cols ->
  length (rows_of ix cols) = length ix.
Proof.
  induction 1 as [|[c s] cols Hs H IH]; simpl.
  - apply length_map.
  - rewrite zip_with_length, cells_length, IH. simpl in Hs. lia.
Qed.

Lemma rows_length (df : DataFrame) :
  aligned df -> length (rows df) = nrows df.
Proof. apply rows_of_length. Qed.

Lemma map_field_add_same (c : string) (xs : list cell) (rs : list row) :
  length xs = length rs ->
  map (field c) (zip_with (add_field c) xs rs) = map Some xs.
Proof.
  revert rs; induction xs as [|x xs IH]; intros [|r rs] H; simpl in *;
    try reflexivity; try discriminate.
  rewrite label_eqb_refl, IH by lia. reflexivity.
Qed.

Lemma map_field_add_other (c c' : string) (xs : list cell) (rs : list row) :
  label_eqb c c' = false -> length xs = length rs ->
  map (field c) (zip_with (add_field c') xs rs) = map (field c) rs.
Proof.
  intros E. revert rs; induction xs as [|x xs IH]; intros [|r rs] H;
    simpl in *; try reflexivity; try discriminate.
  rewrite E, IH by lia. reflexivity.
Qed.

(** Reading the field [c] of every row gives back the column [c]. *)
Lemma map_field_rows_of (c : string) (s : Series) (ix : list Z)
  (cols : list (string * Series)) :
  Forall (fun cs => size (snd cs) = length ix) cols ->
  lookup c cols = Some s ->
  map (field c) (rows_of ix cols) = map Some (cells s).
Proof.
  induction 1 as [|[c' s'] cols Hs H IH]; simpl; [discriminate|].
  simpl in Hs.
  assert (L : length (cells s') = length (rows_of ix cols))
    by (rewrite cells_length, rows_of_length; assumption).
  destruct (label_eqb c c') eqn:E.
  - intros K. inversion K. subst s'. apply label_eqb_eq in E. subst c'.
    apply map_field_add_same. exact L.
  - intros K. rewrite map_field_add_other by assumption. apply IH. exact K.
Qed.

Lemma map_field_rows (df : DataFrame) (c : string) (s : Series) :
  aligned df -> getitem df c = Ok s ->
  map (field c) (rows df) = map Some (cells s).
Proof.
  intros H E. apply map_field_rows_of; [exact H | apply getitem_lookup, E].
Qed.

Lemma rows_select (m : list bool) (df : DataFrame) :
  rows (select m df) = compress m (rows df).
Proof.
  unfold rows, select. simpl.
  induction (columns df) as [|[c s] cols IH]; simpl.
  - symmetry. apply compress_map.
  - rewrite IH, cells_compress, compress_zip_with. reflexivity.
Qed.

(* ===================================================================== *)
(** ** The filter *)
(* ===================================================================== *)

Lemma isin_cells (s : Series) (seleccion : list Py.str) :
  isin s seleccion = map (cell_in seleccion) (cells s).
Proof.
  destruct s; simpl; rewrite map_map; simpl;
    try apply repeat_map_const; reflexivity.
Qed.

Lemma ge_timestamp_cells (v : list timestamp) (t : Z) :
  ge_timestamp (Datetime64 v) t = Ok (map (cell_ge t) (cells (Datetime64 v))).
Proof. simpl. rewrite map_map. reflexivity. Qed.

Lemma le_timestamp_cells (v : list timestamp) (t : Z) :
  le_timestamp (Datetime64 v) t = Ok (map (cell_le t) (cells (Datetime64 v))).
Proof. simpl. rewrite map_map. reflexivity. Qed.

Lemma mask_of_fields {R : Type} (h1 h2 h3 : R -> option cell)
  (f1 f2 f3 : cell -> bool) (l : list R) (xs ys zs : list cell) :
  map h1 l = map Some xs -> map h2 l = map Some ys -> map h3 l = map Some zs ->
  mask_and (mask_and (map f1 xs) (map f2 ys)) (map f3 zs)
  = map (fun r => match h1 r, h2 r, h3 r with
                  | Some x, Some y, Some z => f1 x && f2 y && f3 z
                  | _, _, _ => false
                  end) l.
Proof.
  revert xs ys zs; induction l as [|r l IH]; intros [|x xs] [|y ys] [|z zs];
    simpl; intros E1 E2 E3; try discriminate; try reflexivity.
  inversion E1 as [[K1 L1]]. inversion E2 as [[K2 L2]].
  inversion E3 as [[K3 L3]].
  rewrite K1, K2, K3. unfold mask_and in *. simpl. f_equal.
  apply IH; assumption.
Qed.

Lemma filtrar_mask (df : DataFrame) (seleccion : list Py.str) (lo hi : Z)
  (campana : Series) (inicio fin : list timestamp) :
  aligned df ->
  getitem df "campana" = Ok campana ->
  getitem df "Inicio del informe" = Ok (Datetime64 inicio) ->
  getitem df "Fin del informe" = Ok (Datetime64 fin) ->
  exists m,
    filtrar df seleccion lo hi = Ok (select m df)
    /\ m = map (row_selected seleccion lo hi) (rows df).
Proof.
  intros A E1 E2 E3. unfold filtrar. rewrite E1, E2, E3. simpl rbind.
  eexists. split; [reflexivity|].
  pose proof (isin_cells campana seleccion) as M1.
  pose proof (ge_timestamp_cells inicio (to_datetime lo)) as M2.
  pose proof (le_timestamp_cells fin (to_datetime hi)) as M3.
  simpl in M2, M3. inversion M2 as [M2']. inversion M3 as [M3'].
  rewrite M1. rewrite map_map in M2', M3'.
  change (map (fun x : timestamp => cell_ge (to_datetime lo) (TimeCell x)) inicio)
    with (map (fun x : timestamp =>
                 match x with Some a => (to_datetime lo <=? a)%Z | None => false end)
              inicio) in M2'.
  change (map (fun x : timestamp => cell_le (to_datetime hi) (TimeCell x)) fin)
    with (map (fun x : timestamp =>
                 match x with Some a => (a <=? to_datetime hi)%Z | None => false end)
              fin) in M3'.
  rewrite <- (map_map TimeCell (cell_ge (to_datetime lo))).
  rewrite <- (map_map TimeCell (cell_le (to_datetime hi))).
  apply (mask_of_fields (field "campana") (field "Inicio del informe")
           (field "Fin del informe")).
  - apply map_field_rows; assumption.
  - apply (map_field_rows df _ (Datetime64 inicio)); assumption.
  - apply (map_field_rows df _ (Datetime64 fin)); assumption.
Qed.

(** C3. The filtered table holds exactly the rows of the cleaned table
    whose campaign is one of the selected ones, whose report starts at the
    selected start or later and whose report ends at the selected end or
    earlier, in the order of the cleaned table; the filter raises nothing
    when the campaign column is there and the two date columns hold
    dates. *)
Theorem filtrar_selects (df : DataFrame) (seleccion : list Py.str)
  (lo hi : Z) (campana : Series) (inicio fin : list timestamp) :
  well_formed df ->
  getitem df "campana" = Ok campana ->
  getitem df "Inicio del informe" = Ok (Datetime64 inicio) ->
  getitem df "Fin del informe" = Ok (Datetime64 fin) ->
  exists df_filtrado,
    filtrar df seleccion lo hi = Ok df_filtrado
    /\ rows df_filtrado = filter (row_selected seleccion lo hi) (rows df)
    /\ forall r, In r (rows df_filtrado) <->
                 In r (rows df) /\ row_selected seleccion lo hi r = true.
Proof.
  intros [_ A] E1 E2 E3.
  destruct (filtrar_mask df seleccion lo hi campana inicio fin A E1 E2 E3)
    as (m & E & Hm).
  exists (select m df). split; [exact E|].
  assert (R : rows (select m df) = filter (row_selected seleccion lo hi) (rows df)).
  { rewrite rows_select, Hm. apply compress_filter. }
  split; [exact R|]. intros r. rewrite R. apply filter_In.
Qed.

Lemma compress_length_eq {A B : Type} (m : list bool) (a : list A)
  (b : list B) :
  length a = length b -> length (compress m a) = length (compress m b).
Proof.
  revert a b; induction m as [|x m IH]; intros [|u a] [|v b] H; simpl in *;
    try reflexivity; try discriminate.
  destruct x; simpl; rewrite (IH a b) by lia; reflexivity.
Qed.

Lemma size_compress (m : list bool) (s : Series) :
  size (compress_series m s) = length (compress m (repeat false (size s))).
Proof.
  destruct s; simpl; apply compress_length_eq; rewrite repeat_length;
    reflexivity.
Qed.

Lemma isin_compress (m : list bool) (s : Series) (seleccion : list Py.str) :
  isin (compress_series m s) seleccion = compress m (isin s seleccion).
Proof.
  destruct s; simpl; try (symmetry; apply compress_map);
    rewrite compress_repeat; f_equal; apply compress_length_eq;
    rewrite repeat_length; reflexivity.
Qed.

Lemma ge_timestamp_compress (m : list bool) (s : Series) (t : Z)
  (mask : list bool) :
  ge_timestamp s t = Ok mask ->
  ge_timestamp (compress_series m s) t = Ok (compress m mask).
Proof.
  destruct s; simpl; try discriminate.
  intros E. inversion E. rewrite compress_map. reflexivity.
Qed.

Lemma le_timestamp_compress (m : list bool) (s : Series) (t : Z)
  (mask : list bool) :
  le_timestamp s t = Ok mask ->
  le_timestamp (compress_series m s) t = Ok (compress m mask).
Proof.
  destruct s; simpl; try discriminate.
  intros E. inversion E. rewrite compress_map. reflexivity.
Qed.

Lemma compress_series_idem (m : list bool) (s : Series) :
  compress_series (compress m m) (compress_series m s) = compress_series m s.
Proof. destruct s; simpl; rewrite compress_idem; reflexivity. Qed.

Lemma select_idem (m : list bool) (df : DataFrame) :
  select (compress m m) (select m df) = select m df.
Proof.
  unfold select. simpl. rewrite compress_idem, map_map. f_equal.
  apply map_ext. intros [c s]. simpl. rewrite compress_series_idem.
  reflexivity.
Qed.

(** What [filtrar] returns is the selection by some mask [m], and the
    masks of the three conditions on that selection are those of the
    frame, selected by [m]. *)
Lemma filtrar_inv (df : DataFrame) (seleccion : list Py.str) (lo hi : Z)
  (d : DataFrame) :
  filtrar df seleccion lo hi = Ok d ->
  exists campana inicio fin m2 m3,
    getitem df "campana" = Ok campana
    /\ getitem df "Inicio del informe" = Ok inicio
    /\ ge_timestamp inicio (to_datetime lo) = Ok m2
    /\ getitem df "Fin del informe" = Ok fin
    /\ le_timestamp fin (to_datetime hi) = Ok m3
    /\ d = select (mask_and (mask_and (isin campana seleccion) m2) m3) df.
Proof.
  unfold filtrar.
  destruct (getitem df "campana") as [campana|] eqn:E1; [|discriminate].
  destruct (getitem df "Inicio del informe") as [inicio|] eqn:E2;
    [|discriminate].
  simpl.
  destruct (ge_timestamp inicio (to_datetime lo)) as [m2|] eqn:E3;
    [|discriminate].
  destruct (getitem df "Fin del informe") as [fin|] eqn:E4; [|discriminate].
  simpl.
  destruct (le_timestamp fin (to_datetime hi)) as [m3|] eqn:E5;
    [|discriminate].
  simpl. intros E. inversion E.
  exists campana, inicio, fin, m2, m3.
  repeat split; assumption || reflexivity.
Qed.

(** C9. Filtering is idempotent: with the same selection, the filter
    applied to a filtered table returns that very table, rows and index
    alike. *)
Theorem filtrar_idempotent (df : DataFrame) (seleccion : list Py.str)
  (lo hi : Z) (df_filtrado : DataFrame) :
  filtrar df seleccion lo hi = Ok df_filtrado ->
  filtrar df_filtrado seleccion lo hi = Ok df_filtrado.
Proof.
  intros H.
  destruct (filtrar_inv _ _ _ _ _ H)
    as (campana & inicio & fin & m2 & m3 & E1 & E2 & E3 & E4 & E5 & ->).
  set (m := mask_and (mask_and (isin campana seleccion) m2) m3).
  unfold filtrar.
  rewrite (getitem_select _ _ m _ E1),
    (getitem_select _ _ m _ E2), (getitem_select _ _ m _ E4).
  simpl rbind.
  rewrite (ge_timestamp_compress m _ _ _ E3),
    (le_timestamp_compress m _ _ _ E5).
  simpl rbind. rewrite isin_compress. unfold mask_and.
  rewrite <- !compress_zip_with.
  fold (mask_and (isin campana seleccion) m2).
  fold (mask_and (mask_and (isin campana seleccion) m2) m3). fold m.
  rewrite select_idem. reflexivity.
Qed.

(* ===================================================================== *)
(** ** The loader and the derived metrics *)
(* ===================================================================== *)

Lemma div_by_zero (x y : F64.t) :
  F64.iszero y = true -> F64.isfinite (F64.div x y) = false.
Proof. destruct y; try discriminate. intros _. destruct x; reflexivity. Qed.

Lemma mul_not_finite (x k : F64.t) :
  F64.isfinite x = false -> F64.isfinite (F64.mul x k) = false.
Proof. destruct x; try discriminate; intros _; destruct k; reflexivity. Qed.

Lemma as_float_length (s : Series) (x : list F64.t) :
  as_float s = Some x -> length x = size s.
Proof.
  destruct s; simpl; intros E; inversion E; try reflexivity.
  apply length_map.
Qed.

Lemma as_float_numeric (s : Series) :
  numeric s = true -> exists x, as_float s = Some x.
Proof. destruct s; try discriminate; intros _; eexists; reflexivity. Qed.

Lemma as_float_cells (s : Series) (x : list F64.t) :
  as_float s = Some x -> map number (cells s) = map Some x.
Proof.
  destruct s; simpl; intros E; inversion E; rewrite !map_map; reflexivity.
Qed.

Lemma nth_error_zip_with {A B C : Type} (f : A -> B -> C) (a : list A)
  (b : list B) (i : nat) (u : A) (v : B) :
  nth_error a i = Some u -> nth_error b i = Some v ->
  nth_error (zip_with f a b) i = Some (f u v).
Proof.
  revert b i; induction a as [|x a IH]; intros [|y b] [|i]; simpl;
    try discriminate.
  - intros E1 E2. inversion E1. inversion E2. reflexivity.
  - apply IH.
Qed.

Lemma nth_error_map_eq {A B C : Type} (f : A -> C) (g : B -> C)
  (a : list A) (b : list B) (i : nat) (u : A) :
  map f a = map g b -> nth_error a i = Some u ->
  exists v, nth_error b i = Some v /\ f u = g v.
Proof.
  revert b i; induction a as [|x a IH]; intros [|y b] [|i]; simpl;
    try discriminate.
  - intros E K. inversion E. inversion K. subst. exists y. split; auto.
  - intros E K. inversion E. eapply IH; eassumption.
Qed.

(** The field [c] of the [i]-th row is the [i]-th value of column [c]. *)
Lemma field_at (df : DataFrame) (c : string) (s : Series) (i : nat) (r : row) :
  aligned df -> getitem df c = Ok s -> nth_error (rows df) i = Some r ->
  exists v, nth_error (cells s) i = Some v /\ field c r = Some v.
Proof.
  intros A E K.
  destruct (nth_error_map_eq _ _ _ _ i r (map_field_rows df c s A E) K)
    as (v & Hv & Ev).
  exists v. split; assumption.
Qed.

Lemma number_at (s : Series) (x : list F64.t) (i : nat) (v : cell) :
  as_float s = Some x -> nth_error (cells s) i = Some v ->
  exists u, nth_error x i = Some u /\ number v = Some u.
Proof.
  intros E K.
  destruct (nth_error_map_eq _ _ _ _ i v (as_float_cells s x E) K)
    as (u & Hu & Eu).
  exists u. split; assumption.
Qed.

Lemma getitem_setitem_other (df : DataFrame) (c c' : string) (s : Series) :
  label_eqb c' c = false -> getitem (setitem df c s) c' = getitem df c'.
Proof.
  intros H. unfold getitem, setitem. simpl.
  rewrite lookup_assign_other by exact H. reflexivity.
Qed.

Lemma getitem_setitem_same (df : DataFrame) (c : string) (s : Series) :
  getitem (setitem df c s) c = Ok s.
Proof. unfold getitem, setitem. simpl. rewrite lookup_assign_same. reflexivity. Qed.

Lemma metricas_numeric (data : DataFrame) (res imp gas : Series)
  (x y g : list F64.t) :
  getitem (rename renamed_columns data) "resultados" = Ok res ->
  getitem (rename renamed_columns data) "impresiones" = Ok imp ->
  getitem (rename renamed_columns data) "gasto" = Ok gas ->
  as_float res = Some x -> as_float imp = Some y -> as_float gas = Some g ->
  metricas data = Ok (with_metrics data x y g).
Proof.
  intros E1 E2 E3 F1 F2 F3. unfold metricas.
  rewrite E1, E2. simpl rbind. unfold truediv at 1. rewrite F1, F2.
  simpl rbind.
  rewrite !getitem_setitem_other by reflexivity. rewrite E3, E2.
  simpl rbind. unfold truediv. rewrite F3, F2. reflexivity.
Qed.

Lemma setitem_aligned (df : DataFrame) (c : string) (s : Series) :
  aligned df -> size s = nrows df -> aligned (setitem df c s).
Proof.
  intros A H. unfold aligned, setitem. simpl.
  apply Forall_assign; assumption.
Qed.

Lemma rename_aligned (mapping : list (string * string)) (df : DataFrame) :
  aligned df <-> aligned (rename mapping df).
Proof.
  unfold aligned, rename, nrows. simpl. rewrite Forall_map. simpl. tauto.
Qed.

Lemma getitem_size (df : DataFrame) (c : string) (s : Series) :
  aligned df -> getitem df c = Ok s -> size s = nrows df.
Proof.
  intros A E. apply getitem_lookup in E. unfold aligned in A.
  induction A as [|[c' s'] cols H A IH]; simpl in E; [discriminate|].
  destruct (label_eqb c c'); [inversion E; subst; exact H | exact (IH E)].
Qed.

Lemma labels_assign (c : string) (s : Series) (cols : list (string * Series)) :
  map fst (assign c s cols)
  = match lookup c cols with
    | Some _ => map fst cols
    | None => map fst cols ++ [c]
    end.
Proof.
  induction cols as [|[c' s'] cols IH]; simpl; [reflexivity|].
  destruct (label_eqb c c') eqn:E; simpl.
  - apply label_eqb_eq in E. subst. reflexivity.
  - rewrite IH. destruct (lookup c cols); reflexivity.
Qed.

Lemma lookup_none_labels (c : string) (cols : list (string * Series)) :
  lookup c cols = None <-> ~ In c (map fst cols).
Proof.
  induction cols as [|[c' s] cols IH]; simpl; [tauto|].
  destruct (label_eqb c c') eqn:E.
  - apply label_eqb_eq in E. subst. split; [discriminate | tauto].
  - rewrite IH. split; [|tauto]. intros H [K|K]; [|tauto].
    subst. rewrite label_eqb_refl in E. discriminate.
Qed.

Lemma NoDup_labels_assign (c : string) (s : Series)
  (cols : list (string * Series)) :
  NoDup (map fst cols) -> NoDup (map fst (assign c s cols)).
Proof.
  intros N. rewrite labels_assign.
  destruct (lookup c cols) eqn:E; [exact N|].
  apply lookup_none_labels in E.
  apply NoDup_rev in N. rewrite <- (rev_involutive (map fst cols ++ [c])).
  apply NoDup_rev. rewrite rev_app_distr. simpl. constructor; [|exact N].
  rewrite <- in_rev. exact E.
Qed.

Lemma with_metrics_aligned (data : DataFrame) (res imp gas : Series)
  (x y g : list F64.t) :
  aligned (rename renamed_columns data) ->
  getitem (rename renamed_columns data) "resultados" = Ok res ->
  getitem (rename renamed_columns data) "impresiones" = Ok imp ->
  getitem (rename renamed_columns data) "gasto" = Ok gas ->
  as_float res = Some x -> as_float imp = Some y -> as_float gas = Some g ->
  aligned (with_metrics data x y g).
Proof.
  intros A E1 E2 E3 F1 F2 F3.
  assert (N1 := getitem_size _ _ _ A E1).
  assert (N2 := getitem_size _ _ _ A E2).
  assert (N3 := getitem_size _ _ _ A E3).
  assert (L1 := as_float_length _ _ F1).
  assert (L2 := as_float_length _ _ F2).
  assert (L3 := as_float_length _ _ F3).
  unfold with_metrics.
  apply setitem_aligned; [apply setitem_aligned; [exact A|]|];
    unfold nrows in *; simpl in *; rewrite length_map, zip_with_length; lia.
Qed.

(** Row by row, the two metrics of a cleaned table. *)
Lemma metricas_rows (data : DataFrame) (res imp gas : Series)
  (x y g : list F64.t) (r : row) :
  aligned (rename renamed_columns data) ->
  getitem (rename renamed_columns data) "resultados" = Ok res ->
  getitem (rename renamed_columns data) "impresiones" = Ok imp ->
  getitem (rename renamed_columns data) "gasto" = Ok gas ->
  as_float res = Some x -> as_float imp = Some y -> as_float gas = Some g ->
  In r (rows (with_metrics data x y g)) ->
  exists resultados impresiones gasto,
    number_field "resultados" r = Some resultados
    /\ number_field "impresiones" r = Some impresiones
    /\ number_field "gasto" r = Some gasto
    /\ field "CTR" r
       = Some (FloatCell (F64.mul (F64.div resultados impresiones)
                                  (F64.of_int 100)))
    /\ field "CPM" r
       = Some (FloatCell (F64.mul (F64.div gasto impresiones)
                                  (F64.of_int 1000))).
Proof.
  intros A E1 E2 E3 F1 F2 F3 Hr.
  set (df0 := rename renamed_columns data) in *.
  assert (N1 := getitem_size _ _ _ A E1).
  assert (N2 := getitem_size _ _ _ A E2).
  assert (N3 := getitem_size _ _ _ A E3).
  assert (L1 := as_float_length _ _ F1).
  assert (L2 := as_float_length _ _ F2).
  assert (L3 := as_float_length _ _ F3).
  set (ctr := map (fun q => F64.mul q (F64.of_int 100)) (zip_with F64.div x y)).
  set (cpm := map (fun q => F64.mul q (F64.of_int 1000)) (zip_with F64.div g y)).
  assert (A1 : aligned (setitem df0 "CTR" (Float64 ctr))).
  { apply setitem_aligned; [exact A|]. simpl. unfold ctr.
    rewrite length_map, zip_with_length. lia. }
  assert (A2 : aligned (with_metrics data x y g)).
  { apply setitem_aligned; [exact A1|].
    unfold nrows in *. simpl in *.
    rewrite length_map, zip_with_length. lia. }
  apply In_nth_error in Hr. destruct Hr as (i & Hi).
  assert (G1 : getitem (with_metrics data x y g) "resultados" = Ok res).
  { unfold with_metrics. rewrite !getitem_setitem_other by reflexivity. exact E1. }
  assert (G2 : getitem (with_metrics data x y g) "impresiones" = Ok imp).
  { unfold with_metrics. rewrite !getitem_setitem_other by reflexivity. exact E2. }
  assert (G3 : getitem (with_metrics data x y g) "gasto" = Ok gas).
  { unfold with_metrics. rewrite !getitem_setitem_other by reflexivity. exact E3. }
  assert (G4 : getitem (with_metrics data x y g) "CTR" = Ok (Float64 ctr)).
  { unfold with_metrics. rewrite getitem_setitem_other by reflexivity.
    apply getitem_setitem_same. }
  assert (G5 : getitem (with_metrics data x y g) "CPM" = Ok (Float64 cpm)).
  { unfold with_metrics. apply getitem_setitem_same. }
  destruct (field_at _ _ _ _ _ A2 G1 Hi) as (v1 & C1 & R1).
  destruct (field_at _ _ _ _ _ A2 G2 Hi) as (v2 & C2 & R2).
  destruct (field_at _ _ _ _ _ A2 G3 Hi) as (v3 & C3 & R3).
  destruct (field_at _ _ _ _ _ A2 G4 Hi) as (v4 & C4 & R4).
  destruct (field_at _ _ _ _ _ A2 G5 Hi) as (v5 & C5 & R5).
  destruct (number_at _ _ _ _ F1 C1) as (u1 & X1 & M1).
  destruct (number_at _ _ _ _ F2 C2) as (u2 & X2 & M2).
  destruct (number_at _ _ _ _ F3 C3) as (u3 & X3 & M3).
  exists u1, u2, u3. unfold number_field. rewrite R1, R2, R3, R4, R5.
  repeat split; try assumption.
  - simpl in C4. unfold ctr in C4. rewrite !nth_error_map in C4.
    rewrite (nth_error_zip_with _ _ _ _ _ _ X1 X2) in C4. simpl in C4.
    inversion C4. reflexivity.
  - simpl in C5. unfold cpm in C5. rewrite !nth_error_map in C5.
    rewrite (nth_error_zip_with _ _ _ _ _ _ X3 X2) in C5. simpl in C5.
    inversion C5. reflexivity.
Qed.

Lemma cargar_datos_ok (read_csv : result DataFrame) (clean : DataFrame)
  (page : list element) :
  (let? data := read_csv in metricas data) = Ok clean ->
  cargar_datos read_csv page = (Done clean, page).
Proof.
  intros E. unfold cargar_datos, try_except, lift. rewrite E. reflexivity.
Qed.

(** An exception of one of the four classes of the [except] clause ends
    in the message and the empty frame. *)
Lemma cargar_datos_handled (read_csv : result DataFrame) (e : exn)
  (page : list element) :
  (let? data := read_csv in metricas data) = Err e ->
  handled e = true ->
  cargar_datos read_csv page
  = (Done empty_frame,
     page ++ [st_error ("Error al cargar datos: " ++ exn_msg e)%string]).
Proof.
  intros E H. unfold cargar_datos, try_except, lift. rewrite E, H.
  reflexivity.
Qed.


(** C2. When the export has numeric columns of results, impressions and
    spend, the loader returns a cleaned table without raising. The table
    has one row per row of the export, every column with one value per
    row, and the columns of the renamed export unchanged under every
    label other than CTR and CPM; in every row of it CTR is
    results / impressions * 100 and CPM is spend / impressions * 1000, in
    float64 arithmetic; where impressions are 0, both are infinite or
    NaN. *)
Theorem derived_metrics (raw : DataFrame) (res imp gas : Series) :
  well_formed (rename renamed_columns raw) ->
  getitem (rename renamed_columns raw) "resultados" = Ok res ->
  getitem (rename renamed_columns raw) "impresiones" = Ok imp ->
  getitem (rename renamed_columns raw) "gasto" = Ok gas ->
  numeric res = true -> numeric imp = true -> numeric gas = true ->
  exists clean,
    (forall page, cargar_datos (Ok raw) page = (Done clean, page))
    /\ nrows clean = nrows raw
    /\ index clean = index raw
    /\ well_formed clean
    /\ length (rows clean) = nrows raw
    /\ (forall c, c <> "CTR" -> c <> "CPM" ->
                  getitem clean c = getitem (rename renamed_columns raw) c)
    /\ forall r, In r (rows clean) ->
       exists resultados impresiones gasto ctr cpm,
         number_field "resultados" r = Some resultados
         /\ number_field "impresiones" r = Some impresiones
         /\ number_field "gasto" r = Some gasto
         /\ field "CTR" r = Some (FloatCell ctr)
         /\ field "CPM" r = Some (FloatCell cpm)
         /\ ctr = F64.mul (F64.div resultados impresiones) (F64.of_int 100)
         /\ cpm = F64.mul (F64.div gasto impresiones) (F64.of_int 1000)
         /\ (F64.iszero impresiones = true ->
             F64.isfinite ctr = false /\ F64.isfinite cpm = false).
Proof.
  intros [N A] E1 E2 E3 N1 N2 N3.
  destruct (as_float_numeric _ N1) as (x & F1).
  destruct (as_float_numeric _ N2) as (y & F2).
  destruct (as_float_numeric _ N3) as (g & F3).
  pose proof (with_metrics_aligned raw res imp gas x y g A E1 E2 E3 F1 F2 F3)
    as Ac.
  exists (with_metrics raw x y g).
  split; [|split; [|split; [|split; [|split; [|split]]]]].
  - intros page. apply cargar_datos_ok. simpl rbind.
    apply (metricas_numeric raw res imp gas); assumption.
  - reflexivity.
  - reflexivity.
  - split; [|exact Ac]. unfold with_metrics, setitem. simpl.
    apply NoDup_labels_assign, NoDup_labels_assign. exact N.
  - rewrite (rows_length _ Ac). reflexivity.
  - intros c H1 H2. unfold with_metrics.
    rewrite !getitem_setitem_other; [reflexivity| |].
    + destruct (label_eqb c "CTR") eqn:E; [|reflexivity].
      apply label_eqb_eq in E. contradiction.
    + destruct (label_eqb c "CPM") eqn:E; [|reflexivity].
      apply label_eqb_eq in E. contradiction.
  - intros r Hr.
    destruct (metricas_rows raw res imp gas x y g r A E1 E2 E3 F1 F2 F3 Hr)
      as (u1 & u2 & u3 & R1 & R2 & R3 & R4 & R5).
    exists u1, u2, u3. do 2 eexists.
    repeat split; try eassumption.
    + apply mul_not_finite, div_by_zero. assumption.
    + apply mul_not_finite, div_by_zero. assumption.
Qed.

(* ===================================================================== *)
(** ** Facts on selection by positions *)
(* ===================================================================== *)

Lemma take_list_cons {A : Type} (i : nat) (a : list nat) (l r : list A) :
  take_list (i :: a) l = Some r ->
  exists x r', nth_error l i = Some x /\ take_list a l = Some r' /\ r = x :: r'.
Proof.
  simpl. destruct (nth_error l i) as [x|]; [|discriminate].
  destruct (take_list a l) as [r'|]; [|discriminate].
  intros E. inversion E. exists x, r'. repeat split.
Qed.

Lemma take_list_app {A : Type} (a b : list nat) (l ra rb : list A) :
  take_list a l = Some ra -> take_list b l = Some rb ->
  take_list (a ++ b) l = Some (ra ++ rb).
Proof.
  revert ra; induction a as [|i a IH]; intros ra Ha Hb.
  - inversion Ha. exact Hb.
  - destruct (take_list_cons _ _ _ _ Ha) as (x & r' & E1 & E2 & ->).
    simpl. rewrite E1, (IH r' E2 Hb). reflexivity.
Qed.

Lemma take_list_rev {A : Type} (a : list nat) (l r : list A) :
  take_list a l = Some r -> take_list (rev a) l = Some (rev r).
Proof.
  revert r; induction a as [|i a IH]; intros r Ha.
  - inversion Ha. reflexivity.
  - destruct (take_list_cons _ _ _ _ Ha) as (x & r' & E1 & E2 & ->).
    simpl. apply take_list_app; [apply IH; exact E2|].
    simpl. rewrite E1. reflexivity.
Qed.

Lemma take_list_map {A B : Type} (f : A -> B) (a : list nat) (l r : list A) :
  take_list a l = Some r -> take_list a (map f l) = Some (map f r).
Proof.
  revert r; induction a as [|i a IH]; intros r Ha.
  - inversion Ha. reflexivity.
  - destruct (take_list_cons _ _ _ _ Ha) as (x & r' & E1 & E2 & ->).
    simpl. rewrite nth_error_map, E1, (IH r' E2). reflexivity.
Qed.

Lemma take_list_zip_with {A B C : Type} (f : A -> B -> C) (a : list nat)
  (l1 r1 : list A) (l2 r2 : list B) :
  take_list a l1 = Some r1 -> take_list a l2 = Some r2 ->
  take_list a (zip_with f l1 l2) = Some (zip_with f r1 r2).
Proof.
  revert r1 r2; induction a as [|i a IH]; intros r1 r2 H1 H2.
  - inversion H1. inversion H2. reflexivity.
  - destruct (take_list_cons _ _ _ _ H1) as (x & r1' & E1 & E2 & ->).
    destruct (take_list_cons _ _ _ _ H2) as (y & r2' & E3 & E4 & ->).
    simpl. rewrite (nth_error_zip_with f _ _ _ _ _ E1 E3), (IH _ _ E2 E4).
    reflexivity.
Qed.

Lemma take_list_perm {A : Type} (a b : list nat) (l : list A) :
  Permutation a b ->
  forall r, take_list a l = Some r ->
            exists r', take_list b l = Some r' /\ Permutation r r'.
Proof.
  induction 1 as [|i a b H IH|i j a|a b c H1 IH1 H2 IH2]; intros r Hr.
  - exists r. split; [exact Hr | apply Permutation_refl].
  - destruct (take_list_cons _ _ _ _ Hr) as (x & r' & E1 & E2 & ->).
    destruct (IH _ E2) as (r'' & E3 & P).
    exists (x :: r''). simpl. rewrite E1, E3. split; [reflexivity|].
    apply perm_skip. exact P.
  - destruct (take_list_cons _ _ _ _ Hr) as (x & r1 & E1 & E2 & ->).
    destruct (take_list_cons _ _ _ _ E2) as (y & r2 & E3 & E4 & ->).
    exists (y :: x :: r2). simpl. rewrite E1, E3, E4.
    split; [reflexivity | apply perm_swap].
  - destruct (IH1 _ Hr) as (r1 & E1 & P1).
    destruct (IH2 _ E1) as (r2 & E2 & P2).
    exists r2. split; [exact E2 | eapply Permutation_trans; eassumption].
Qed.

Lemma take_list_compress_seq {A : Type} (m : list bool) (l pre : list A) :
  take_list (compress m (seq (length pre) (length l))) (pre ++ l)
  = Some (compress m l).
Proof.
  revert m pre; induction l as [|x l IH]; intros m pre.
  - simpl. rewrite !compress_nil_r. reflexivity.
  - destruct m as [|b m]; [reflexivity|].
    assert (K : take_list (compress m (seq (S (length pre)) (length l)))
                          (pre ++ x :: l) = Some (compress m l)).
    { specialize (IH m (pre ++ [x])).
      rewrite length_app, <- app_assoc in IH. simpl in IH.
      rewrite Nat.add_1_r in IH. exact IH. }
    simpl. destruct b; [|exact K].
    simpl. rewrite nth_error_app2, Nat.sub_diag, K by lia. reflexivity.
Qed.

Lemma take_list_compress {A : Type} (m : list bool) (l : list A) :
  take_list (compress m (seq 0 (length l))) l = Some (compress m l).
Proof. apply (take_list_compress_seq m l []). Qed.

Lemma compress_all {A : Type} (n : nat) (l : list A) :
  length l = n -> compress (repeat true n) l = l.
Proof.
  intros <-. induction l as [|x l IH]; simpl; [|rewrite IH]; reflexivity.
Qed.

Lemma take_list_seq {A : Type} (l : list A) :
  take_list (seq 0 (length l)) l = Some l.
Proof.
  pose proof (take_list_compress (repeat true (length l)) l) as H.
  rewrite !compress_all in H by (try apply length_seq; reflexivity).
  exact H.
Qed.

Lemma take_list_nth {A : Type} (a : list nat) (l r : list A) (k i : nat) :
  take_list a l = Some r -> nth_error a k = Some i ->
  nth_error r k = nth_error l i /\ nth_error l i <> None.
Proof.
  revert r k; induction a as [|j a IH]; intros r k Ha Hk.
  - destruct k; discriminate.
  - destruct (take_list_cons _ _ _ _ Ha) as (x & r' & E1 & E2 & ->).
    destruct k as [|k]; simpl in *.
    + inversion Hk. subst. rewrite E1. split; [reflexivity | discriminate].
    + apply IH; assumption.
Qed.

(** Selecting positions of [idxs], then the items at these positions, is
    selecting among the items that [idxs] selects. *)
Lemma take_list_compose {A : Type} (a idxs : list nat) (items vals : list A)
  (ixs : list nat) :
  take_list idxs items = Some vals ->
  take_list a idxs = Some ixs ->
  take_list ixs items = take_list a vals.
Proof.
  intros Hv. revert ixs; induction a as [|k a IH]; intros ixs Ha.
  - inversion Ha. reflexivity.
  - destruct (take_list_cons _ _ _ _ Ha) as (i & ixs' & E1 & E2 & ->).
    destruct (take_list_nth _ _ _ _ _ Hv E1) as [E3 _].
    simpl. rewrite E3, (IH _ E2). reflexivity.
Qed.

Lemma compress_partition {A : Type} (m : list bool) (l : list A) :
  length m = length l ->
  Permutation (compress (map negb m) l ++ compress m l) l.
Proof.
  revert l; induction m as [|b m IH]; intros [|x l] H; simpl in *;
    try discriminate; [constructor|].
  assert (P := IH l (eq_add_S _ _ H)).
  destruct b; simpl.
  - apply Permutation_sym, Permutation_cons_app, Permutation_sym, P.
  - apply perm_skip, P.
Qed.

Lemma compress_mask_true {A : Type} (p : A -> bool) (l : list A) :
  Forall (fun x => p x = true) (compress (map p l) l).
Proof.
  rewrite compress_filter. apply Forall_forall. intros x Hx.
  apply filter_In in Hx. apply Hx.
Qed.

Lemma compress_mask_false {A : Type} (p : A -> bool) (l : list A) :
  Forall (fun x => p x = false) (compress (map negb (map p l)) l).
Proof.
  rewrite map_map, compress_filter. apply Forall_forall. intros x Hx.
  apply filter_In in Hx. apply negb_true_iff, Hx.
Qed.

Lemma StronglySorted_snoc {A : Type} (R : A -> A -> Prop) (l : list A)
  (x : A) :
  StronglySorted R l -> Forall (fun y => R y x) l ->
  StronglySorted R (l ++ [x]).
Proof.
  induction 1 as [|y l St IH Fy]; intros F; simpl.
  - constructor; constructor.
  - inversion F as [|? ? Ryx F']. subst. constructor; [apply IH; exact F'|].
    apply Forall_app. split; [exact Fy | constructor; [exact Ryx | constructor]].
Qed.

Lemma StronglySorted_rev {A : Type} (R : A -> A -> Prop) (l : list A) :
  StronglySorted R l -> StronglySorted (fun a b => R b a) (rev l).
Proof.
  induction 1 as [|x l St IH F]; simpl; [constructor|].
  apply StronglySorted_snoc; [exact IH | apply Forall_rev; exact F].
Qed.

Lemma StronglySorted_on {A : Type} (P : A -> Prop) (R R' : A -> A -> Prop)
  (l : list A) :
  (forall a b, P a -> P b -> R a b -> R' a b) ->
  Forall P l -> StronglySorted R l -> StronglySorted R' l.
Proof.
  intros H F St. induction St as [|x l St IH Fx]; [constructor|].
  inversion F as [|? ? Px F']. subst. constructor; [apply IH; exact F'|].
  rewrite Forall_forall in *. intros y Hy. apply H; auto.
Qed.

(* ===================================================================== *)
(** ** The orders the sort compares keys by *)
(* ===================================================================== *)

Lemma sort_leb_rank (x y : F64.t) :
  F64.sort_leb x y = true <-> lex_le (float_rank x) (float_rank y).
Proof.
  unfold F64.sort_leb, SFleb.
  destruct x as [[]|[]| |[] m e], y as [[]|[]| |[] m' e']; simpl;
    try (split; [intros _; lia | intros _; reflexivity]);
    try (split; [discriminate | intros H; exfalso; lia]).
  - destruct (Z.compare_spec e e');
      [change (Pos.compare_cont Eq m m') with (Pos.compare m m');
       destruct (Pos.compare_spec m m')| |]; simpl;
      try (split; [intros _; lia | intros _; reflexivity]);
      try (split; [discriminate | intros K; exfalso; lia]).
  - destruct (Z.compare_spec e e');
      [change (Pos.compare_cont Eq m m') with (Pos.compare m m');
       destruct (Pos.compare_spec m m')| |]; simpl;
      try (split; [intros _; lia | intros _; reflexivity]);
      try (split; [discriminate | intros K; exfalso; lia]).
Qed.

Lemma sort_leb_total (a b : F64.t) :
  F64.sort_leb a b = true \/ F64.sort_leb b a = true.
Proof.
  rewrite !sort_leb_rank.
  destruct (float_rank a) as [[a1 a2] a3], (float_rank b) as [[b1 b2] b3].
  simpl. lia.
Qed.

Lemma sort_leb_trans (a b c : F64.t) :
  F64.sort_leb a b = true -> F64.sort_leb b c = true ->
  F64.sort_leb a c = true.
Proof.
  rewrite !sort_leb_rank.
  destruct (float_rank a) as [[a1 a2] a3], (float_rank b) as [[b1 b2] b3],
    (float_rank c) as [[c1 c2] c3].
  simpl. lia.
Qed.

Lemma sort_leb_valid (a b : F64.t) :
  F64.isnan b = false -> F64.sort_leb a b = true -> F64.leb a b = true.
Proof. unfold F64.sort_leb, F64.leb. intros ->. simpl. tauto. Qed.

Lemma Z_leb_total (a b : Z) : (a <=? b)%Z = true \/ (b <=? a)%Z = true.
Proof. rewrite !Z.leb_le. lia. Qed.

Lemma Z_leb_trans (a b c : Z) :
  (a <=? b)%Z = true -> (b <=? c)%Z = true -> (a <=? c)%Z = true.
Proof. rewrite !Z.leb_le. lia. Qed.

(* ===================================================================== *)
(** ** The insertion sort keeps the promise of [argsort] *)
(* ===================================================================== *)

Section Insertion.

Context {A : Type}.
Variable leb : A -> A -> bool.
Hypothesis leb_total : forall a b, leb a b = true \/ leb b a = true.
Hypothesis leb_trans :
  forall a b c, leb a b = true -> leb b c = true -> leb a c = true.

Lemma insert_key_perm (p : nat * A) (l : list (nat * A)) :
  Permutation (insert_key leb p l) (p :: l).
Proof.
  induction l as [|q l IH]; simpl; [apply Permutation_refl|].
  destruct (leb (snd q) (snd p)); [|apply Permutation_refl].
  eapply Permutation_trans; [apply perm_skip, IH | apply perm_swap].
Qed.

Lemma insert_key_sorted (p : nat * A) (l : list (nat * A)) :
  StronglySorted (key_before leb) l ->
  StronglySorted (key_before leb) (insert_key leb p l).
Proof.
  induction 1 as [|q l St IH F]; simpl.
  - constructor; constructor.
  - destruct (leb (snd q) (snd p)) eqn:E.
    + constructor; [exact IH|].
      apply Forall_forall. intros x Hx.
      apply (Permutation_in _ (insert_key_perm p l)) in Hx.
      destruct Hx as [<-|Hx]; [exact E|].
      rewrite Forall_forall in F. apply F. exact Hx.
    + assert (K : key_before leb p q).
      { destruct (leb_total (snd p) (snd q)) as [K|K]; [exact K|].
        unfold key_before. congruence. }
      constructor; [constructor; assumption|].
      constructor; [exact K|].
      apply Forall_forall. intros x Hx. rewrite Forall_forall in F.
      apply (leb_trans _ (snd q)); [exact K | apply F; exact Hx].
Qed.

Lemma insertion_perm (l : list (nat * A)) :
  Permutation (fold_right (insert_key leb) [] l) l.
Proof.
  induction l as [|p l IH]; simpl; [constructor|].
  eapply Permutation_trans; [apply insert_key_perm | apply perm_skip, IH].
Qed.

Lemma insertion_sorted (l : list (nat * A)) :
  StronglySorted (key_before leb) (fold_right (insert_key leb) [] l).
Proof.
  induction l as [|p l IH]; simpl; [constructor|].
  apply insert_key_sorted. exact IH.
Qed.

Lemma sorted_keys (l : list (nat * A)) :
  StronglySorted (key_before leb) l ->
  StronglySorted (fun a b => leb a b = true) (map snd l).
Proof.
  induction 1 as [|p l St IH F]; simpl; constructor; [exact IH|].
  apply Forall_map. exact F.
Qed.

End Insertion.

Lemma map_fst_combine_seq {A : Type} (keys : list A) (k : nat) :
  map fst (combine (seq k (length keys)) keys) = seq k (length keys).
Proof.
  revert k; induction keys as [|x keys IH]; intros k; simpl; [reflexivity|].
  rewrite IH. reflexivity.
Qed.

Lemma in_combine_seq {A : Type} (keys pre : list A) (i : nat) (x : A) :
  In (i, x) (combine (seq (length pre) (length keys)) keys) ->
  nth_error (pre ++ keys) i = Some x.
Proof.
  revert pre; induction keys as [|y keys IH]; intros pre; simpl; [intros []|].
  intros [E|H].
  - inversion E. subst. rewrite nth_error_app2, Nat.sub_diag by lia.
    reflexivity.
  - specialize (IH (pre ++ [y])).
    rewrite length_app, <- app_assoc, Nat.add_1_r in IH. apply IH. exact H.
Qed.

Lemma take_list_pairs {A : Type} (keys : list A) (l : list (nat * A)) :
  Forall (fun p => nth_error keys (fst p) = Some (snd p)) l ->
  take_list (map fst l) keys = Some (map snd l).
Proof.
  induction 1 as [|p l H F IH]; simpl; [reflexivity|].
  rewrite H, IH. reflexivity.
Qed.

Lemma insertion_argsort_sorts : sorts insertion_argsort.
Proof.
  intros A leb Htot Htrans keys. unfold insertion_argsort.
  set (pairs := combine (seq 0 (length keys)) keys).
  split.
  - rewrite <- (map_fst_combine_seq keys 0). fold pairs.
    apply Permutation_map, insertion_perm.
  - intros sorted E.
    assert (K : take_list (map fst (fold_right (insert_key leb) [] pairs)) keys
                = Some (map snd (fold_right (insert_key leb) [] pairs))).
    { apply take_list_pairs, Forall_forall. intros [i x] H.
      apply (Permutation_in _ (insertion_perm leb pairs)) in H.
      apply (in_combine_seq keys [] i x). exact H. }
    rewrite K in E. inversion E.
    apply sorted_keys, insertion_sorted; assumption.
Qed.

(* ===================================================================== *)
(** ** Sorting a frame in descending order *)
(* ===================================================================== *)

Lemma compress_none {A : Type} (l : list A) :
  compress (map (fun _ => false) l) l = [].
Proof. induction l as [|x l IH]; simpl; [reflexivity | exact IH]. Qed.

Lemma take_result_ok {A : Type} (a : list nat) (l r : list A) :
  take_list a l = Some r -> take_result a l = Ok r.
Proof. unfold take_result. intros ->. reflexivity. Qed.

Lemma take_result_inv {A : Type} (a : list nat) (l r : list A) :
  take_result a l = Ok r -> take_list a l = Some r.
Proof.
  unfold take_result. destruct (take_list a l); [|discriminate].
  intros E. inversion E. reflexivity.
Qed.

Lemma take_list_total {A : Type} (a : list nat) (l : list A) :
  Forall (fun i => i < length l) a -> exists r, take_list a l = Some r.
Proof.
  induction 1 as [|i a H F (r & IH)]; simpl; [exists []; reflexivity|].
  apply nth_error_Some in H.
  destruct (nth_error l i) as [x|]; [|contradiction].
  rewrite IH. exists (x :: r). reflexivity.
Qed.

Lemma perm_seq_bound (a : list nat) (n : nat) :
  Permutation a (seq 0 n) -> Forall (fun i => i < n) a.
Proof.
  intros P. apply Forall_forall. intros i Hi.
  apply (Permutation_in _ P), in_seq in Hi. lia.
Qed.

Section Sorted.

Variable argsort : forall A : Type, (A -> A -> bool) -> list A -> list nat.
Hypothesis argsort_sorts : sorts argsort.

(** The positions [nargsort] returns for a descending sort: a permutation
    of all positions; the keys read at these positions are the valid keys
    in descending order, then the missing ones. *)
Lemma nargsort_descending {A : Type} (leb : A -> A -> bool)
  (isna : A -> bool) (items : list A) :
  (forall a b, leb a b = true \/ leb b a = true) ->
  (forall a b c, leb a b = true -> leb b c = true -> leb a c = true) ->
  exists indexer sorted,
    nargsort argsort leb isna false items = Ok indexer
    /\ Permutation indexer (seq 0 (length items))
    /\ take_list indexer items
       = Some (rev sorted ++ compress (map isna items) items)
    /\ StronglySorted (fun a b => leb a b = true) sorted
    /\ Forall (fun x => isna x = false) sorted.
Proof.
  intros Htot Htrans. unfold nargsort.
  set (mask := map isna items).
  set (idx := seq 0 (length items)).
  set (nn := compress (map negb mask) items).
  set (ni := compress (map negb mask) idx).
  set (nan_idx := compress mask idx).
  destruct (argsort_sorts A leb Htot Htrans (rev nn)) as [PA SA].
  set (a := argsort A leb (rev nn)) in *.
  assert (H1 : take_list (rev ni) items = Some (rev nn))
    by (apply take_list_rev, take_list_compress).
  assert (L : length (rev nn) = length (rev ni)).
  { rewrite !length_rev. apply compress_length_eq.
    unfold idx. rewrite length_seq. reflexivity. }
  destruct (take_list_perm _ _ (rev ni) (Permutation_sym PA) (rev ni))
    as (ixs & E1 & P1); [rewrite L; apply take_list_seq|].
  destruct (take_list_perm _ _ (rev nn) (Permutation_sym PA) (rev nn))
    as (sorted & E2 & P2); [apply take_list_seq|].
  exists (rev ixs ++ nan_idx), sorted.
  rewrite (take_result_ok _ _ _ E1). simpl rbind.
  split; [reflexivity|]. split; [|split; [|split]].
  - apply Permutation_trans with (ni ++ nan_idx).
    + apply Permutation_app_tail.
      apply Permutation_trans with ixs; [apply Permutation_sym, Permutation_rev|].
      apply Permutation_trans with (rev ni);
        [apply Permutation_sym, P1 | apply Permutation_sym, Permutation_rev].
    + apply compress_partition. unfold mask, idx.
      rewrite length_map, length_seq. reflexivity.
  - apply take_list_app; [|apply take_list_compress].
    apply take_list_rev. rewrite (take_list_compose a _ _ _ _ H1 E1).
    exact E2.
  - apply SA. exact E2.
  - apply Forall_forall. intros x Hx.
    apply (Permutation_in _ (Permutation_sym P2)), in_rev in Hx.
    pose proof (compress_mask_false isna items) as F.
    rewrite Forall_forall in F. apply F. exact Hx.
Qed.

(** Sorting the values of a numeric column in descending order. *)
Lemma argsort_series_descending (k : Series) :
  numeric k = true ->
  exists indexer k',
    argsort_series argsort k false = Ok indexer
    /\ Permutation indexer (seq 0 (size k))
    /\ take_series indexer k = Ok k'
    /\ descending k'.
Proof.
  destruct k as [v|v|v|v]; try discriminate; intros _; simpl.
  - destruct (nargsort_descending Z.leb (fun _ => false) v
                Z_leb_total Z_leb_trans)
      as (indexer & sorted & E & P & T & St & _).
    exists indexer, (Int64 (rev sorted)).
    rewrite compress_none, app_nil_r in T.
    rewrite E, (take_result_ok _ _ _ T). repeat split; try assumption.
    simpl. apply StronglySorted_rev in St.
    eapply StronglySorted_on with (P := fun _ => True); [| |exact St].
    + intros a b _ _ H. apply Z.leb_le. exact H.
    + apply Forall_forall. intros; exact I.
  - destruct (nargsort_descending F64.sort_leb F64.isnan v
                sort_leb_total sort_leb_trans)
      as (indexer & sorted & E & P & T & St & F).
    exists indexer, (Float64 (rev sorted ++ compress (map F64.isnan v) v)).
    rewrite E, (take_result_ok _ _ _ T). repeat split; try assumption.
    simpl. exists (rev sorted), (compress (map F64.isnan v) v).
    repeat split.
    + apply Forall_rev. exact F.
    + apply compress_mask_true.
    + apply StronglySorted_rev.
      eapply StronglySorted_on with (P := fun x => F64.isnan x = false);
        [| exact F | exact St].
      intros a b _ Hb H. apply sort_leb_valid; assumption.
Qed.

Lemma take_series_cells (indexer : list nat) (s s' : Series) :
  take_series indexer s = Ok s' ->
  take_list indexer (cells s) = Some (cells s').
Proof.
  destruct s as [v|v|v|v]; simpl;
    destruct (take_result indexer v) as [r|] eqn:E; simpl;
    try discriminate; intros K; inversion K; simpl;
    apply take_list_map, take_result_inv, E.
Qed.

Lemma take_series_total (indexer : list nat) (s : Series) :
  Forall (fun i => i < size s) indexer ->
  exists s', take_series indexer s = Ok s'.
Proof.
  destruct s as [v|v|v|v]; simpl; intros F;
    destruct (take_list_total indexer v F) as (r & E);
    rewrite (take_result_ok _ _ _ E); eexists; reflexivity.
Qed.

Lemma take_columns_total (indexer : list nat) (n : nat)
  (cols : list (string * Series)) :
  Forall (fun cs => size (snd cs) = n) cols ->
  Forall (fun i => i < n) indexer ->
  exists cols', take_columns indexer cols = Ok cols'.
Proof.
  intros A F. induction A as [|[c s] cols H A (cols' & IH)]; simpl.
  - exists []. reflexivity.
  - simpl in H. subst n.
    destruct (take_series_total indexer s F) as (s' & E).
    rewrite E, IH. eexists. reflexivity.
Qed.

Lemma take_columns_rows (indexer : list nat) (ix ix' : list Z)
  (cols cols' : list (string * Series)) :
  take_list indexer ix = Some ix' ->
  take_columns indexer cols = Ok cols' ->
  take_list indexer (rows_of ix cols) = Some (rows_of ix' cols').
Proof.
  intros Hix. revert cols'; induction cols as [|[c s] cols IH]; intros cols'.
  - simpl. intros E. inversion E. simpl.
    apply (take_list_map (fun _ : Z => @nil (string * cell))). exact Hix.
  - simpl. destruct (take_series indexer s) as [s'|] eqn:E1; [|discriminate].
    simpl. destruct (take_columns indexer cols) as [r|] eqn:E2; [|discriminate].
    simpl. intros E. inversion E. simpl.
    apply take_list_zip_with; [apply take_series_cells, E1 | apply IH; reflexivity].
Qed.

Lemma take_columns_lookup (indexer : list nat) (c : string) (s : Series)
  (cols cols' : list (string * Series)) :
  take_columns indexer cols = Ok cols' ->
  lookup c cols = Some s ->
  exists s', lookup c cols' = Some s' /\ take_series indexer s = Ok s'.
Proof.
  revert cols'; induction cols as [|[c0 s0] cols IH]; intros cols';
    simpl; [discriminate|].
  destruct (take_series indexer s0) as [s0'|] eqn:E1; [|discriminate].
  simpl. destruct (take_columns indexer cols) as [r|] eqn:E2; [|discriminate].
  simpl. intros E. inversion E. simpl.
  destruct (label_eqb c c0).
  - intros K. inversion K. subst. exists s0'. split; [reflexivity | exact E1].
  - apply IH. reflexivity.
Qed.

(** [sort_values] in descending order on a numeric column: the rows are
    permuted and the column is in descending order, missing values
    last. *)
Lemma sort_values_descending (df : DataFrame) (by_ : string) (k : Series) :
  aligned df -> getitem df by_ = Ok k -> numeric k = true ->
  exists d k',
    sort_values argsort df by_ false = Ok d
    /\ Permutation (rows df) (rows d)
    /\ getitem d by_ = Ok k'
    /\ descending k'.
Proof.
  intros A E N.
  destruct (argsort_series_descending k N) as (indexer & k' & E1 & P & E2 & D).
  assert (Hn : size k = nrows df) by (eapply getitem_size; eassumption).
  rewrite Hn in P. assert (F := perm_seq_bound _ _ P).
  destruct (take_list_total indexer (index df) F) as (ix' & E3).
  destruct (take_columns_total indexer (nrows df) (columns df) A F)
    as (cols' & E4).
  exists (Frame ix' cols'), k'.
  unfold sort_values, take. rewrite E. simpl rbind. rewrite E1. simpl rbind.
  rewrite (take_result_ok _ _ _ E3). simpl rbind. rewrite E4. simpl rbind.
  split; [reflexivity|]. split; [|split; [|exact D]].
  - pose proof (take_columns_rows _ _ _ _ _ E3 E4) as R.
    fold (rows df) in R.
    destruct (take_list_perm _ _ (rows df) (Permutation_sym P) (rows df))
      as (r & E5 & P5).
    { rewrite <- (rows_length df A). apply take_list_seq. }
    rewrite R in E5. inversion E5. subst r. exact P5.
  - apply getitem_lookup in E.
    destruct (take_columns_lookup _ _ _ _ _ E4 E) as (s' & L & T).
    rewrite E2 in T. inversion T. apply getitem_lookup. exact L.
Qed.

(** C4, as the script has it. The frame given to the bar chart holds every
    row of the filtered table, one entry per row and none added up, in
    descending order of results (missing results last). *)
Theorem comparacion_rows (df_filtrado : DataFrame) (resultados : Series) :
  well_formed df_filtrado ->
  getitem df_filtrado "resultados" = Ok resultados ->
  numeric resultados = true ->
  exists data sorted,
    comparacion argsort df_filtrado = Ok data
    /\ Permutation (rows df_filtrado) (rows data)
    /\ length (rows data) = nrows df_filtrado
    /\ getitem data "resultados" = Ok sorted
    /\ descending sorted.
Proof.
  intros [_ A] E N.
  destruct (sort_values_descending df_filtrado "resultados" resultados A E N)
    as (d & k' & E1 & P & E2 & D).
  exists d, k'. repeat split; try assumption.
  rewrite <- (Permutation_length P). apply rows_length. exact A.
Qed.

Lemma getitems_columns_total (df : DataFrame) (labels : list string) :
  has_columns df labels = true ->
  exists cols, getitems_columns df labels = Ok cols.
Proof.
  unfold has_columns. induction labels as [|c labels IH]; simpl.
  - intros _. exists []. reflexivity.
  - unfold getitem. destruct (lookup c (columns df)) as [s|]; [|discriminate].
    simpl. intros H. destruct (IH H) as (cols & E). rewrite E.
    eexists. reflexivity.
Qed.

Lemma zip_with_fields {R X Y : Type} (h : R -> option X) (g : R -> Y)
  (f : X -> Y -> Y) (l : list R) (xs : list X) :
  map h l = map Some xs ->
  zip_with f xs (map g l)
  = map (fun r => match h r with Some x => f x (g r) | None => g r end) l.
Proof.
  revert xs; induction l as [|r l IH]; intros [|x xs] E; simpl in *;
    try discriminate; [reflexivity|].
  inversion E as [[E1 E2]]. rewrite E1, (IH xs E2). reflexivity.
Qed.

Lemma getitems_columns_spec (df : DataFrame) (labels : list string)
  (cols : list (string * Series)) :
  aligned df ->
  getitems_columns df labels = Ok cols ->
  Forall (fun cs => size (snd cs) = nrows df) cols
  /\ (forall c, In c labels -> lookup c cols = lookup c (columns df))
  /\ rows_of (index df) cols = map (restrict labels) (rows df).
Proof.
  intros A. revert cols; induction labels as [|c labels IH]; intros cols;
    simpl.
  - intros E. inversion E. repeat split; [constructor | intros c []|].
    unfold rows_of. simpl.
    transitivity (map (fun _ : row => @nil (string * cell)) (rows df));
      [|apply map_ext; reflexivity].
    rewrite <- (repeat_map_const (@nil (string * cell)) (index df)).
    rewrite <- (repeat_map_const (@nil (string * cell)) (rows df)).
    rewrite (rows_length df A). reflexivity.
  - destruct (getitem df c) as [s|] eqn:E1; [|discriminate]. simpl.
    destruct (getitems_columns df labels) as [r|] eqn:E2; [|discriminate].
    simpl. intros E. inversion E. subst cols.
    destruct (IH r eq_refl) as (F & L & R). repeat split.
    + constructor; [|exact F]. simpl. eapply getitem_size; eassumption.
    + intros c' [<-|H]; simpl.
      * rewrite label_eqb_refl. symmetry. apply getitem_lookup. exact E1.
      * destruct (label_eqb c' c) eqn:K; [|apply L; exact H].
        apply label_eqb_eq in K. subst c'. symmetry.
        apply getitem_lookup. exact E1.
    + simpl. rewrite R.
      apply (zip_with_fields (field c) (restrict labels) (add_field c)).
      apply map_field_rows; assumption.
Qed.

(** C5, as the script has it. For a filtered table that has the ten
    columns of the listing (a well-formed table with a numeric spend, as
    the loader and the filter give), the detail listing holds every row of
    the filtered table, restricted to the ten columns shown, in descending
    order of spend (missing spends last). Nothing is said of the order of
    rows with equal spend. *)
Theorem detalle_rows (df_filtrado : DataFrame) (gasto : Series) :
  well_formed df_filtrado ->
  has_columns df_filtrado detail_columns = true ->
  getitem df_filtrado "gasto" = Ok gasto ->
  numeric gasto = true ->
  exists tabla sorted,
    detalle argsort df_filtrado = Ok tabla
    /\ Permutation (map (restrict detail_columns) (rows df_filtrado))
                   (rows tabla)
    /\ length (rows tabla) = nrows df_filtrado
    /\ getitem tabla "gasto" = Ok sorted
    /\ descending sorted.
Proof.
  intros [_ A] H E N.
  destruct (getitems_columns_total _ _ H) as (cols & E1).
  destruct (getitems_columns_spec _ _ _ A E1) as (F & L & R).
  set (sub := Frame (index df_filtrado) cols).
  assert (E2 : getitem sub "gasto" = Ok gasto).
  { apply getitem_lookup. simpl. rewrite L; [apply getitem_lookup, E|].
    simpl. tauto. }
  destruct (sort_values_descending sub "gasto" gasto F E2 N)
    as (d & k' & E3 & P & E4 & D).
  exists d, k'. unfold detalle, getitems. rewrite E1. simpl rbind.
  fold sub. rewrite E3. repeat split; try assumption.
  - rewrite <- R. exact P.
  - rewrite <- (Permutation_length P). apply (rows_length sub F).
Qed.

End Sorted.

(* ===================================================================== *)
(** ** The time series of the third tab *)
(* ===================================================================== *)

Lemma unique_from_spec (seen v : list Py.str) :
  NoDup (unique_from seen v)
  /\ forall c, In c (unique_from seen v) <-> In c v /\ ~ In c seen.
Proof.
  revert seen; induction v as [|x v IH]; intros seen; simpl.
  - split; [constructor | intros c; tauto].
  - destruct (Py.mem x seen) eqn:E.
    + apply str_mem_In in E. destruct (IH seen) as [N H].
      split; [exact N|]. intros c. rewrite H. split; [tauto|].
      intros [[<-|K] S]; [contradiction | tauto].
    + assert (S : ~ In x seen).
      { intros K. apply str_mem_In in K. congruence. }
      destruct (IH (x :: seen)) as [N H]. split.
      * constructor; [|exact N]. rewrite H. simpl. tauto.
      * intros c. simpl. rewrite H. simpl. split.
        -- intros [<-|[K1 K2]]; tauto.
        -- intros [[<-|K] Sc]; [tauto|].
           destruct (list_eq_dec N.eq_dec x c) as [->|D]; [tauto|].
           right. split; [exact K|]. intros [K'|K']; tauto.
Qed.

Lemma unique_spec (v : list Py.str) :
  NoDup (unique v) /\ forall c, In c (unique v) <-> In c v.
Proof.
  destruct (unique_from_spec [] v) as [N H]. split; [exact N|].
  intros c. unfold unique. rewrite H. simpl. tauto.
Qed.

Lemma last_split_some (sep : Py.char) (s : Py.str) :
  exists part, Py.last_item (Py.split sep s) = Some part.
Proof.
  pose proof (split_not_nil sep s) as H.
  induction (Py.split sep s) as [|w ws IH]; [contradiction|].
  destruct ws as [|w' ws]; [exists w; reflexivity|].
  apply IH. discriminate.
Qed.

Lemma format_func_total (x : Py.str) : exists l, format_func x = Ok l.
Proof.
  unfold format_func. destruct (last_split_some Py.colon x) as (p & ->).
  eexists. reflexivity.
Qed.

Lemma nombre_traza_total (x : Py.str) : exists l, nombre_traza x = Ok l.
Proof.
  unfold nombre_traza. destruct (last_split_some Py.colon x) as (p & ->).
  eexists. reflexivity.
Qed.

Lemma map_result_total {A B : Type} (f : A -> result B) (l : list A) :
  (forall x, exists y, f x = Ok y) -> exists r, map_result f l = Ok r.
Proof.
  intros H. induction l as [|x l (r & IH)]; simpl; [exists []; reflexivity|].
  destruct (H x) as (y & ->). rewrite IH. eexists. reflexivity.
Qed.

Lemma color_at_total (i : nat) : i < 10 -> exists c, color_at i = Ok c.
Proof.
  intros H. unfold color_at.
  do 10 (destruct i as [|i]; [eexists; reflexivity|]). lia.
Qed.

Lemma add_traces_spec (d : DataFrame) (v : list Py.str)
  (inicio resultados : Series) (campanas : list Py.str) (i : nat) :
  getitem d "campana" = Ok (Object v) ->
  getitem d "Inicio del informe" = Ok inicio ->
  getitem d "resultados" = Ok resultados ->
  i + length campanas <= 10 ->
  exists traces,
    add_traces d i campanas = Ok traces
    /\ Forall2 (trace_of v inicio resultados) campanas traces.
Proof.
  intros E1 E2 E3. revert i; induction campanas as [|c rest IH]; intros i H.
  - exists []. split; [reflexivity | constructor].
  - simpl in H. destruct (IH (S i)) as (traces & E & F); [lia|].
    destruct (nombre_traza_total c) as (name & En).
    destruct (color_at_total i) as (color & Ec); [lia|].
    simpl. rewrite E1. simpl rbind.
    rewrite (getitem_select _ _ _ _ E2), (getitem_select _ _ _ _ E3).
    simpl rbind. rewrite En, Ec, E. simpl rbind.
    eexists. split; [reflexivity|]. constructor; [|exact F].
    repeat split. exact En.
Qed.

(** C6, as the script has it. For a filtered table with at most ten
    distinct campaigns, the chart has exactly one trace per distinct
    campaign, in the order the campaigns first appear; the points of a
    trace are the rows of its campaign in the order of the table, and are
    not put in chronological order. *)
Theorem evolucion_traces (df_filtrado : DataFrame) (v : list Py.str)
  (inicio resultados : Series) :
  getitem df_filtrado "campana" = Ok (Object v) ->
  getitem df_filtrado "Inicio del informe" = Ok inicio ->
  getitem df_filtrado "resultados" = Ok resultados ->
  length (unique v) <= 10 ->
  exists traces,
    evolucion df_filtrado = Ok traces
    /\ NoDup (unique v)
    /\ (forall c, In c (unique v) <-> In c v)
    /\ Forall2 (trace_of v inicio resultados) (unique v) traces.
Proof.
  intros E1 E2 E3 H.
  destruct (add_traces_spec df_filtrado v inicio resultados (unique v) 0
              E1 E2 E3 H) as (traces & E & F).
  exists traces. unfold evolucion. rewrite E1. simpl rbind.
  destruct (unique_spec v) as [N K]. repeat split; try assumption; apply K.
Qed.

(* ===================================================================== *)
(** ** The guard on an empty filtered table *)
(* ===================================================================== *)

Lemma cargar_datos_page (read_csv : result DataFrame) (page page' : list element)
  (o : outcome DataFrame) :
  cargar_datos read_csv page = (o, page') ->
  exists shown,
    page' = page ++ shown /\ Forall (fun e => presents e = false) shown.
Proof.
  unfold cargar_datos, try_except, lift, bind, show, ret.
  destruct (let? data := read_csv in metricas data) as [df|e].
  - intros E. inversion E. exists []. rewrite app_nil_r.
    split; [reflexivity | constructor].
  - destruct (handled e); intros E; inversion E.
    + eexists. split; [reflexivity|]. repeat constructor.
    + exists []. rewrite app_nil_r. split; [reflexivity | constructor].
Qed.

Lemma ge_timestamp_dates (s : Series) (t : Z) (m : list bool) :
  ge_timestamp s t = Ok m -> exists v, s = Datetime64 v.
Proof. destruct s; try discriminate. intros _. eexists. reflexivity. Qed.

Lemma le_timestamp_dates (s : Series) (t : Z) (m : list bool) :
  le_timestamp s t = Ok m -> exists v, s = Datetime64 v.
Proof. destruct s; try discriminate. intros _. eexists. reflexivity. Qed.

Lemma date_of_le (a b : Z) : (a <= b)%Z -> (date_of a <= date_of b)%Z.
Proof. intros H. unfold date_of. apply Z.div_le_mono; lia. Qed.

(** A date picker whose value and bounds are in order is shown. *)
Lemma date_input_shown (label : string) (v lo hi : Z) (page : list element) :
  (date_of lo <= date_of v <= date_of hi)%Z ->
  date_input label (Some v) (Some lo) (Some hi) page
  = (Done tt, page ++ [st_date_input label (Some v) (Some lo) (Some hi)]).
Proof.
  intros [H1 H2]. unfold date_input.
  assert (H3 : (date_of lo <= date_of hi)%Z) by lia.
  apply Z.leb_le in H1, H2, H3. rewrite H1, H2, H3. reflexivity.
Qed.

(** C7. When the filtered table is empty, the run shows the sidebar and
    the warning, then stops: no KPI, no chart and no detail table is
    shown. The campaign column holds strings, as it must for the
    multiselect to be shown at all, and the first report start is a date
    whose day is not after the day of the last report end, as it must be
    for the two date pickers to be shown. *)
Theorem filtro_vacio
  (argsort : forall A : Type, (A -> A -> bool) -> list A -> list nat)
  (read_csv : result DataFrame) (ui : inputs) (df df_filtrado : DataFrame)
  (v : list Py.str) (inicio fin : list timestamp) (a b : Z)
  (page : list element) :
  cargar_datos read_csv [] = (Done df, page) ->
  empty df = false ->
  getitem df "campana" = Ok (Object v) ->
  getitem df "Inicio del informe" = Ok (Datetime64 inicio) ->
  getitem df "Fin del informe" = Ok (Datetime64 fin) ->
  ts_min inicio = Some a ->
  ts_max fin = Some b ->
  (date_of a <= date_of b)%Z ->
  filtrar df (campanas_seleccionadas ui) (fecha_min ui) (fecha_max ui)
  = Ok df_filtrado ->
  empty df_filtrado = true ->
  exists shown,
    app argsort read_csv ui []
    = (Stopped,
       shown ++ [st_warning "No hay datos con los filtros seleccionados."])
    /\ Forall (fun e => presents e = false)
              (shown ++ [st_warning "No hay datos con los filtros seleccionados."]).
Proof.
  intros L Hdf Ec Ei Ef Ha Hb Hab Hf He.
  destruct (cargar_datos_page _ _ _ _ L) as (shown0 & Ep & F0).
  simpl in Ep. subst page.
  destruct (map_result_total format_func (unique v) format_func_total)
    as (labels & El).
  unfold app, bind. rewrite L, Hdf.
  unfold show at 1 2 3, lift at 1 2 3. rewrite Ec. simpl rbind.
  unfold multiselect_options. rewrite El. simpl rbind.
  rewrite Ei, Ef. simpl rbind. simpl min_pydatetime. simpl max_pydatetime.
  cbv iota beta. rewrite Ha, Hb.
  rewrite date_input_shown by lia. rewrite date_input_shown by lia.
  unfold lift, show, stop. rewrite Hf, He.
  eexists. split; [reflexivity|].
  repeat (apply Forall_app; split); try exact F0; repeat constructor.
Qed.

(* ===================================================================== *)
(** ** The mean KPIs *)
(* ===================================================================== *)

Lemma add_not_finite_l (a b : F64.t) :
  F64.isfinite a = false -> F64.isfinite (F64.add a b) = false.
Proof.
  destruct a as [| [] | |]; try discriminate; intros _;
    destruct b as [| [] | |]; reflexivity.
Qed.

Lemma add_not_finite_r (a b : F64.t) :
  F64.isfinite b = false -> F64.isfinite (F64.add a b) = false.
Proof.
  destruct b as [| [] | |]; try discriminate; intros _;
    destruct a as [| [] | |]; reflexivity.
Qed.

Lemma div_not_finite (a b : F64.t) :
  F64.isfinite a = false -> F64.isfinite (F64.div a b) = false.
Proof.
  destruct a; try discriminate; intros _; destruct b; reflexivity.
Qed.

Lemma fold_add_not_finite (l : list F64.t) (acc : F64.t) :
  F64.isfinite acc = false \/ Exists (fun x => F64.isfinite x = false) l ->
  F64.isfinite (fold_left F64.add l acc) = false.
Proof.
  revert acc; induction l as [|x l IH]; intros acc; simpl.
  - intros [H|H]; [exact H | inversion H].
  - intros [H|H]; apply IH.
    + left. apply add_not_finite_l. exact H.
    + inversion H as [? ? K|? ? K]; subst.
      * left. apply add_not_finite_r. exact K.
      * right. exact K.
Qed.

(** An infinite value is neither left out nor taken as zero: the mean is
    then infinite or NaN. *)
Lemma nanmean_inf (v : list F64.t) (x : F64.t) :
  In x v -> F64.isinf x = true -> F64.isfinite (nanmean v) = false.
Proof.
  intros Hx Hi. unfold nanmean.
  destruct (count_valid v); [reflexivity|].
  apply div_not_finite. unfold nansum. apply fold_add_not_finite. right.
  apply Exists_exists. exists x. split.
  - apply in_map_iff. exists x. split; [|exact Hx].
    destruct x; try discriminate; reflexivity.
  - destruct x; try discriminate; reflexivity.
Qed.

(** A NaN is not counted, and is added as zero. *)
Lemma nanmean_nan (a b : list F64.t) :
  count_valid (a ++ F64.nan :: b) = count_valid (a ++ b)
  /\ nansum (a ++ F64.nan :: b) = nansum (a ++ F64.zero :: b).
Proof.
  unfold count_valid, nansum. rewrite !filter_app, !map_app. simpl.
  split; reflexivity.
Qed.

Lemma In_compress {A : Type} (m : list bool) (l : list A) (x : A) :
  In x (compress m l) -> In x l.
Proof.
  revert l; induction m as [|b m IH]; intros [|y l]; simpl; try tauto.
  destruct b; simpl; intros H; [destruct H as [H|H]; [left; exact H|]|];
    right; apply IH; exact H.
Qed.

Lemma select_aligned (m : list bool) (df : DataFrame) :
  aligned df -> aligned (select m df).
Proof.
  unfold aligned, select, nrows. simpl. intros A.
  apply Forall_map. revert A. apply Forall_impl. intros [c s] H. simpl in *.
  rewrite size_compress. apply compress_length_eq.
  rewrite repeat_length. exact H.
Qed.

Lemma truediv_inv (a b q : Series) :
  truediv a b = Ok q ->
  exists x y, as_float a = Some x /\ as_float b = Some y
              /\ q = Float64 (zip_with F64.div x y).
Proof.
  unfold truediv. destruct (as_float a) as [x|]; [|discriminate].
  destruct (as_float b) as [y|]; [|discriminate].
  intros E. inversion E. exists x, y. repeat split.
Qed.

Lemma metricas_inv (data clean : DataFrame) :
  metricas data = Ok clean ->
  exists res imp gas x y g,
    getitem (rename renamed_columns data) "resultados" = Ok res
    /\ getitem (rename renamed_columns data) "impresiones" = Ok imp
    /\ getitem (rename renamed_columns data) "gasto" = Ok gas
    /\ as_float res = Some x /\ as_float imp = Some y /\ as_float gas = Some g
    /\ clean = with_metrics data x y g.
Proof.
  unfold metricas.
  destruct (getitem (rename renamed_columns data) "resultados") as [res|] eqn:E1;
    [|discriminate].
  destruct (getitem (rename renamed_columns data) "impresiones") as [imp|] eqn:E2;
    [|discriminate].
  simpl rbind.
  destruct (truediv res imp) as [q|] eqn:E3; [|discriminate].
  destruct (truediv_inv _ _ _ E3) as (x & y & F1 & F2 & ->).
  simpl rbind. rewrite !getitem_setitem_other by reflexivity. rewrite E2.
  destruct (getitem (rename renamed_columns data) "gasto") as [gas|] eqn:E4;
    [|discriminate].
  simpl rbind.
  destruct (truediv gas imp) as [q|] eqn:E5; [|discriminate].
  destruct (truediv_inv _ _ _ E5) as (g & y' & F3 & F4 & ->).
  rewrite F2 in F4. inversion F4. subst y'.
  simpl rbind. intros E. inversion E.
  exists res, imp, gas, x, y, g. repeat split; assumption.
Qed.

Lemma field_in_column (df : DataFrame) (c : string) (v : list F64.t)
  (r : row) (x : F64.t) :
  aligned df -> getitem df c = Ok (Float64 v) -> In r (rows df) ->
  field c r = Some (FloatCell x) -> In x v.
Proof.
  intros A E Hr Hf. apply In_nth_error in Hr. destruct Hr as (i & Hi).
  destruct (field_at _ _ _ _ _ A E Hi) as (w & Hw & Ew).
  rewrite Hf in Ew. inversion Ew. subst w. simpl in Hw.
  rewrite nth_error_map in Hw.
  destruct (nth_error v i) as [u|] eqn:K; [|discriminate].
  inversion Hw. subst. eapply nth_error_In. exact K.
Qed.

(** C8, as the script has it. In a filtered table, a row with impressions
    0 has a CTR and a CPM that are infinite or NaN. The two mean KPIs are
    computed without raising; they leave out the NaN values (not counted,
    added as zero) but neither leave out nor zero the infinite ones: when
    the CTR (the CPM) of some row is infinite, the mean CTR (CPM) is
    itself infinite or NaN. *)
Theorem mean_kpis (raw clean df_filtrado : DataFrame)
  (seleccion : list Py.str) (lo hi : Z) :
  well_formed (rename renamed_columns raw) ->
  metricas raw = Ok clean ->
  filtrar clean seleccion lo hi = Ok df_filtrado ->
  exists ctr cpm,
    getitem df_filtrado "CTR" = Ok (Float64 ctr)
    /\ getitem df_filtrado "CPM" = Ok (Float64 cpm)
    /\ mean (Float64 ctr) = Ok (nanmean ctr)
    /\ mean (Float64 cpm) = Ok (nanmean cpm)
    /\ (forall r impresiones,
           In r (rows df_filtrado) ->
           number_field "impresiones" r = Some impresiones ->
           F64.iszero impresiones = true ->
           exists a b,
             field "CTR" r = Some (FloatCell a) /\ In a ctr
             /\ field "CPM" r = Some (FloatCell b) /\ In b cpm
             /\ F64.isfinite a = false /\ F64.isfinite b = false)
    /\ (forall x, In x ctr -> F64.isinf x = true ->
                  F64.isfinite (nanmean ctr) = false)
    /\ (forall x, In x cpm -> F64.isinf x = true ->
                  F64.isfinite (nanmean cpm) = false)
    /\ (forall a b, count_valid (a ++ F64.nan :: b) = count_valid (a ++ b)
                    /\ nansum (a ++ F64.nan :: b) = nansum (a ++ F64.zero :: b)).
Proof.
  intros [_ A] Hm Hf.
  destruct (metricas_inv _ _ Hm)
    as (res & imp & gas & x & y & g & E1 & E2 & E3 & F1 & F2 & F3 & ->).
  pose proof (with_metrics_aligned raw res imp gas x y g A E1 E2 E3 F1 F2 F3)
    as Ac.
  destruct (filtrar_inv _ _ _ _ _ Hf)
    as (campana & inicio & fin & m2 & m3 & _ & _ & _ & _ & _ & ->).
  set (m := mask_and (mask_and (isin campana seleccion) m2) m3).
  set (ctr := map (fun q => F64.mul q (F64.of_int 100)) (zip_with F64.div x y)).
  set (cpm := map (fun q => F64.mul q (F64.of_int 1000)) (zip_with F64.div g y)).
  assert (G1 : getitem (select m (with_metrics raw x y g)) "CTR"
               = Ok (Float64 (compress m ctr))).
  { apply (getitem_select _ _ m (Float64 ctr)). unfold with_metrics.
    rewrite getitem_setitem_other by reflexivity. apply getitem_setitem_same. }
  assert (G2 : getitem (select m (with_metrics raw x y g)) "CPM"
               = Ok (Float64 (compress m cpm))).
  { apply (getitem_select _ _ m (Float64 cpm)). unfold with_metrics.
    apply getitem_setitem_same. }
  pose proof (select_aligned m _ Ac) as Ad.
  exists (compress m ctr), (compress m cpm).
  split; [exact G1|]. split; [exact G2|].
  split; [reflexivity|]. split; [reflexivity|].
  split; [|split; [apply nanmean_inf | split; [apply nanmean_inf | apply nanmean_nan]]].
  intros r z Hr Hz Z0.
  assert (Hc : In r (rows (with_metrics raw x y g))).
  { rewrite rows_select in Hr. eapply In_compress. exact Hr. }
  destruct (metricas_rows raw res imp gas x y g r A E1 E2 E3 F1 F2 F3 Hc)
    as (u1 & u2 & u3 & R1 & R2 & R3 & R4 & R5).
  rewrite R2 in Hz. inversion Hz. subst u2.
  do 2 eexists. split; [exact R4|]. split.
  { eapply field_in_column; [exact Ad | exact G1 | exact Hr | exact R4]. }
  split; [exact R5|]. split.
  { eapply field_in_column; [exact Ad | exact G2 | exact Hr | exact R5]. }
  split; apply mul_not_finite, div_by_zero; exact Z0.
Qed.

(* ===================================================================== *)
(** ** What a complete run shows *)
(* ===================================================================== *)

(** When nothing raises, the page after the guard holds the four KPIs, the
    three charts and the detail table: the bar chart is drawn from
    [comparacion], the time series from [evolucion], the table is
    [detalle]. *)
Lemma presentar_page
  (argsort : forall A : Type, (A -> A -> bool) -> list A -> list nat)
  (df_filtrado : DataFrame) (page : list element)
  (total_gasto total_resultados : scalar) (ctr cpm : F64.t)
  (puntos barras : figure) (ordenado tabla : DataFrame)
  (traces : list trace) :
  (let? s := getitem df_filtrado "gasto" in sum s) = Ok total_gasto ->
  (let? s := getitem df_filtrado "resultados" in sum s) = Ok total_resultados ->
  (let? s := getitem df_filtrado "CTR" in mean s) = Ok ctr ->
  (let? s := getitem df_filtrado "CPM" in mean s) = Ok cpm ->
  px_scatter df_filtrado "gasto" "resultados" "campana" "impresiones"
    ["costo_por_resultado"; "CTR"; "CPM"] = Ok puntos ->
  comparacion argsort df_filtrado = Ok ordenado ->
  px_bar ordenado "campana" ["resultados"; "gasto"] = Ok barras ->
  evolucion df_filtrado = Ok traces ->
  detalle argsort df_filtrado = Ok tabla ->
  presentar argsort df_filtrado page
  = (Done tt,
     page ++
     [st_header "📈 Métricas Clave";
      st_columns 4;
      st_metric "Total Gastado (BOB)" total_gasto;
      st_metric "Resultados Totales" total_resultados;
      st_metric "CTR Promedio" (FloatValue ctr);
      st_metric "CPM Promedio" (FloatValue cpm);
      st_tabs ["📊 Eficiencia"; "📌 Comparación"; "📅 Evolución"];
      st_subheader "Eficiencia de Campañas";
      st_plotly_chart puntos;
      st_subheader "Comparación entre Campañas";
      st_plotly_chart barras;
      st_subheader "Evolución Temporal";
      st_plotly_chart (TraceFigure traces);
      st_header "📋 Datos Detallados";
      st_dataframe tabla;
      st_expander "ℹ️ Acerca de este dashboard"]).
Proof.
  intros H1 H2 H3 H4 H5 H6 H7 H8 H9.
  unfold presentar, bind, show, lift.
  rewrite H1, H2, H3, H4, H5, H6. simpl rbind. rewrite H7, H8, H9.
  repeat rewrite <- app_assoc. reflexivity.
Qed.

(* ===================================================================== *)
(** ** The script on the small export *)
(* ===================================================================== *)

Lemma exportacion_well_formed :
  well_formed (rename renamed_columns exportacion).
Proof. split; [simpl; distinct_labels | repeat constructor]. Qed.

Lemma limpio_well_formed : well_formed limpio.
Proof. split; [simpl; distinct_labels | repeat constructor]. Qed.

Lemma filtrado_well_formed : well_formed filtrado.
Proof. split; [simpl; distinct_labels | repeat constructor]. Qed.

Lemma derived_metrics_witness :
  exists clean,
    (forall page, cargar_datos (Ok exportacion) page = (Done clean, page))
    /\ nrows clean = 3
    /\ index clean = [0; 1; 2]%Z
    /\ well_formed clean
    /\ length (rows clean) = 3
    /\ (forall c, c <> "CTR" -> c <> "CPM" ->
                  getitem clean c
                  = getitem (rename renamed_columns exportacion) c)
    /\ forall r, In r (rows clean) ->
       exists resultados impresiones gasto ctr cpm,
         number_field "resultados" r = Some resultados
         /\ number_field "impresiones" r = Some impresiones
         /\ number_field "gasto" r = Some gasto
         /\ field "CTR" r = Some (FloatCell ctr)
         /\ field "CPM" r = Some (FloatCell cpm)
         /\ ctr = F64.mul (F64.div resultados impresiones) (F64.of_int 100)
         /\ cpm = F64.mul (F64.div gasto impresiones) (F64.of_int 1000)
         /\ (F64.iszero impresiones = true ->
             F64.isfinite ctr = false /\ F64.isfinite cpm = false).
Proof.
  exact (derived_metrics exportacion
           (Int64 [10; 5; 5]%Z) (Int64 [0; 1000; 2000]%Z)
           (Float64 [F64.of_int 100; F64.of_int 100; F64.of_int 50])
           exportacion_well_formed eq_refl eq_refl eq_refl
           eq_refl eq_refl eq_refl).
Defined.

Lemma filtrar_selects_witness :
  exists df_filtrado,
    filtrar limpio [camp_b] 20248 20277 = Ok df_filtrado
    /\ rows df_filtrado = filter (row_selected [camp_b] 20248 20277) (rows limpio).
Proof.
  destruct (filtrar_selects limpio [camp_b] 20248 20277
              (Object [camp_a; camp_a; camp_b])
              [day 20249; day 20248; day 20248]
              [day 20277; day 20277; day 20277]
              limpio_well_formed eq_refl eq_refl eq_refl) as (d & E & R & _).
  exists d. split; [exact E | exact R].
Defined.

Lemma filtrar_idempotent_witness :
  filtrar filtrado [camp_a; camp_b] 20248 20277 = Ok filtrado.
Proof.
  apply (filtrar_idempotent limpio [camp_a; camp_b] 20248 20277 filtrado).
  vm_compute. reflexivity.
Defined.

Lemma filtro_vacio_witness :
  exists shown,
    app insertion_argsort (Ok exportacion) nada []
    = (Stopped,
       shown ++ [st_warning "No hay datos con los filtros seleccionados."])
    /\ Forall (fun e => presents e = false)
              (shown ++ [st_warning "No hay datos con los filtros seleccionados."]).
Proof.
  apply (filtro_vacio insertion_argsort (Ok exportacion) nada limpio
           (select [false; false; false] limpio)
           [camp_a; camp_a; camp_b]
           [day 20249; day 20248; day 20248]
           [day 20277; day 20277; day 20277]
           (to_datetime 20248) (to_datetime 20277) []);
    try reflexivity.
  vm_compute. discriminate.
Defined.

Lemma comparacion_rows_witness :
  exists data sorted,
    comparacion insertion_argsort filtrado = Ok data
    /\ Permutation (rows filtrado) (rows data)
    /\ getitem data "resultados" = Ok sorted
    /\ descending sorted.
Proof.
  destruct (comparacion_rows insertion_argsort insertion_argsort_sorts
              filtrado (Int64 [10; 5; 5]%Z) filtrado_well_formed
              eq_refl eq_refl) as (data & sorted & E & P & _ & G & D).
  exists data, sorted. repeat split; assumption.
Defined.

Lemma detalle_rows_witness :
  exists tabla sorted,
    detalle insertion_argsort filtrado = Ok tabla
    /\ Permutation (map (restrict detail_columns) (rows filtrado)) (rows tabla)
    /\ getitem tabla "gasto" = Ok sorted
    /\ descending sorted.
Proof.
  destruct (detalle_rows insertion_argsort insertion_argsort_sorts
              filtrado
              (Float64 [F64.of_int 100; F64.of_int 100; F64.of_int 50])
              filtrado_well_formed eq_refl eq_refl eq_refl)
    as (tabla & sorted & E & P & _ & G & D).
  exists tabla, sorted. repeat split; assumption.
Defined.

Lemma evolucion_traces_witness :
  exists traces,
    evolucion filtrado = Ok traces
    /\ Forall2 (trace_of [camp_a; camp_a; camp_b]
                  (Datetime64 [day 20249; day 20248; day 20248])
                  (Int64 [10; 5; 5]%Z))
               [camp_a; camp_b] traces.
Proof.
  destruct (evolucion_traces filtrado [camp_a; camp_a; camp_b]
              (Datetime64 [day 20249; day 20248; day 20248])
              (Int64 [10; 5; 5]%Z) eq_refl eq_refl eq_refl)
    as (traces & E & _ & _ & F); [vm_compute; lia|].
  exists traces. split; [exact E | exact F].
Defined.

Lemma mean_kpis_witness :
  exists ctr cpm,
    getitem filtrado "CTR" = Ok (Float64 ctr)
    /\ getitem filtrado "CPM" = Ok (Float64 cpm)
    /\ mean (Float64 ctr) = Ok (nanmean ctr)
    /\ mean (Float64 cpm) = Ok (nanmean cpm).
Proof.
  destruct (mean_kpis exportacion limpio filtrado [camp_a; camp_b]
              20248 20277 exportacion_well_formed eq_refl eq_refl)
    as (ctr & cpm & G1 & G2 & M1 & M2 & _).
  exists ctr, cpm. repeat split; assumption.
Defined.

(** C4, as the claim has it, fails on the small export: campaign A has two
    rows and the frame of the bar chart two entries for it, three entries
    in all, where grouped totals would have one entry per campaign. *)
Lemma comparacion_not_grouped :
  exists data,
    comparacion insertion_argsort filtrado = Ok data
    /\ campaign_names (rows data) = [camp_a; camp_b; camp_a]
    /\ length (rows data) = 3
    /\ length (grouped_totals (rows filtrado)) = 2.
Proof.
  eexists. split; [vm_compute; reflexivity|].
  repeat split; vm_compute; reflexivity.
Qed.

(** C5, as the claim has it, fails in two ways. On the small export
    without the column of the reach, the filtered table is not empty and
    there is no detail listing at all: selecting the ten columns is a
    [KeyError]. On the export of 600 rows with the same spend, with
    [numpy]'s quicksort, the listing holds every row and the rows do not
    keep the order they have in the filtered table. *)
Lemma detalle_reorders_ties :
  (exists df_filtrado e,
      todo_filtrado exportacion_sin_alcance = Ok df_filtrado
      /\ empty df_filtrado = false
      /\ detalle Numpy.argsort df_filtrado = Err e
      /\ exn_cls e = KeyError)
  /\ (exists df_filtrado tabla,
         todo_filtrado exportacion_empates = Ok df_filtrado
         /\ nrows df_filtrado = 600
         /\ detalle Numpy.argsort df_filtrado = Ok tabla
         /\ nrows tabla = 600
         /\ ~ ties_kept (map (restrict detail_columns) (rows df_filtrado))
                        (rows tabla)).
Proof.
  split.
  - do 2 eexists. split; [vm_compute; reflexivity|].
    split; [reflexivity|]. split; [vm_compute; reflexivity | reflexivity].
  - do 2 eexists. split; [vm_compute; reflexivity|].
    split; [vm_compute; reflexivity|]. split; [vm_compute; reflexivity|].
    split; [vm_compute; reflexivity|].
    intros H. specialize (H (FloatCell (F64.of_int 100))).
    apply (f_equal (fun l => map (field "resultados") (firstn 3 l))) in H.
    vm_compute in H. discriminate H.
Qed.

(** C6, as the claim has it, fails on the small export: the rows of
    campaign A are dated 2025-06-10, then 2025-06-09, and so are the
    points of its trace. *)
Lemma evolucion_not_chronological :
  exists t rest,
    evolucion filtrado = Ok (t :: rest)
    /\ trace_x t = Datetime64 [day 20249; day 20248]
    /\ ~ chronological (trace_x t).
Proof.
  eexists. eexists. split; [vm_compute; reflexivity|].
  split; [reflexivity|].
  simpl. intros H. inversion H as [|? ? _ F]. subst.
  inversion F as [|? ? K _]. vm_compute in K. discriminate K.
Qed.

(** With an eleventh campaign the loop of the third tab runs out of
    colours. *)
Lemma evolucion_once_campanas : evolucion once_campanas = Err no_item.
Proof. vm_compute. reflexivity. Qed.

(** C8, as the claim has it, fails on the small export: the first row has
    impressions 0 and results 10, its CTR is infinite, and so is the mean
    CTR, where a mean that excludes or zeroes that value is finite. *)
Lemma mean_keeps_infinity :
  exists ctr,
    getitem filtrado "CTR" = Ok (Float64 ctr)
    /\ nth_error ctr 0 = Some F64.inf
    /\ mean (Float64 ctr) = Ok F64.inf
    /\ F64.isfinite (mean_excluding ctr) = true
    /\ F64.isfinite (mean_zeroing ctr) = true.
Proof.
  eexists. split; [vm_compute; reflexivity|].
  repeat split; vm_compute; reflexivity.
Qed.

(** C1 on an export without the column of the campaign names: the loader
    returns a table that is not empty and shows no message; the exception
    comes after it, where the sidebar reads the column, and ends the run.
    An export without a date column makes [pd.read_csv] raise a
    [ValueError], which the loader lets through. *)
Theorem loader_misses_column :
  (exists df,
      cargar_datos (Ok exportacion_sin_campana) [] = (Done df, [])
      /\ empty df = false
      /\ fst (app insertion_argsort (Ok exportacion_sin_campana) todo [])
         = Raised (Exc KeyError "'campana'"))
  /\ cargar_datos (Err (Exc ValueError "Missing column provided to 'parse_dates'")) []
     = (Raised (Exc ValueError "Missing column provided to 'parse_dates'"), []).
Proof.
  split; [|reflexivity].
  eexists. split; [vm_compute; reflexivity|].
  split; vm_compute; reflexivity.
Qed.

(** An export without the column of the results, which the loader reads:
    the [KeyError] is handled, the message shown and the frame empty. *)
Lemma cargar_datos_sin_resultados :
  cargar_datos (Ok exportacion_sin_resultados) []
  = (Done empty_frame, [st_error "Error al cargar datos: 'resultados'"]).
Proof. vm_compute. reflexivity. Qed.

(* ===================================================================== *)
(** ** More on the loader *)
(* ===================================================================== *)

(** X1. When [pd.read_csv] raises an exception of one of the four classes
    of the [except] clause, the run shows the error message of the loader,
    then the warning that no data was found, and stops there. *)
Theorem app_load_failure
  (argsort : forall A : Type, (A -> A -> bool) -> list A -> list nat)
  (ui : inputs) (e : exn) :
  handled e = true ->
  app argsort (Err e) ui [] = (Stopped, [load_error e; no_data_warning]).
Proof.
  intros H. unfold app, bind.
  rewrite (cargar_datos_handled (Err e) e [] eq_refl H). reflexivity.
Qed.

Lemma app_load_failure_witness :
  app insertion_argsort
      (Err (Exc FileNotFoundError "[Errno 2] No such file or directory")) todo []
  = (Stopped,
     [load_error (Exc FileNotFoundError "[Errno 2] No such file or directory");
      no_data_warning]).
Proof. apply app_load_failure. reflexivity. Defined.

Lemma lookup_has_columns (df : DataFrame) (cs : list string) :
  has_columns df cs = false ->
  exists pre c post,
    cs = pre ++ c :: post
    /\ lookup c (columns df) = None
    /\ forall k, In k pre -> lookup k (columns df) <> None.
Proof.
  unfold has_columns. induction cs as [|c cs IH]; simpl; [discriminate|].
  destruct (lookup c (columns df)) as [s|] eqn:E; simpl.
  - intros H. destruct (IH H) as (pre & k & post & -> & K & F).
    exists (c :: pre), k, post. repeat split; [exact K|].
    intros x [<-|Hx]; [congruence | apply F; exact Hx].
  - intros _. exists [], c, cs. repeat split; [exact E | intros k []].
Qed.

(** X2. When one of the three columns the loader reads (results,
    impressions, spend) is absent and those that are present are numeric,
    the [KeyError] is handled: the loader shows the error message that
    names the absent column and returns the empty frame, and the run shows
    the warning and stops. *)
Theorem missing_metric_column
  (argsort : forall A : Type, (A -> A -> bool) -> list A -> list nat)
  (raw : DataFrame) (ui : inputs) :
  has_columns (rename renamed_columns raw) metric_columns = false ->
  (forall c s, In c metric_columns ->
               getitem (rename renamed_columns raw) c = Ok s ->
               numeric s = true) ->
  exists c,
    In c metric_columns
    /\ getitem (rename renamed_columns raw) c = Err (Exc KeyError (quoted c))
    /\ (forall page,
           cargar_datos (Ok raw) page
           = (Done empty_frame, page ++ [load_error (Exc KeyError (quoted c))]))
    /\ app argsort (Ok raw) ui []
       = (Stopped, [load_error (Exc KeyError (quoted c)); no_data_warning]).
Proof.
  intros H N.
  set (df := rename renamed_columns raw) in *.
  assert (K : exists c, In c metric_columns
                        /\ metricas raw = Err (Exc KeyError (quoted c))
                        /\ getitem df c = Err (Exc KeyError (quoted c))).
  { unfold metricas. fold df.
    destruct (getitem df "resultados") as [res|e] eqn:E1.
    2:{ exists "resultados". unfold getitem in *.
        destruct (lookup "resultados" (columns df)); [discriminate|].
        inversion E1. simpl. auto. }
    destruct (getitem df "impresiones") as [imp|e] eqn:E2.
    2:{ exists "impresiones". unfold getitem in E2 |- *.
        destruct (lookup "impresiones" (columns df)); [discriminate|].
        inversion E2. simpl. auto. }
    assert (N1 : numeric res = true) by (apply (N "resultados"); simpl; auto).
    assert (N2 : numeric imp = true) by (apply (N "impresiones"); simpl; auto).
    destruct (as_float_numeric _ N1) as (x & F1).
    destruct (as_float_numeric _ N2) as (y & F2).
    simpl rbind. unfold truediv at 1. rewrite F1, F2. simpl rbind.
    rewrite !getitem_setitem_other by reflexivity.
    destruct (getitem df "gasto") as [gas|e] eqn:E3.
    - exfalso. destruct (lookup_has_columns _ _ H) as (pre & c & post & Ec & K & _).
      assert (Hc : In c metric_columns) by (rewrite Ec; apply in_elt).
      apply getitem_lookup in E1, E2, E3.
      destruct Hc as [<-|[<-|[<-|[]]]]; congruence.
    - exists "gasto". unfold getitem in E3 |- *.
      destruct (lookup "gasto" (columns df)); [discriminate|].
      inversion E3. simpl. auto. }
  destruct K as (c & Hc & Em & Eg).
  exists c. split; [exact Hc|]. split; [exact Eg|]. split.
  - intros page. apply (cargar_datos_handled (Ok raw)); [exact Em | reflexivity].
  - unfold app, bind.
    rewrite (cargar_datos_handled (Ok raw) _ [] Em eq_refl). reflexivity.
Qed.

Lemma missing_metric_column_witness :
  exists c,
    In c metric_columns
    /\ app insertion_argsort (Ok exportacion_sin_resultados) todo []
       = (Stopped, [load_error (Exc KeyError (quoted c)); no_data_warning]).
Proof.
  destruct (missing_metric_column insertion_argsort exportacion_sin_resultados
              todo eq_refl) as (c & Hc & _ & _ & E).
  - intros c s [<-|[<-|[<-|[]]]]; vm_compute; intros K; inversion K; reflexivity.
  - exists c. split; [exact Hc | exact E].
Defined.



Lemma assign_not_nil (c : string) (s : Series) (cols : list (string * Series)) :
  assign c s cols <> [].
Proof.
  destruct cols as [|[c' s'] cols]; simpl; [discriminate|].
  destruct (label_eqb c c'); discriminate.
Qed.

Lemma metricas_empty (raw clean : DataFrame) :
  metricas raw = Ok clean -> empty clean = Nat.eqb (nrows raw) 0.
Proof.
  intros Hm.
  destruct (metricas_inv _ _ Hm)
    as (res & imp & gas & x & y & g & _ & _ & _ & _ & _ & _ & Ec).
  subst clean. unfold empty, with_metrics, setitem, nrows. simpl.
  destruct (assign "CPM" _ _) eqn:K;
    [apply assign_not_nil in K; contradiction|].
  simpl. apply orb_false_r.
Qed.

Lemma adds_ret {A : Type} (P : element -> Prop) (a : A) : adds P (ret a).
Proof. intros page. exists []. rewrite app_nil_r. split; [reflexivity | constructor]. Qed.

Lemma adds_stop {A : Type} (P : element -> Prop) : adds P (@stop A).
Proof. intros page. exists []. rewrite app_nil_r. split; [reflexivity | constructor]. Qed.

Lemma adds_lift {A : Type} (P : element -> Prop) (r : result A) :
  adds P (lift r).
Proof.
  intros page. exists []. rewrite app_nil_r.
  split; [destruct r; reflexivity | constructor].
Qed.

Lemma adds_show (P : element -> Prop) (e : element) : P e -> adds P (show e).
Proof. intros H page. exists [e]. split; [reflexivity | repeat constructor; exact H]. Qed.

Lemma adds_bind {A B : Type} (P : element -> Prop) (m : script A)
  (k : A -> script B) :
  adds P m -> (forall a, adds P (k a)) -> adds P (bind m k).
Proof.
  intros Hm Hk page. unfold bind.
  destruct (Hm page) as (s1 & E1 & F1).
  destruct (m page) as [[a|e|] page']; simpl in E1; subst page'.
  - destruct (Hk a (page ++ s1)) as (s2 & E2 & F2).
    exists (s1 ++ s2). rewrite E2, app_assoc.
    split; [reflexivity | apply Forall_app; split; assumption].
  - exists s1. split; [reflexivity | exact F1].
  - exists s1. split; [reflexivity | exact F1].
Qed.

Lemma adds_date_input (P : element -> Prop) (label : string)
  (value min_value max_value : timestamp) :
  P (st_date_input label value min_value max_value) ->
  adds P (date_input label value min_value max_value).
Proof.
  intros H. unfold date_input.
  destruct value, min_value, max_value; try apply adds_lift.
  destruct (_ && _ && _)%bool; [apply adds_show; exact H | apply adds_lift].
Qed.

(** X4. When the loader succeeds on an export that has rows, the guard on
    an empty table lets the run through: the cleaned table has the rows of
    the export and is not empty, the first element on the page is the
    header of the sidebar, and neither a load error nor the warning that
    no data was found is shown, however the run ends. *)
Theorem app_past_guard
  (argsort : forall A : Type, (A -> A -> bool) -> list A -> list nat)
  (raw clean : DataFrame) (ui : inputs) :
  well_formed (rename renamed_columns raw) ->
  metricas raw = Ok clean ->
  nrows raw <> 0 ->
  empty clean = false
  /\ nrows clean = nrows raw
  /\ exists o shown,
       app argsort (Ok raw) ui [] = (o, st_header "🔍 Filtros" :: shown)
       /\ Forall (fun e => e <> no_data_warning
                           /\ forall body, e <> st_error body) shown.
Proof.
  intros _ Hm Hn.
  assert (He : empty clean = false).
  { rewrite (metricas_empty _ _ Hm). apply Nat.eqb_neq. exact Hn. }
  split; [exact He|]. split.
  { destruct (metricas_inv _ _ Hm)
      as (res & imp & gas & x & y & g & _ & _ & _ & _ & _ & _ & ->).
    reflexivity. }
  set (P := fun e => e <> no_data_warning /\ forall body, e <> st_error body).
  unfold app, bind at 1.
  rewrite (cargar_datos_ok (Ok raw) clean [] Hm), He.
  unfold bind at 1. unfold show at 1.
  change ([] ++ [st_header "🔍 Filtros"]) with [st_header "🔍 Filtros"].
  match goal with
  | |- exists o shown, ?m [_] = _ /\ _ => assert (K : adds P m)
  end.
  { repeat first
      [ apply adds_bind; [|intros ?]
      | apply adds_lift
      | apply adds_stop
      | apply adds_show; split; [discriminate | intros ?; discriminate]
      | apply adds_date_input; split; [discriminate | intros ?; discriminate]
      | match goal with
        | |- adds _ (if ?b then _ else _) => destruct b
        end ]. }
  destruct (K [st_header "🔍 Filtros"]) as (shown & E & F).
  match goal with
  | |- exists o shown, ?r = _ /\ _ => destruct r as [o page'] eqn:R
  end.
  simpl in E. subst page'. exists o, shown. split; [reflexivity | exact F].
Qed.

Lemma app_past_guard_witness :
  empty limpio = false
  /\ exists o shown,
       app insertion_argsort (Ok exportacion) nada []
       = (o, st_header "🔍 Filtros" :: shown)
       /\ Forall (fun e => e <> no_data_warning
                           /\ forall body, e <> st_error body) shown.
Proof.
  destruct (app_past_guard insertion_argsort exportacion limpio nada
              exportacion_well_formed eq_refl) as (E & _ & H).
  - discriminate.
  - split; [exact E | exact H].
Defined.

Lemma translate_renamed (c new : string) :
  translate renamed_columns c = new ->
  In (c, new) renamed_columns \/ c = new.
Proof.
  unfold renamed_columns. simpl.
  repeat match goal with
         | |- context [label_eqb c ?k] =>
             let E := fresh "E" in
             destruct (label_eqb c k) eqn:E;
             [apply label_eqb_eq in E; subst c; intros <-; simpl; tauto|]
         end.
  intros ->. right. reflexivity.
Qed.

Lemma lookup_rename (mapping : list (string * string)) (old new : string)
  (cols : list (string * Series)) :
  translate mapping old = new ->
  (forall c, translate mapping c = new -> c = old \/ c = new) ->
  lookup new cols = None ->
  lookup new (map (fun cs => (translate mapping (fst cs), snd cs)) cols)
  = lookup old cols.
Proof.
  intros T H. induction cols as [|[c s] cols IH]; simpl; [reflexivity|].
  destruct (label_eqb new c) eqn:E1; [discriminate|]. intros K.
  destruct (label_eqb new (translate mapping c)) eqn:E2.
  - apply label_eqb_eq in E2. symmetry in E2.
    destruct (H c E2) as [->| ->].
    + rewrite label_eqb_refl. reflexivity.
    + rewrite label_eqb_refl in E1. discriminate.
  - destruct (label_eqb old c) eqn:E3; [|apply IH; exact K].
    apply label_eqb_eq in E3. subst c. rewrite T, label_eqb_refl in E2.
    discriminate.
Qed.

Lemma renamed_columns_source (a b new : string) :
  In (a, new) renamed_columns -> In (b, new) renamed_columns -> a = b.
Proof.
  simpl. intros H I.
  repeat (destruct H as [H|H]; [|try contradiction]);
    repeat (destruct I as [I|I]; [|try contradiction]);
    congruence.
Qed.

(** X5. Renaming: for each of the six pairs of a source label and its
    canonical label, in a frame that has no column already carrying the
    canonical label, the renamed frame has under the canonical label what
    the frame had under the source label (the same column, or none).
    The index and the number of columns are left as they were. *)
Theorem rename_lookup (raw : DataFrame) (old new : string) :
  In (old, new) renamed_columns ->
  lookup new (columns raw) = None ->
  lookup new (columns (rename renamed_columns raw)) = lookup old (columns raw)
  /\ index (rename renamed_columns raw) = index raw
  /\ length (columns (rename renamed_columns raw)) = length (columns raw).
Proof.
  intros H K. split; [|split; [reflexivity | apply length_map]].
  apply (lookup_rename renamed_columns old new (columns raw)); [| |exact K].
  - simpl in H.
    repeat (destruct H as [H|H]; [inversion H; reflexivity|]). destruct H.
  - intros c T. destruct (translate_renamed c new T) as [I|E]; [|auto].
    left. apply (renamed_columns_source c old new I H).
Qed.

Lemma rename_lookup_witness :
  lookup "gasto" (columns (rename renamed_columns exportacion))
  = lookup "Importe gastado (BOB)" (columns exportacion).
Proof.
  apply (rename_lookup exportacion "Importe gastado (BOB)" "gasto").
  - simpl. tauto.
  - reflexivity.
Defined.

(** X6. What the loader adds and what it keeps, for an export that has
    rows and whose labels are distinct once renamed. When the loader's
    computation succeeds, the cleaned table has the index of the export
    and, under every label other than CTR and CPM, the column of the
    renamed export; CTR and CPM are float columns with one value per row;
    the table is well formed; and when the export had no column CTR or
    CPM, the two come last, in this order, after the renamed columns. *)
Theorem metricas_keeps (raw clean : DataFrame) :
  well_formed (rename renamed_columns raw) ->
  nrows raw <> 0 ->
  metricas raw = Ok clean ->
  index clean = index raw
  /\ (forall c, c <> "CTR" -> c <> "CPM" ->
                getitem clean c = getitem (rename renamed_columns raw) c)
  /\ (exists ctr cpm,
         getitem clean "CTR" = Ok (Float64 ctr)
         /\ getitem clean "CPM" = Ok (Float64 cpm)
         /\ length ctr = nrows raw /\ length cpm = nrows raw)
  /\ well_formed clean
  /\ (lookup "CTR" (columns raw) = None ->
      lookup "CPM" (columns raw) = None ->
      labels clean = labels (rename renamed_columns raw) ++ ["CTR"; "CPM"]).
Proof.
  intros [N A] _ Hm.
  destruct (metricas_inv _ _ Hm)
    as (res & imp & gas & x & y & g & E1 & E2 & E3 & F1 & F2 & F3 & ->).
  split; [reflexivity|]. split; [|split; [|split]].
  - intros c H1 H2. unfold with_metrics.
    rewrite !getitem_setitem_other; [reflexivity| |].
    + destruct (label_eqb c "CTR") eqn:E; [|reflexivity].
      apply label_eqb_eq in E. contradiction.
    + destruct (label_eqb c "CPM") eqn:E; [|reflexivity].
      apply label_eqb_eq in E. contradiction.
  - do 2 eexists. split; [|split].
    + unfold with_metrics. rewrite getitem_setitem_other by reflexivity.
      apply getitem_setitem_same.
    + apply getitem_setitem_same.
    + assert (N1 := getitem_size _ _ _ A E1).
      assert (N2 := getitem_size _ _ _ A E2).
      assert (N3 := getitem_size _ _ _ A E3).
      assert (L1 := as_float_length _ _ F1).
      assert (L2 := as_float_length _ _ F2).
      assert (L3 := as_float_length _ _ F3).
      unfold nrows in *. simpl in *.
      rewrite !length_map, !zip_with_length. lia.
  - split.
    + unfold with_metrics, setitem. simpl.
      apply NoDup_labels_assign, NoDup_labels_assign. exact N.
    + eapply with_metrics_aligned; eassumption.
  - intros K1 K2. unfold labels, with_metrics, setitem. cbn [columns].
    rewrite !labels_assign.
    assert (R : forall c, c = "CTR" \/ c = "CPM" ->
                          lookup c (columns raw) = None ->
                          lookup c (columns (rename renamed_columns raw)) = None).
    { intros c Hc K. apply lookup_none_labels. apply lookup_none_labels in K.
      unfold rename. cbn [columns]. rewrite map_map. cbn [fst]. intros I.
      apply in_map_iff in I. destruct I as ([k s] & T & I). cbn [fst] in T.
      destruct (translate_renamed k c T) as [J|J].
      - simpl in J.
        destruct Hc as [-> | ->];
          repeat (destruct J as [J|J]; [inversion J|]); destruct J.
      - subst k. apply K. apply in_map_iff. exists (c, s). split; auto. }
    rewrite lookup_assign_other by reflexivity.
    rewrite (R "CPM") by auto. rewrite (R "CTR") by auto.
    rewrite <- app_assoc. reflexivity.
Qed.

Lemma metricas_keeps_witness :
  index limpio = index exportacion
  /\ (exists ctr cpm,
         getitem limpio "CTR" = Ok (Float64 ctr)
         /\ getitem limpio "CPM" = Ok (Float64 cpm)
         /\ length ctr = 3 /\ length cpm = 3)
  /\ well_formed limpio
  /\ labels limpio
     = labels (rename renamed_columns exportacion) ++ ["CTR"; "CPM"].
Proof.
  destruct (metricas_keeps exportacion limpio exportacion_well_formed)
    as (I & _ & C & W & L); [discriminate | reflexivity |].
  split; [exact I|]. split; [exact C|]. split; [exact W|].
  apply L; reflexivity.
Defined.

(* ===================================================================== *)
(** ** More on the filter *)
(* ===================================================================== *)

Lemma map_all_true {A : Type} (f : A -> bool) (l : list A) :
  Forall (fun x => f x = true) l -> map f l = repeat true (length l).
Proof. induction 1 as [|x l H F IH]; simpl; [|rewrite H, IH]; reflexivity. Qed.

Lemma zip_with_and_true (n : nat) :
  zip_with andb (repeat true n) (repeat true n) = repeat true n.
Proof. induction n as [|n IH]; simpl; [|rewrite IH]; reflexivity. Qed.

Lemma compress_series_all (n : nat) (s : Series) :
  size s = n -> compress_series (repeat true n) s = s.
Proof. destruct s; simpl; intros H; rewrite compress_all by exact H; reflexivity. Qed.

Lemma select_all (df : DataFrame) :
  aligned df -> select (repeat true (nrows df)) df = df.
Proof.
  destruct df as [ix cols]. unfold aligned, select, nrows. simpl. intros A.
  rewrite compress_all by reflexivity. f_equal.
  induction A as [|[c s] l H A IH]; simpl; [reflexivity|].
  simpl in H. rewrite compress_series_all by exact H. rewrite IH. reflexivity.
Qed.

(** X7. A selection that covers the whole table leaves it as it is: when
    every campaign of the table is selected, no date is missing, every
    report starts at the selected start or later and ends at the selected
    end or earlier, the filtered table is the table itself. *)
Theorem filtrar_everything (df : DataFrame) (seleccion : list Py.str)
  (lo hi : Z) (v : list Py.str) (inicio fin : list timestamp) :
  aligned df ->
  getitem df "campana" = Ok (Object v) ->
  getitem df "Inicio del informe" = Ok (Datetime64 inicio) ->
  getitem df "Fin del informe" = Ok (Datetime64 fin) ->
  Forall (fun c => In c seleccion) v ->
  Forall (fun t => exists z, t = Some z /\ (to_datetime lo <= z)%Z) inicio ->
  Forall (fun t => exists z, t = Some z /\ (z <= to_datetime hi)%Z) fin ->
  filtrar df seleccion lo hi = Ok df.
Proof.
  intros A E1 E2 E3 F1 F2 F3.
  assert (N1 := getitem_size _ _ _ A E1).
  assert (N2 := getitem_size _ _ _ A E2).
  assert (N3 := getitem_size _ _ _ A E3). simpl in N1, N2, N3.
  unfold filtrar. rewrite E1, E2, E3. simpl.
  rewrite (map_all_true (fun x => Py.mem x seleccion) v).
  2:{ revert F1. apply Forall_impl. intros c H. apply str_mem_In. exact H. }
  rewrite (map_all_true _ inicio).
  2:{ revert F2. apply Forall_impl. intros t (z & -> & H). apply Z.leb_le, H. }
  rewrite (map_all_true _ fin).
  2:{ revert F3. apply Forall_impl. intros t (z & -> & H). apply Z.leb_le, H. }
  rewrite N1, N2, N3. unfold mask_and. rewrite !zip_with_and_true.
  rewrite select_all by exact A. reflexivity.
Qed.

Lemma filtrar_everything_witness :
  filtrar limpio [camp_a; camp_b] 20248 20277 = Ok limpio.
Proof.
  apply (filtrar_everything limpio [camp_a; camp_b] 20248 20277
           [camp_a; camp_a; camp_b]
           [day 20249; day 20248; day 20248]
           [day 20277; day 20277; day 20277]).
  - repeat constructor.
  - reflexivity.
  - reflexivity.
  - reflexivity.
  - rewrite Forall_forall. simpl. intuition.
  - repeat (apply Forall_cons;
            [eexists; split; [reflexivity | vm_compute; discriminate]|]).
    apply Forall_nil.
  - repeat (apply Forall_cons;
            [eexists; split; [reflexivity | vm_compute; discriminate]|]).
    apply Forall_nil.
Defined.

Lemma compress_none_kept {A : Type} (m : list bool) (l : list A) :
  Forall (fun b => b = false) m -> compress m l = [].
Proof.
  intros F. revert l; induction F as [|b m H F IH]; intros [|x l]; simpl;
    try reflexivity.
  rewrite H. apply IH.
Qed.

Lemma zip_with_and_false_l (m1 m2 : list bool) :
  Forall (fun b => b = false) m1 ->
  Forall (fun b => b = false) (zip_with andb m1 m2).
Proof.
  intros F. revert m2; induction F as [|b m H F IH]; intros [|c m2]; simpl;
    constructor; [rewrite H; reflexivity | apply IH].
Qed.

Lemma isin_nothing (s : Series) : Forall (fun b => b = false) (isin s []).
Proof.
  destruct s; simpl; try (apply Forall_forall; intros b H;
                          apply repeat_spec in H; exact H).
  apply Forall_map, Forall_forall. reflexivity.
Qed.

(** X8. With no campaign selected the filtered table has no row, whatever
    the dates: it is empty, so that the run ends on the warning. *)
Theorem filtrar_no_campaign (df df_filtrado : DataFrame) (lo hi : Z) :
  filtrar df [] lo hi = Ok df_filtrado ->
  index df_filtrado = []
  /\ rows df_filtrado = []
  /\ empty df_filtrado = true.
Proof.
  intros H.
  destruct (filtrar_inv _ _ _ _ _ H)
    as (campana & inicio & fin & m2 & m3 & _ & _ & _ & _ & _ & ->).
  assert (F : Forall (fun b => b = false)
                (mask_and (mask_and (isin campana []) m2) m3)).
  { apply zip_with_and_false_l, zip_with_and_false_l, isin_nothing. }
  assert (I : index (select (mask_and (mask_and (isin campana []) m2) m3) df)
              = []) by (apply compress_none_kept; exact F).
  split; [exact I|]. split.
  - rewrite rows_select. apply compress_none_kept. exact F.
  - unfold empty. rewrite I. reflexivity.
Qed.

Lemma filtrar_no_campaign_witness :
  exists df_filtrado,
    filtrar limpio [] 20248 20277 = Ok df_filtrado
    /\ empty df_filtrado = true.
Proof.
  exists (select [false; false; false] limpio).
  split; [reflexivity|].
  apply (filtrar_no_campaign limpio _ 20248 20277). reflexivity.
Defined.

Lemma compress_compress {A : Type} (m1 m2 : list bool) (l : list A) :
  compress (compress m1 m2) (compress m1 l) = compress (zip_with andb m1 m2) l.
Proof.
  revert m2 l; induction m1 as [|b m1 IH]; intros m2 l; [reflexivity|].
  destruct m2 as [|c m2], l as [|x l];
    try (destruct b; simpl; rewrite ?compress_nil_r; reflexivity).
  destruct b, c; simpl; rewrite IH; reflexivity.
Qed.

Lemma select_select (m1 m2 : list bool) (df : DataFrame) :
  select (compress m1 m2) (select m1 df) = select (mask_and m1 m2) df.
Proof.
  unfold select, mask_and. simpl. rewrite compress_compress, map_map. f_equal.
  apply map_ext. intros [c s]. simpl.
  destruct s; simpl; rewrite compress_compress; reflexivity.
Qed.

Lemma mask_and_comm (m1 m2 : list bool) : mask_and m1 m2 = mask_and m2 m1.
Proof.
  unfold mask_and. revert m2; induction m1 as [|b m1 IH]; intros [|c m2];
    simpl; try reflexivity.
  rewrite IH, andb_comm. reflexivity.
Qed.

(** The mask of the filter on a frame, and the filter on any selection of
    that frame. *)
Lemma filtrar_on_select (df : DataFrame) (seleccion : list Py.str) (lo hi : Z)
  (d : DataFrame) :
  filtrar df seleccion lo hi = Ok d ->
  exists mask,
    d = select mask df
    /\ (forall m, filtrar (select m df) seleccion lo hi
                  = Ok (select (mask_and m mask) df))
    /\ (aligned df -> mask = map (row_selected seleccion lo hi) (rows df)).
Proof.
  intros H.
  destruct (filtrar_inv _ _ _ _ _ H)
    as (campana & inicio & fin & m2 & m3 & E1 & E2 & E3 & E4 & E5 & ->).
  exists (mask_and (mask_and (isin campana seleccion) m2) m3).
  split; [reflexivity|]. split.
  - intros m. unfold filtrar.
    rewrite (getitem_select _ _ m _ E1),
      (getitem_select _ _ m _ E2), (getitem_select _ _ m _ E4).
    simpl rbind.
    rewrite (ge_timestamp_compress m _ _ _ E3),
      (le_timestamp_compress m _ _ _ E5).
    simpl rbind. rewrite isin_compress. unfold mask_and.
    rewrite <- !compress_zip_with.
    fold (mask_and (isin campana seleccion) m2).
    fold (mask_and (mask_and (isin campana seleccion) m2) m3).
    rewrite select_select. reflexivity.
  - intros A.
    destruct (ge_timestamp_dates _ _ _ E3) as (vi & ->).
    destruct (le_timestamp_dates _ _ _ E5) as (vf & ->).
    simpl in E3, E5. inversion E3 as [M2]. inversion E5 as [M3].
    clear E3 E5 M2 M3.
    apply eq_trans with
      (mask_and (mask_and (map (cell_in seleccion) (cells campana))
                          (map (cell_ge (to_datetime lo)) (cells (Datetime64 vi))))
                (map (cell_le (to_datetime hi)) (cells (Datetime64 vf)))).
    { rewrite isin_cells. simpl cells. rewrite !map_map. reflexivity. }
    apply (mask_of_fields (field "campana") (field "Inicio del informe")
             (field "Fin del informe")).
    + apply map_field_rows; assumption.
    + apply (map_field_rows df _ (Datetime64 vi)); assumption.
    + apply (map_field_rows df _ (Datetime64 vf)); assumption.
Qed.

Lemma filtrar_total (df : DataFrame) (s1 s2 : list Py.str)
  (l1 h1 l2 h2 : Z) (d : DataFrame) :
  filtrar df s1 l1 h1 = Ok d -> exists d', filtrar df s2 l2 h2 = Ok d'.
Proof.
  intros H.
  destruct (filtrar_inv _ _ _ _ _ H)
    as (campana & inicio & fin & m2 & m3 & E1 & E2 & E3 & E4 & E5 & _).
  destruct (ge_timestamp_dates _ _ _ E3) as (vi & ->).
  destruct (le_timestamp_dates _ _ _ E5) as (vf & ->).
  unfold filtrar. rewrite E1, E2, E4. simpl. eexists. reflexivity.
Qed.

Lemma zip_with_map2 {A : Type} (p q : A -> bool) (l : list A) :
  zip_with andb (map p l) (map q l) = map (fun x => p x && q x) l.
Proof. induction l as [|x l IH]; simpl; [|rewrite IH]; reflexivity. Qed.

(** X9. Two filters in a row commute and amount to one: once a first
    selection has gone through, a second one raises nothing, the result
    is the same frame in either order, and its rows are the rows of the
    table that satisfy both conditions. *)
Theorem filtrar_twice (df d1 : DataFrame) (s1 s2 : list Py.str)
  (l1 h1 l2 h2 : Z) :
  filtrar df s1 l1 h1 = Ok d1 ->
  exists d2 d12,
    filtrar df s2 l2 h2 = Ok d2
    /\ filtrar d1 s2 l2 h2 = Ok d12
    /\ filtrar d2 s1 l1 h1 = Ok d12
    /\ (aligned df ->
        rows d12
        = filter (fun r => row_selected s1 l1 h1 r && row_selected s2 l2 h2 r)
                 (rows df)).
Proof.
  intros H1.
  destruct (filtrar_total df s1 s2 l1 h1 l2 h2 d1 H1) as (d2 & H2).
  destruct (filtrar_on_select _ _ _ _ _ H1) as (m1 & -> & K1 & R1).
  destruct (filtrar_on_select _ _ _ _ _ H2) as (m2 & -> & K2 & R2).
  exists (select m2 df), (select (mask_and m1 m2) df).
  split; [exact H2|]. split; [apply K2|]. split.
  - rewrite K1, mask_and_comm. reflexivity.
  - intros A. rewrite rows_select, (R1 A), (R2 A). unfold mask_and.
    rewrite zip_with_map2. apply compress_filter.
Qed.

Lemma filtrar_twice_witness :
  exists d2 d12,
    filtrar limpio [camp_a] 20249 20277 = Ok d2
    /\ filtrar filtrado [camp_a] 20249 20277 = Ok d12
    /\ filtrar d2 [camp_a; camp_b] 20248 20277 = Ok d12.
Proof.
  destruct (filtrar_twice limpio filtrado [camp_a; camp_b] [camp_a]
              20248 20277 20249 20277 eq_refl)
    as (d2 & d12 & E1 & E2 & E3 & _).
  exists d2, d12. repeat split; assumption.
Defined.

Lemma compress_length_le {A : Type} (m : list bool) (l : list A) :
  length (compress m l) <= length l.
Proof.
  revert l; induction m as [|b m IH]; intros [|x l]; simpl; try lia.
  specialize (IH l). destruct b; simpl; lia.
Qed.

Lemma Forall_compress {A : Type} (P : A -> Prop) (m : list bool) (l : list A) :
  Forall P l -> Forall P (compress m l).
Proof.
  rewrite !Forall_forall. intros H x Hx. apply H.
  eapply In_compress. exact Hx.
Qed.

Lemma compress_and3 {A : Type} (P : A -> Prop) (m1 m2 m3 : list bool)
  (l : list A) :
  Forall P (compress m1 l) \/ Forall P (compress m2 l)
  \/ Forall P (compress m3 l) ->
  Forall P (compress (mask_and (mask_and m1 m2) m3) l).
Proof.
  unfold mask_and. intros [H|[H|H]].
  - rewrite <- !compress_compress. apply Forall_compress, Forall_compress, H.
  - rewrite <- compress_compress. apply Forall_compress.
    fold (mask_and m1 m2). rewrite mask_and_comm. unfold mask_and.
    rewrite <- compress_compress. apply Forall_compress, H.
  - fold (mask_and m1 m2). fold (mask_and (mask_and m1 m2) m3).
    rewrite mask_and_comm. unfold mask_and.
    rewrite <- compress_compress. apply Forall_compress, H.
Qed.

Lemma compress_map_mask {A : Type} (P : A -> Prop) (f : A -> bool)
  (l : list A) :
  (forall x, f x = true -> P x) -> Forall P (compress (map f l) l).
Proof.
  intros H. rewrite compress_filter. apply Forall_forall. intros x Hx.
  apply filter_In in Hx. apply H, Hx.
Qed.

(** X10. What the filter keeps, and what its result never holds. The
    filtered table has the labels of the table, in the same order, no more
    rows, and is well formed when the table is; its campaign column holds
    selected campaigns only, and its two date columns hold no missing date
    and no date outside the selected period. *)
Theorem filtrar_keeps (df df_filtrado : DataFrame)
  (seleccion : list Py.str) (lo hi : Z) :
  filtrar df seleccion lo hi = Ok df_filtrado ->
  labels df_filtrado = labels df
  /\ nrows df_filtrado <= nrows df
  /\ (well_formed df -> well_formed df_filtrado)
  /\ (forall v, getitem df_filtrado "campana" = Ok (Object v) ->
                Forall (fun c => In c seleccion) v)
  /\ (forall a, getitem df_filtrado "Inicio del informe" = Ok (Datetime64 a) ->
                Forall (fun t => exists z, t = Some z
                                           /\ (to_datetime lo <= z)%Z) a)
  /\ (forall b, getitem df_filtrado "Fin del informe" = Ok (Datetime64 b) ->
                Forall (fun t => exists z, t = Some z
                                           /\ (z <= to_datetime hi)%Z) b).
Proof.
  intros H.
  destruct (filtrar_inv _ _ _ _ _ H)
    as (campana & inicio & fin & m2 & m3 & E1 & E2 & E3 & E4 & E5 & ->).
  set (m := mask_and (mask_and (isin campana seleccion) m2) m3).
  assert (L : labels (select m df) = labels df).
  { unfold labels, select. simpl. rewrite map_map. reflexivity. }
  split; [exact L|]. split; [apply compress_length_le|].
  split; [|split; [|split]].
  - intros [N A]. split; [|apply select_aligned; exact A].
    fold (labels (select m df)). rewrite L. exact N.
  - intros v G. rewrite (getitem_select _ _ m _ E1) in G.
    destruct campana as [w|w|w|w]; inversion G. subst v.
    apply compress_and3. left. simpl.
    apply compress_map_mask. intros c K. apply str_mem_In. exact K.
  - intros a G. rewrite (getitem_select _ _ m _ E2) in G.
    destruct inicio as [w|w|w|w]; inversion G. subst a.
    simpl in E3. inversion E3. subst m2.
    apply compress_and3. right. left.
    apply compress_map_mask. intros [z|] K; [|discriminate].
    exists z. split; [reflexivity | apply Z.leb_le, K].
  - intros b G. rewrite (getitem_select _ _ m _ E4) in G.
    destruct fin as [w|w|w|w]; inversion G. subst b.
    simpl in E5. inversion E5. subst m3.
    apply compress_and3. right. right.
    apply compress_map_mask. intros [z|] K; [|discriminate].
    exists z. split; [reflexivity | apply Z.leb_le, K].
Qed.

Lemma filtrar_keeps_witness :
  exists df_filtrado,
    filtrar limpio [camp_b] 20248 20277 = Ok df_filtrado
    /\ labels df_filtrado = labels limpio
    /\ nrows df_filtrado <= nrows limpio.
Proof.
  exists (select [false; false; true] limpio).
  split; [reflexivity|].
  destruct (filtrar_keeps limpio (select [false; false; true] limpio)
              [camp_b] 20248 20277 eq_refl) as (L & N & _).
  split; [exact L | exact N].
Defined.

(* ===================================================================== *)
(** ** The totals *)
(* ===================================================================== *)

Lemma wrap64_add (a b : Z) : wrap64 (wrap64 a + b) = wrap64 (a + b).
Proof.
  unfold wrap64. f_equal.
  replace ((a + 2 ^ 63) mod 2 ^ 64 - 2 ^ 63 + b + 2 ^ 63)%Z
    with ((a + 2 ^ 63) mod 2 ^ 64 + b)%Z by lia.
  rewrite Zplus_mod_idemp_l. f_equal. lia.
Qed.

Lemma wrap64_small (z : Z) :
  (- 2 ^ 63 <= z < 2 ^ 63)%Z -> wrap64 z = z.
Proof. intros H. unfold wrap64. rewrite Z.mod_small; lia. Qed.

Lemma sum_fold (v : list Z) (acc : Z) :
  fold_left (fun a x => wrap64 (a + x)) v (wrap64 acc)
  = wrap64 (acc + Zsum v).
Proof.
  revert acc; induction v as [|x v IH]; intros acc; simpl.
  - rewrite Z.add_0_r. reflexivity.
  - rewrite wrap64_add, IH. f_equal. lia.
Qed.

(** X11. The total of an integer column (the results) is the sum of its
    values reduced to 64 bits in two's complement, whatever the partial
    sums were; it is the sum itself when that fits in 64 bits. The total
    is never an exception. *)
Theorem sum_int64 (v : list Z) :
  sum (Int64 v) = Ok (IntValue (wrap64 (Zsum v)))
  /\ ((- 2 ^ 63 <= Zsum v < 2 ^ 63)%Z ->
      sum (Int64 v) = Ok (IntValue (Zsum v))).
Proof.
  assert (E : sum (Int64 v) = Ok (IntValue (wrap64 (Zsum v)))).
  { simpl. change 0%Z with (wrap64 0) at 1. rewrite sum_fold. reflexivity. }
  split; [exact E|]. intros H. rewrite E, wrap64_small by exact H.
  reflexivity.
Qed.

Lemma sum_int64_witness : sum (Int64 [10; 5; 5]%Z) = Ok (IntValue 20).
Proof.
  apply (proj2 (sum_int64 [10; 5; 5]%Z)). vm_compute.
  split; [discriminate | reflexivity].
Defined.

(* ===================================================================== *)
(** ** The sidebar *)
(* ===================================================================== *)

Lemma map_result_spec {A B : Type} (f : A -> result B) (l : list A)
  (r : list B) :
  map_result f l = Ok r -> Forall2 (fun x y => f x = Ok y) l r.
Proof.
  revert r; induction l as [|x l IH]; intros r; simpl.
  - intros E. inversion E. constructor.
  - destruct (f x) as [y|] eqn:E1; [|discriminate]. simpl.
    destruct (map_result f l) as [r'|]; [|discriminate]. simpl.
    intros E. inversion E. constructor; [exact E1 | apply IH; reflexivity].
Qed.

Lemma str_mem_app (x : Py.str) (a b : list Py.str) :
  Py.mem x (a ++ b) = Py.mem x a || Py.mem x b.
Proof. unfold Py.mem. apply existsb_app. Qed.

Lemma unique_from_filter (s1 s2 v : list Py.str) :
  unique_from (s1 ++ s2) v
  = unique_from s1 (filter (fun y => negb (Py.mem y s2)) v).
Proof.
  revert s1; induction v as [|x v IH]; intros s1; simpl; [reflexivity|].
  rewrite str_mem_app.
  destruct (Py.mem x s2) eqn:E2; simpl.
  - rewrite orb_true_r. apply IH.
  - rewrite orb_false_r. destruct (Py.mem x s1); [apply IH|].
    f_equal. apply (IH (x :: s1)).
Qed.

(** X12. The options of the multiselect, for a campaign column of
    strings: they are computed without an exception, each with its label;
    no option comes twice and the options are exactly the campaigns of
    the table; they come in the order of first appearance, that is, the
    first campaign of the table first, then the options of the rest of
    the table without that campaign. *)
Theorem multiselect_options_strings (v : list Py.str) :
  exists etiquetas,
    multiselect_options (Object v) = Ok (unique v, etiquetas)
    /\ Forall2 (fun c l => format_func c = Ok l) (unique v) etiquetas
    /\ NoDup (unique v)
    /\ (forall c, In c (unique v) <-> In c v)
    /\ (forall c rest,
           unique (c :: rest)
           = c :: unique (filter (fun y => negb (Py.eqb y c)) rest)).
Proof.
  destruct (map_result_total format_func (unique v) format_func_total)
    as (labels & E).
  exists labels. unfold multiselect_options. rewrite E.
  destruct (unique_spec v) as [N I].
  repeat split; try assumption; try apply I.
  - apply map_result_spec. exact E.
  - intros c rest. unfold unique. simpl. f_equal.
    etransitivity; [exact (unique_from_filter [] [c] rest)|].
    f_equal. apply filter_ext. intros y. unfold Py.mem. simpl.
    rewrite orb_false_r. reflexivity.
Qed.

(** X13. A campaign column that is not text (campaign names that
    [pd.read_csv] read as numbers, say) ends the run: with at least one
    row, the labels of the multiselect cannot be computed, and the
    [AttributeError] leaves the script right after the header of the
    sidebar. *)
Theorem app_campaign_not_text
  (argsort : forall A : Type, (A -> A -> bool) -> list A -> list nat)
  (raw clean : DataFrame) (ui : inputs) (campana : Series) :
  metricas raw = Ok clean ->
  nrows raw <> 0 ->
  getitem clean "campana" = Ok campana ->
  (forall v, campana <> Object v) ->
  size campana <> 0 ->
  exists e,
    exn_cls e = AttributeError
    /\ app argsort (Ok raw) ui [] = (Raised e, [st_header "🔍 Filtros"]).
Proof.
  intros Hm Hn Ec Ho Hs. exists no_split. split; [reflexivity|].
  unfold app, bind.
  rewrite (cargar_datos_ok (Ok raw) clean [] Hm), (metricas_empty _ _ Hm).
  apply Nat.eqb_neq in Hn. rewrite Hn.
  unfold show, lift. rewrite Ec. simpl rbind.
  destruct campana as [v|v|v|v]; simpl in *;
    try (destruct v; [contradiction | reflexivity]).
  exfalso. apply (Ho v). reflexivity.
Qed.

Lemma app_campaign_not_text_witness :
  exists e,
    exn_cls e = AttributeError
    /\ app insertion_argsort
           (Ok (setitem exportacion "Nombre de la campaña" (Int64 [1; 1; 2]%Z)))
           todo []
       = (Raised e, [st_header "🔍 Filtros"]).
Proof.
  apply (app_campaign_not_text insertion_argsort _
           (setitem limpio "campana" (Int64 [1; 1; 2]%Z)) todo
           (Int64 [1; 1; 2]%Z)); try reflexivity; try discriminate.
Defined.

Lemma ts_min_fold (v : list timestamp) (acc : timestamp) :
  (fold_left ts_step_min v acc = None
   <-> acc = None /\ Forall (fun t => t = None) v)
  /\ forall m, fold_left ts_step_min v acc = Some m ->
               (acc = Some m \/ In (Some m) v)
               /\ (forall a, acc = Some a \/ In (Some a) v -> (m <= a)%Z).
Proof.
  revert acc; induction v as [|x v IH]; intros acc; simpl.
  - split.
    + split; [intros H; split; [exact H | constructor] | intros [H _]; exact H].
    + intros m H. subst acc. split; [left; reflexivity|].
      intros a [K|[]]. inversion K. lia.
  - destruct (IH (ts_step_min acc x)) as [N S]. split.
    + rewrite N. split.
      * intros [K F]. destruct acc as [a|], x as [b|]; simpl in K;
          try discriminate. split; [reflexivity | constructor; auto].
      * intros [-> F]. inversion F. subst. split; [reflexivity | assumption].
    + intros m H. destruct (S m H) as [O L]. split.
      * destruct O as [O|O]; [|right; right; exact O].
        destruct acc as [a|], x as [b|]; simpl in O; inversion O; auto.
        destruct (Z.min_spec a b) as [[_ ->]|[_ ->]]; auto.
      * intros a [K|[K|K]].
        -- subst acc. destruct x as [b|]; simpl in L.
           ++ specialize (L (Z.min a b) (or_introl eq_refl)). lia.
           ++ apply L. left. reflexivity.
        -- subst x. destruct acc as [b|]; simpl in L.
           ++ specialize (L (Z.min b a) (or_introl eq_refl)). lia.
           ++ apply L. left. reflexivity.
        -- apply L. right. exact K.
Qed.

Lemma ts_max_fold (v : list timestamp) (acc : timestamp) :
  (fold_left ts_step_max v acc = None
   <-> acc = None /\ Forall (fun t => t = None) v)
  /\ forall m, fold_left ts_step_max v acc = Some m ->
               (acc = Some m \/ In (Some m) v)
               /\ (forall a, acc = Some a \/ In (Some a) v -> (a <= m)%Z).
Proof.
  revert acc; induction v as [|x v IH]; intros acc; simpl.
  - split.
    + split; [intros H; split; [exact H | constructor] | intros [H _]; exact H].
    + intros m H. subst acc. split; [left; reflexivity|].
      intros a [K|[]]. inversion K. lia.
  - destruct (IH (ts_step_max acc x)) as [N S]. split.
    + rewrite N. split.
      * intros [K F]. destruct acc as [a|], x as [b|]; simpl in K;
          try discriminate. split; [reflexivity | constructor; auto].
      * intros [-> F]. inversion F. subst. split; [reflexivity | assumption].
    + intros m H. destruct (S m H) as [O L]. split.
      * destruct O as [O|O]; [|right; right; exact O].
        destruct acc as [a|], x as [b|]; simpl in O; inversion O; auto.
        destruct (Z.max_spec a b) as [[_ ->]|[_ ->]]; auto.
      * intros a [K|[K|K]].
        -- subst acc. destruct x as [b|]; simpl in L.
           ++ specialize (L (Z.max a b) (or_introl eq_refl)). lia.
           ++ apply L. left. reflexivity.
        -- subst x. destruct acc as [b|]; simpl in L.
           ++ specialize (L (Z.max b a) (or_introl eq_refl)). lia.
           ++ apply L. left. reflexivity.
        -- apply L. right. exact K.
Qed.

(** X14. The dates the two date pickers start from. On a column of dates,
    the earliest ([min]) and the latest ([max]) are computed without an
    exception and skip the missing dates: each is a date of the column
    that bounds every date of the column, and is missing only when every
    date of the column is. *)
Theorem date_picker_bounds (v : list timestamp) :
  exists lo hi,
    min_pydatetime (Datetime64 v) = Ok lo
    /\ max_pydatetime (Datetime64 v) = Ok hi
    /\ (lo = None <-> Forall (fun t => t = None) v)
    /\ (hi = None <-> Forall (fun t => t = None) v)
    /\ (forall m, lo = Some m ->
                  In (Some m) v /\ forall a, In (Some a) v -> (m <= a)%Z)
    /\ (forall m, hi = Some m ->
                  In (Some m) v /\ forall a, In (Some a) v -> (a <= m)%Z).
Proof.
  exists (ts_min v), (ts_max v). split; [reflexivity|]. split; [reflexivity|].
  destruct (ts_min_fold v None) as [N1 S1].
  destruct (ts_max_fold v None) as [N2 S2].
  change (fold_left ts_step_min v None) with (ts_min v) in N1, S1.
  change (fold_left ts_step_max v None) with (ts_max v) in N2, S2.
  split; [rewrite N1; tauto|]. split; [rewrite N2; tauto|]. split.
  - intros m H. destruct (S1 m H) as [[O|O] L]; [discriminate|].
    split; [exact O|]. intros a Ha. apply L. right. exact Ha.
  - intros m H. destruct (S2 m H) as [[O|O] L]; [discriminate|].
    split; [exact O|]. intros a Ha. apply L. right. exact Ha.
Qed.

(* ===================================================================== *)
(** ** More on the detail listing *)
(* ===================================================================== *)

Lemma take_columns_labels (indexer : list nat) (cols cols' : list (string * Series)) :
  take_columns indexer cols = Ok cols' -> map fst cols' = map fst cols.
Proof.
  revert cols'; induction cols as [|[c s] cols IH]; intros cols'; simpl.
  - intros E. inversion E. reflexivity.
  - destruct (take_series indexer s) as [s'|]; [|discriminate]. simpl.
    destruct (take_columns indexer cols) as [r|]; [|discriminate]. simpl.
    intros E. inversion E. simpl. rewrite (IH r eq_refl). reflexivity.
Qed.

Lemma getitems_columns_labels (df : DataFrame) (ls : list string)
  (cols : list (string * Series)) :
  getitems_columns df ls = Ok cols -> map fst cols = ls.
Proof.
  revert cols; induction ls as [|c ls IH]; intros cols; simpl.
  - intros E. inversion E. reflexivity.
  - destruct (getitem df c) as [s|]; [|discriminate]. simpl.
    destruct (getitems_columns df ls) as [r|]; [|discriminate]. simpl.
    intros E. inversion E. simpl. rewrite (IH r eq_refl). reflexivity.
Qed.

Lemma sort_values_labels
  (argsort : forall A : Type, (A -> A -> bool) -> list A -> list nat)
  (df d : DataFrame) (by_ : string) (ascending : bool) :
  sort_values argsort df by_ ascending = Ok d -> labels d = labels df.
Proof.
  unfold sort_values, take.
  destruct (getitem df by_) as [k|]; [|discriminate]. simpl.
  destruct (argsort_series argsort k ascending) as [ix|]; [|discriminate].
  simpl. destruct (take_result ix (index df)) as [ix'|]; [|discriminate].
  simpl. destruct (take_columns ix (columns df)) as [cols'|] eqn:E;
    [|discriminate].
  simpl. intros K. inversion K. unfold labels. simpl.
  apply (take_columns_labels _ _ _ E).
Qed.

(** X15. Whatever the order of the columns in the export and whatever
    the sort does, a detail listing that is shown has exactly the ten
    columns named in the script, in the order the script names them. *)
Theorem detalle_columns
  (argsort : forall A : Type, (A -> A -> bool) -> list A -> list nat)
  (df_filtrado tabla : DataFrame) :
  detalle argsort df_filtrado = Ok tabla ->
  labels tabla = detail_columns.
Proof.
  unfold detalle, getitems.
  destruct (getitems_columns df_filtrado detail_columns) as [cols|] eqn:E;
    [|discriminate].
  simpl rbind. intros H. rewrite (sort_values_labels _ _ _ _ _ H).
  unfold labels. simpl. apply (getitems_columns_labels _ _ _ E).
Qed.

Lemma detalle_columns_witness :
  exists tabla,
    detalle insertion_argsort filtrado = Ok tabla
    /\ labels tabla = detail_columns.
Proof.
  assert (E : exists tabla, detalle insertion_argsort filtrado = Ok tabla).
  { eexists. vm_compute. reflexivity. }
  destruct E as (tabla & E). exists tabla. split; [exact E|].
  apply (detalle_columns insertion_argsort filtrado tabla E).
Defined.

Lemma getitems_columns_missing (df : DataFrame) (pre post : list string)
  (c : string) :
  (forall k, In k pre -> lookup k (columns df) <> None) ->
  lookup c (columns df) = None ->
  getitems_columns df (pre ++ c :: post) = Err (Exc KeyError (quoted c)).
Proof.
  intros F K. induction pre as [|k pre IH]; simpl.
  - unfold getitem. rewrite K. reflexivity.
  - unfold getitem at 1. destruct (lookup k (columns df)) eqn:E.
    + simpl. rewrite IH; [reflexivity|]. intros x Hx. apply F. right. exact Hx.
    + exfalso. apply (F k); [left; reflexivity | exact E].
Qed.

(** X16. When one of the ten columns of the detail listing is absent from
    the filtered table (an export without the reach column, say), the
    detail listing is a [KeyError] and no table is shown. *)
Theorem detalle_missing_column
  (argsort : forall A : Type, (A -> A -> bool) -> list A -> list nat)
  (df_filtrado : DataFrame) :
  has_columns df_filtrado detail_columns = false ->
  exists c e,
    In c detail_columns
    /\ lookup c (columns df_filtrado) = None
    /\ detalle argsort df_filtrado = Err e
    /\ exn_cls e = KeyError.
Proof.
  intros H.
  destruct (lookup_has_columns _ _ H) as (pre & c & post & E & K & F).
  exists c, (Exc KeyError (quoted c)).
  split; [rewrite E; apply in_elt|]. split; [exact K|].
  split; [|reflexivity].
  unfold detalle, getitems. rewrite E.
  rewrite (getitems_columns_missing _ _ _ _ F K). reflexivity.
Qed.

Lemma detalle_missing_column_witness :
  exists c e,
    In c detail_columns
    /\ detalle insertion_argsort once_campanas = Err e
    /\ exn_cls e = KeyError.
Proof.
  destruct (detalle_missing_column insertion_argsort once_campanas eq_refl)
    as (c & e & I & _ & E & K).
  exists c, e. repeat split; assumption.
Defined.

(* ===================================================================== *)
(** ** More on the time series *)
(* ===================================================================== *)

Lemma skipn_at {A : Type} (l : list A) (i : nat) (x : A) :
  nth_error l i = Some x -> skipn i l = x :: skipn (S i) l.
Proof.
  revert i; induction l as [|y l IH]; intros [|i]; simpl; try discriminate.
  - intros E. inversion E. reflexivity.
  - intros E. rewrite (IH i E). destruct l; reflexivity.
Qed.

Lemma In_firstn {A : Type} (n : nat) (l : list A) (x : A) :
  In x (firstn n l) -> In x l.
Proof.
  revert n; induction l as [|y l IH]; intros [|n]; simpl; try tauto.
  intros [H|H]; [left; exact H | right; apply (IH n H)].
Qed.

Lemma NoDup_firstn {A : Type} (n : nat) (l : list A) :
  NoDup l -> NoDup (firstn n l).
Proof.
  revert n; induction l as [|x l IH]; intros [|n] N; simpl; try constructor.
  - inversion N as [|? ? K N']. subst. intros H. apply K.
    apply (In_firstn _ _ _ H).
  - inversion N. apply IH. assumption.
Qed.

Lemma color_sequence_distinct : NoDup color_sequence.
Proof.
  unfold color_sequence.
  repeat (apply NoDup_cons; [simpl; intuition discriminate|]). apply NoDup_nil.
Qed.

Lemma add_traces_colors (d : DataFrame) (campanas : list Py.str) (i : nat)
  (traces : list trace) :
  add_traces d i campanas = Ok traces ->
  length traces = length campanas
  /\ map trace_color traces = firstn (length campanas) (skipn i color_sequence)
  /\ (campanas <> [] -> i + length campanas <= 10).
Proof.
  revert i traces; induction campanas as [|c rest IH]; intros i traces; simpl.
  - intros E. inversion E. repeat split. intros H. contradiction.
  - destruct (getitem d "campana") as [col|]; [|discriminate]. simpl rbind.
    destruct (getitem _ "Inicio del informe") as [x|]; [|discriminate].
    simpl rbind.
    destruct (getitem _ "resultados") as [y|]; [|discriminate]. simpl rbind.
    destruct (nombre_traza c) as [name|]; [|discriminate]. simpl rbind.
    unfold color_at at 1.
    destruct (nth_error color_sequence i) as [color|] eqn:Ec; [|discriminate].
    simpl rbind.
    destruct (add_traces d (S i) rest) as [ts|] eqn:E; [|discriminate].
    simpl rbind. intros K. inversion K. subst traces.
    destruct (IH _ _ E) as (L & C & B). simpl. rewrite L. split; [reflexivity|].
    split.
    + rewrite (skipn_at _ _ _ Ec). simpl. rewrite C. reflexivity.
    + intros _. assert (i < 10).
      { apply (nth_error_Some color_sequence i). rewrite Ec. discriminate. }
      destruct rest as [|c' rest]; [simpl; lia|].
      specialize (B ltac:(discriminate)). simpl in *. lia.
Qed.

(** X17. The traces of a chart that is shown take the colours of the
    palette in order, from the first one: a chart has at most ten traces,
    and no two traces of it have the same colour. *)
Theorem evolucion_colors (df_filtrado : DataFrame) (traces : list trace) :
  evolucion df_filtrado = Ok traces ->
  map trace_color traces = firstn (length traces) color_sequence
  /\ length traces <= 10
  /\ NoDup (map trace_color traces).
Proof.
  unfold evolucion.
  destruct (getitem df_filtrado "campana") as [campana|]; [|discriminate].
  simpl rbind. intros H.
  assert (K : (exists cs, add_traces df_filtrado 0 cs = Ok traces)
              \/ traces = []).
  { destruct campana as [v|v|v|v];
      try (destruct (size _); [inversion H; auto | discriminate]).
    left. exists (unique v). exact H. }
  destruct K as [(cs & E)| ->].
  - destruct (add_traces_colors _ _ _ _ E) as (L & C & B).
    rewrite L. simpl in C. split; [exact C|]. split.
    + destruct cs as [|c cs]; [simpl; lia|].
      specialize (B ltac:(discriminate)). simpl in *. lia.
    + rewrite C. apply NoDup_firstn, color_sequence_distinct.
  - simpl. repeat split; [lia | constructor].
Qed.

Lemma evolucion_colors_witness :
  exists traces,
    evolucion filtrado = Ok traces
    /\ map trace_color traces = ["#636EFA"; "#EF553B"].
Proof.
  assert (E : exists traces, evolucion filtrado = Ok traces
                             /\ length traces = 2).
  { eexists. split; vm_compute; reflexivity. }
  destruct E as (traces & E & L). exists traces. split; [exact E|].
  destruct (evolucion_colors filtrado traces E) as (C & _).
  rewrite L in C. exact C.
Defined.

Lemma color_at_overflow (i : nat) : 10 <= i -> color_at i = Err no_item.
Proof.
  intros H. unfold color_at.
  assert (K : nth_error color_sequence i = None)
    by (apply nth_error_None; simpl; lia).
  rewrite K. reflexivity.
Qed.

Lemma add_traces_overflow (d : DataFrame) (v : list Py.str)
  (inicio resultados : Series) (campanas : list Py.str) (i : nat) :
  getitem d "campana" = Ok (Object v) ->
  getitem d "Inicio del informe" = Ok inicio ->
  getitem d "resultados" = Ok resultados ->
  i <= 10 -> i + length campanas > 10 ->
  add_traces d i campanas = Err no_item.
Proof.
  intros E1 E2 E3. revert i; induction campanas as [|c rest IH]; intros i L H.
  - simpl in H. lia.
  - destruct (nombre_traza_total c) as (name & En).
    simpl. rewrite E1. simpl rbind.
    rewrite (getitem_select _ _ _ _ E2), (getitem_select _ _ _ _ E3).
    simpl rbind. rewrite En. simpl rbind.
    destruct (Nat.eq_dec i 10) as [->|D].
    + reflexivity.
    + destruct (color_at_total i) as (color & Ec); [lia|].
      rewrite Ec. simpl rbind. rewrite IH by (simpl in H; lia). reflexivity.
Qed.

(** X18. With more than ten distinct campaigns in the filtered table, the
    third tab never gets its chart: the loop asks the palette for an
    eleventh colour and the [IndexError] ends the run. *)
Theorem evolucion_too_many (df_filtrado : DataFrame) (v : list Py.str)
  (inicio resultados : Series) :
  getitem df_filtrado "campana" = Ok (Object v) ->
  getitem df_filtrado "Inicio del informe" = Ok inicio ->
  getitem df_filtrado "resultados" = Ok resultados ->
  length (unique v) > 10 ->
  evolucion df_filtrado = Err no_item /\ exn_cls no_item = IndexError.
Proof.
  intros E1 E2 E3 H. split; [|reflexivity].
  unfold evolucion. rewrite E1. simpl rbind.
  apply (add_traces_overflow df_filtrado v inicio resultados);
    try assumption; simpl; lia.
Qed.

Lemma evolucion_too_many_witness :
  evolucion once_campanas = Err no_item /\ exn_cls no_item = IndexError.
Proof.
  apply (evolucion_too_many once_campanas
           (map (fun n => [67%N; N.of_nat n]) (seq 65 11))
           (Datetime64 (repeat (day 20248) 11)) (Int64 (repeat 1%Z 11)));
    try reflexivity.
  vm_compute. lia.
Defined.

Lemma count_one (x : Py.str) (l : list Py.str) :
  NoDup l -> In x l ->
  list_sum (map (fun c => if Py.eqb x c then 1 else 0) l) = 1.
Proof.
  induction 1 as [|y l N ND IH]; simpl; [intros []|].
  destruct (Py.eqb x y) eqn:E.
  - apply str_eqb_eq in E. subst y. intros _.
    assert (Z : list_sum (map (fun c => if Py.eqb x c then 1 else 0) l) = 0).
    { clear IH ND. induction l as [|z l IH]; simpl; [reflexivity|].
      destruct (Py.eqb x z) eqn:K.
      - apply str_eqb_eq in K. subst z. exfalso. apply N. left. reflexivity.
      - apply IH. intros H. apply N. right. exact H. }
    rewrite Z. reflexivity.
  - intros [->|H]; [|apply IH; exact H].
    assert (K : Py.eqb x x = true) by (apply str_eqb_eq; reflexivity).
    congruence.
Qed.

Lemma list_sum_map_add {A : Type} (f g : A -> nat) (l : list A) :
  list_sum (map (fun c => f c + g c) l)
  = list_sum (map f l) + list_sum (map g l).
Proof. induction l as [|x l IH]; simpl; [reflexivity | rewrite IH; lia]. Qed.

(** Every value of a list is counted under exactly one of the distinct
    keys. *)
Lemma count_by_key (l v : list Py.str) :
  NoDup l -> (forall x, In x v -> In x l) ->
  list_sum (map (fun c => length (filter (fun k => Py.eqb k c) v)) l)
  = length v.
Proof.
  intros N. induction v as [|x v IH]; intros H.
  - simpl. clear N H. induction l as [|c l IHl]; simpl; [reflexivity | exact IHl].
  - transitivity
      (list_sum (map (fun c => (if Py.eqb x c then 1 else 0)
                               + length (filter (fun k => Py.eqb k c) v)) l)).
    { f_equal. apply map_ext. intros c. simpl.
      destruct (Py.eqb x c); reflexivity. }
    rewrite list_sum_map_add, (count_one x l N), IH.
    + reflexivity.
    + intros y Hy. apply H. right. exact Hy.
    + apply H. left. reflexivity.
Qed.

Lemma points_size (v : list Py.str) (c : Py.str) (s : Series) :
  size s = length v ->
  size (points_of v c s) = length (filter (fun k => Py.eqb k c) v).
Proof.
  intros H. unfold points_of. rewrite size_compress.
  rewrite <- (compress_filter (fun k => Py.eqb k c) v).
  apply compress_length_eq. rewrite repeat_length. exact H.
Qed.

Lemma traces_sizes (v : list Py.str) (inicio resultados : Series)
  (cs : list Py.str) (traces : list trace) :
  size inicio = length v -> size resultados = length v ->
  Forall2 (trace_of v inicio resultados) cs traces ->
  map (fun t => size (trace_x t)) traces
  = map (fun c => length (filter (fun k => Py.eqb k c) v)) cs
  /\ map (fun t => size (trace_y t)) traces
     = map (fun c => length (filter (fun k => Py.eqb k c) v)) cs.
Proof.
  intros S1 S2. induction 1 as [|c t cs traces (_ & Ex & Ey) F [IHx IHy]];
    simpl; [split; reflexivity|].
  rewrite Ex, Ey, IHx, IHy, !points_size by assumption. split; reflexivity.
Qed.

Lemma map_eq_Forall {A B : Type} (f g : A -> B) (l : list A) :
  map f l = map g l -> Forall (fun t => f t = g t) l.
Proof.
  induction l as [|x l IH]; simpl; intros E; constructor; inversion E; auto.
Qed.

(** X19. In a chart that is shown for a well-formed table with at most
    ten campaigns, every row of the table is a point of exactly one
    trace: the numbers of points of the traces add up to the number of
    rows, and each trace has as many dates as results. *)
Theorem evolucion_every_row (df_filtrado : DataFrame) (v : list Py.str)
  (inicio resultados : Series) :
  well_formed df_filtrado ->
  getitem df_filtrado "campana" = Ok (Object v) ->
  getitem df_filtrado "Inicio del informe" = Ok inicio ->
  getitem df_filtrado "resultados" = Ok resultados ->
  length (unique v) <= 10 ->
  exists traces,
    evolucion df_filtrado = Ok traces
    /\ list_sum (map (fun t => size (trace_x t)) traces) = nrows df_filtrado
    /\ Forall (fun t => size (trace_x t) = size (trace_y t)) traces.
Proof.
  intros [_ A] E1 E2 E3 H.
  destruct (add_traces_spec df_filtrado v inicio resultados (unique v) 0
              E1 E2 E3 H) as (traces & E & F).
  assert (N1 := getitem_size _ _ _ A E1).
  assert (N2 := getitem_size _ _ _ A E2).
  assert (N3 := getitem_size _ _ _ A E3). simpl in N1.
  destruct (traces_sizes v inicio resultados (unique v) traces) as [Sx Sy];
    try congruence.
  exists traces. split; [unfold evolucion; rewrite E1; exact E|]. split.
  - rewrite Sx, <- N1. destruct (unique_spec v) as [N I].
    apply count_by_key; [exact N | intros x Hx; apply I; exact Hx].
  - apply map_eq_Forall. rewrite Sx, Sy. reflexivity.
Qed.

Lemma evolucion_every_row_witness :
  exists traces,
    evolucion filtrado = Ok traces
    /\ list_sum (map (fun t => size (trace_x t)) traces) = 3.
Proof.
  destruct (evolucion_every_row filtrado [camp_a; camp_a; camp_b]
              (Datetime64 [day 20249; day 20248; day 20248])
              (Int64 [10; 5; 5]%Z) filtrado_well_formed
              eq_refl eq_refl eq_refl) as (traces & E & S & _);
    [vm_compute; lia|].
  exists traces. split; [exact E | exact S].
Defined.

(* ===================================================================== *)
(** ** More on the labels *)
(* ===================================================================== *)

(** X20. The label of any campaign name is computed without an exception;
    it is a piece of the name, in one block; it holds no colon, and it
    neither starts nor ends with white space. *)
Theorem label_shape (x : Py.str) :
  exists l,
    format_func x = Ok l
    /\ (exists a b, x = a ++ l ++ b)
    /\ ~ In Py.colon l
    /\ (forall c t, l = c :: t -> Py.isspace c = false)
    /\ (forall t c, l = t ++ [c] -> Py.isspace c = false).
Proof.
  assert (P : exists pre part,
             x = pre ++ part /\ ~ In Py.colon part
             /\ Py.last_item (Py.split Py.colon x) = Some part).
  { destruct (last_colon_decomp x) as [H|(pre & suf & -> & H)].
    - exists [], x. rewrite split_no_sep by exact H. repeat split. exact H.
    - exists (pre ++ [Py.colon]), suf. rewrite <- app_assoc.
      repeat split; [exact H | apply last_split_after; exact H]. }
  destruct P as (pre & part & -> & Hc & E).
  destruct (strip_spec part) as (a & b & Ep & _ & _ & Hh & Ht).
  exists (Py.strip part). unfold format_func. rewrite E.
  split; [reflexivity|]. split; [|split; [|split; assumption]].
  - exists (pre ++ a), b. rewrite <- app_assoc, <- Ep. reflexivity.
  - intros H. apply Hc. rewrite Ep. apply in_or_app. right.
    apply in_or_app. left. exact H.
Qed.


(* ===================================================================== *)
(** ** A run that goes to its end *)
(* ===================================================================== *)

Lemma has_columns_spec (df : DataFrame) (ls : list string) :
  has_columns df ls = true
  <-> forall c, In c ls -> lookup c (columns df) <> None.
Proof.
  unfold has_columns. rewrite forallb_forall. split; intros H c Hc.
  - specialize (H c Hc). destruct (lookup c (columns df)); congruence.
  - specialize (H c Hc). destruct (lookup c (columns df)); congruence.
Qed.

Lemma has_columns_labels (a b : DataFrame) (ls : list string) :
  labels a = labels b -> has_columns a ls = true -> has_columns b ls = true.
Proof.
  intros L. rewrite !has_columns_spec. intros H c Hc K.
  apply (H c Hc). apply lookup_none_labels. apply lookup_none_labels in K.
  fold (labels a). rewrite L. exact K.
Qed.

Lemma sum_numeric (s : Series) :
  numeric s = true -> exists t, sum s = Ok t.
Proof. destruct s; try discriminate; intros _; eexists; reflexivity. Qed.

Lemma numeric_compress (m : list bool) (s : Series) :
  numeric (compress_series m s) = numeric s.
Proof. destruct s; reflexivity. Qed.

Lemma as_float_is_numeric (s : Series) (x : list F64.t) :
  as_float s = Some x -> numeric s = true.
Proof. destruct s; try discriminate; reflexivity. Qed.

Lemma unique_compress_length (m : list bool) (v : list Py.str) :
  length (unique (compress m v)) <= length (unique v).
Proof.
  destruct (unique_spec (compress m v)) as [N I].
  destruct (unique_spec v) as [_ J].
  apply NoDup_incl_length; [exact N|].
  intros x Hx. apply J. apply (In_compress m). apply I. exact Hx.
Qed.

Lemma compress_some {A : Type} (m : list bool) (l : list A) :
  compress m l <> [] -> In true m.
Proof.
  revert l; induction m as [|b m IH]; intros [|x l]; simpl; try congruence.
  destruct b; [left; reflexivity|]. intros H. right. apply (IH l H).
Qed.

Lemma mask_and_true (m1 m2 : list bool) :
  In true (mask_and m1 m2) -> In true m1 /\ In true m2.
Proof.
  unfold mask_and. revert m2; induction m1 as [|b m1 IH]; intros [|c m2];
    simpl; try tauto.
  intros [H|H].
  - apply andb_true_iff in H. destruct H as [-> ->]. tauto.
  - destruct (IH m2 H). tauto.
Qed.

Lemma forallb_compress {A : Type} (f : A -> bool) (m : list bool)
  (l : list A) :
  forallb f l = true -> forallb f (compress m l) = true.
Proof.
  rewrite !forallb_forall. intros H x Hx. apply H.
  apply (In_compress m). exact Hx.
Qed.

(** A table with a row that passes the filter has a report start and a
    report end that are not missing. *)
Lemma filtered_row_dates (vi vf : list timestamp) (m1 : list bool)
  (lo hi : Z) (ix : list Z) :
  compress
    (mask_and (mask_and m1
       (map (fun x => match x with Some a => (lo <=? a)%Z | None => false end)
            vi))
       (map (fun x => match x with Some a => (a <=? hi)%Z | None => false end)
            vf)) ix <> [] ->
  (exists a, ts_min vi = Some a) /\ (exists b, ts_max vf = Some b).
Proof.
  intros H. apply compress_some, mask_and_true in H. destruct H as [H H3].
  apply mask_and_true in H. destruct H as [_ H2].
  apply in_map_iff in H2, H3.
  destruct H2 as ([a|] & Ka & Ia); [|discriminate].
  destruct H3 as ([b|] & Kb & Ib); [|discriminate].
  split.
  - destruct (ts_min vi) as [z|] eqn:E; [exists z; reflexivity|].
    exfalso. apply (proj1 (ts_min_fold vi None)) in E. destruct E as [_ F].
    rewrite Forall_forall in F. specialize (F _ Ia). discriminate.
  - destruct (ts_max vf) as [z|] eqn:E; [exists z; reflexivity|].
    exfalso. apply (proj1 (ts_max_fold vf None)) in E. destruct E as [_ F].
    rewrite Forall_forall in F. specialize (F _ Ib). discriminate.
Qed.

Section Complete.

Variable argsort : forall A : Type, (A -> A -> bool) -> list A -> list nat.
Hypothesis argsort_sorts : sorts argsort.

(** X21. A run that goes to its end. Take a well-formed export whose
    metric columns are numeric, whose campaign column is text with at
    most ten distinct campaigns, whose impressions are counts (integers,
    none negative, as the size of the markers has to be), whose first
    start is not after its last end (as the date pickers need), and which
    has the reach and cost-per-result columns. Then any selection whose
    filtered table is not empty gives a run that raises nothing and does
    not stop: it ends normally, and what it presents is the four KPIs,
    then the three charts, then the detail table, in this order; the bar
    chart is drawn from [comparacion], the traces are those of
    [evolucion], the table is [detalle]. *)
Theorem app_complete_run (raw clean df_filtrado : DataFrame) (ui : inputs)
  (v : list Py.str) (w : list Z) (inicio fin : list timestamp) :
  well_formed (rename renamed_columns raw) ->
  metricas raw = Ok clean ->
  getitem clean "campana" = Ok (Object v) ->
  length (unique v) <= 10 ->
  getitem clean "impresiones" = Ok (Int64 w) ->
  Forall (fun z => (0 <= z)%Z) w ->
  getitem clean "Inicio del informe" = Ok (Datetime64 inicio) ->
  getitem clean "Fin del informe" = Ok (Datetime64 fin) ->
  (forall a b, ts_min inicio = Some a -> ts_max fin = Some b -> (a <= b)%Z) ->
  has_columns clean ["alcance"; "costo_por_resultado"] = true ->
  filtrar clean (campanas_seleccionadas ui) (fecha_min ui) (fecha_max ui)
  = Ok df_filtrado ->
  empty df_filtrado = false ->
  exists page total_gasto total_resultados ctr cpm puntos ordenado traces tabla,
    app argsort (Ok raw) ui [] = (Done tt, page)
    /\ filter presents page
       = [st_metric "Total Gastado (BOB)" total_gasto;
          st_metric "Resultados Totales" total_resultados;
          st_metric "CTR Promedio" (FloatValue ctr);
          st_metric "CPM Promedio" (FloatValue cpm);
          st_plotly_chart puntos;
          st_plotly_chart (BarFigure ordenado "campana" ["resultados"; "gasto"]);
          st_plotly_chart (TraceFigure traces);
          st_dataframe tabla]
    /\ comparacion argsort df_filtrado = Ok ordenado
    /\ evolucion df_filtrado = Ok traces
    /\ detalle argsort df_filtrado = Ok tabla.
Proof.
  intros [_ A] Hm Ec Hu Ew Fw Ei Ef Hab Hx Hf He.
  destruct (metricas_inv _ _ Hm)
    as (res & imp & gas & x & y & g & E1 & E2 & E3 & F1 & F2 & F3 & Eclean).
  pose proof (with_metrics_aligned raw res imp gas x y g A E1 E2 E3 F1 F2 F3)
    as Ac.
  rewrite <- Eclean in Ac.
  assert (G1 : getitem clean "resultados" = Ok res).
  { subst clean. unfold with_metrics.
    rewrite !getitem_setitem_other by reflexivity. exact E1. }
  assert (G2 : getitem clean "impresiones" = Ok imp).
  { subst clean. unfold with_metrics.
    rewrite !getitem_setitem_other by reflexivity. exact E2. }
  assert (G3 : getitem clean "gasto" = Ok gas).
  { subst clean. unfold with_metrics.
    rewrite !getitem_setitem_other by reflexivity. exact E3. }
  assert (G4 : exists ctr, getitem clean "CTR" = Ok (Float64 ctr)).
  { subst clean. unfold with_metrics. eexists.
    rewrite getitem_setitem_other by reflexivity. apply getitem_setitem_same. }
  assert (G5 : exists cpm, getitem clean "CPM" = Ok (Float64 cpm)).
  { subst clean. unfold with_metrics. eexists. apply getitem_setitem_same. }
  destruct G4 as (ctr & G4). destruct G5 as (cpm & G5).
  clear Eclean E1 E2 E3.
  destruct (filtrar_inv _ _ _ _ _ Hf)
    as (campana & si & sf & m2 & m3 & K1 & K2 & K3 & K4 & K5 & Ed).
  destruct (ge_timestamp_dates _ _ _ K3) as (vi & ->).
  destruct (le_timestamp_dates _ _ _ K5) as (vf & ->).
  set (m := mask_and (mask_and (isin campana (campanas_seleccionadas ui)) m2) m3)
    in *.
  pose proof (select_aligned m clean Ac) as Ad. rewrite <- Ed in Ad.
  (* the table has rows *)
  assert (Hn : empty clean = false).
  { unfold empty in *. apply orb_false_iff in He. destruct He as [He _].
    apply orb_false_iff. split.
    - apply Nat.eqb_neq. apply Nat.eqb_neq in He. intros Z. apply He.
      subst df_filtrado. unfold select. simpl.
      pose proof (compress_length_le m (index clean)). lia.
    - destruct (columns clean) eqn:C; [|reflexivity].
      apply getitem_lookup in Ec. rewrite C in Ec. discriminate. }
  (* the columns of the filtered table *)
  assert (D : forall c s, getitem clean c = Ok s ->
                          getitem df_filtrado c = Ok (compress_series m s)).
  { intros c s H. subst df_filtrado. apply getitem_select. exact H. }
  assert (Hall : has_columns clean
                   ("Inicio del informe" :: "Fin del informe"
                    :: "gasto" :: "resultados" :: "campana" :: "impresiones"
                    :: "CTR" :: "CPM" :: ["alcance"; "costo_por_resultado"])
                 = true).
  { apply has_columns_spec. intros c Hc.
    rewrite has_columns_spec in Hx.
    apply getitem_lookup in Ec, G1, G2, G3, G4, G5, K2, K4.
    simpl in Hc.
    repeat (destruct Hc as [<-|Hc]; [congruence|]).
    apply Hx. exact Hc. }
  assert (Hd : forall ls, (forall c, In c ls ->
                 In c ("Inicio del informe" :: "Fin del informe"
                    :: "gasto" :: "resultados" :: "campana" :: "impresiones"
                    :: "CTR" :: "CPM" :: ["alcance"; "costo_por_resultado"])) ->
               has_columns df_filtrado ls = true).
  { intros ls Hls. apply has_columns_spec. intros c Hc.
    rewrite has_columns_spec in Hall. specialize (Hall c (Hls c Hc)).
    destruct (lookup c (columns clean)) as [s|] eqn:L; [|contradiction].
    apply getitem_lookup in L. apply D, getitem_lookup in L. congruence. }
  (* KPIs *)
  assert (N1 := as_float_is_numeric _ _ F1).
  assert (N3 := as_float_is_numeric _ _ F3).
  destruct (sum_numeric (compress_series m gas)) as (tg & S1);
    [rewrite numeric_compress; exact N3|].
  destruct (sum_numeric (compress_series m res)) as (tr & S2);
    [rewrite numeric_compress; exact N1|].
  (* charts *)
  assert (P1 : px_scatter df_filtrado "gasto" "resultados" "campana"
                 "impresiones" ["costo_por_resultado"; "CTR"; "CPM"]
               = Ok (ScatterFigure df_filtrado "gasto" "resultados" "campana"
                       "impresiones" ["costo_por_resultado"; "CTR"; "CPM"])).
  { unfold px_scatter. rewrite Hd; [|intros c Hc; simpl in Hc |- *; tauto].
    rewrite (proj1 (getitem_lookup _ _ _) (D _ _ Ew)). simpl.
    rewrite forallb_compress; [reflexivity|].
    apply forallb_forall. rewrite Forall_forall in Fw.
    intros z Hz. apply Z.leb_le, Fw, Hz. }
  destruct (sort_values_descending argsort argsort_sorts df_filtrado
              "resultados" (compress_series m res) Ad (D _ _ G1))
    as (ordenado & k & So & _ & _ & _); [rewrite numeric_compress; exact N1|].
  assert (P2 : px_bar ordenado "campana" ["resultados"; "gasto"]
               = Ok (BarFigure ordenado "campana" ["resultados"; "gasto"])).
  { unfold px_bar.
    rewrite (has_columns_labels df_filtrado ordenado); [reflexivity| |].
    - symmetry. apply (sort_values_labels argsort _ _ _ _ So).
    - apply Hd. intros c Hc. simpl in Hc |- *. tauto. }
  destruct (add_traces_spec df_filtrado (compress m v)
              (compress_series m (Datetime64 vi)) (compress_series m res)
              (unique (compress m v)) 0 (D _ _ Ec) (D _ _ K2) (D _ _ G1))
    as (traces & T & _).
  { pose proof (unique_compress_length m v). simpl. lia. }
  assert (Ev : evolucion df_filtrado = Ok traces).
  { unfold evolucion. rewrite (D _ _ Ec). exact T. }
  (* detail listing *)
  destruct (getitems_columns_total df_filtrado detail_columns) as (cols & Gc).
  { apply Hd. intros c Hc. simpl in Hc |- *. tauto. }
  destruct (getitems_columns_spec _ _ _ Ad Gc) as (Fc & Lc & _).
  assert (Gg : getitem (Frame (index df_filtrado) cols) "gasto"
               = Ok (compress_series m gas)).
  { apply getitem_lookup. simpl. rewrite Lc; [|simpl; tauto].
    apply getitem_lookup. apply D. exact G3. }
  destruct (sort_values_descending argsort argsort_sorts
              (Frame (index df_filtrado) cols) "gasto"
              (compress_series m gas) Fc Gg)
    as (tabla & k' & St & _ & _ & _); [rewrite numeric_compress; exact N3|].
  assert (Dt : detalle argsort df_filtrado = Ok tabla).
  { unfold detalle, getitems. rewrite Gc. exact St. }
  (* the date pickers *)
  assert (Ev1 : vi = inicio) by congruence.
  assert (Ev2 : vf = fin) by congruence.
  subst vi vf.
  assert (Hd2 : (exists a, ts_min inicio = Some a)
                /\ (exists b, ts_max fin = Some b)).
  { simpl in K3, K5. inversion K3 as [M2]. inversion K5 as [M3].
    apply (filtered_row_dates inicio fin
             (isin campana (campanas_seleccionadas ui))
             (to_datetime (fecha_min ui)) (to_datetime (fecha_max ui))
             (index clean)).
    rewrite M2, M3. fold m. intros Z.
    unfold empty in He. apply orb_false_iff in He. destruct He as [He _].
    apply Nat.eqb_neq in He. apply He. subst df_filtrado.
    unfold select. simpl. rewrite Z. reflexivity. }
  destruct Hd2 as ((a & Ea) & (b & Eb)).
  specialize (Hab a b Ea Eb).
  (* the run *)
  destruct (map_result_total format_func (unique v) format_func_total)
    as (etiquetas & El).
  eexists. exists tg, tr, (nanmean (compress m ctr)), (nanmean (compress m cpm)).
  exists (ScatterFigure df_filtrado "gasto" "resultados" "campana"
            "impresiones" ["costo_por_resultado"; "CTR"; "CPM"]).
  exists ordenado, traces, tabla.
  split; [|split; [|split; [exact So | split; [exact Ev | exact Dt]]]].
  - unfold app, bind.
    rewrite (cargar_datos_ok (Ok raw) clean [] Hm), Hn.
    unfold show, lift. rewrite Ec. simpl rbind.
    unfold multiselect_options. rewrite El. simpl rbind.
    rewrite K2, K4. simpl rbind. simpl min_pydatetime. simpl max_pydatetime.
    cbv iota beta. rewrite Ea, Eb.
    rewrite date_input_shown by (pose proof (date_of_le _ _ Hab); lia).
    rewrite date_input_shown by (pose proof (date_of_le _ _ Hab); lia).
    rewrite Hf, He.
    apply (presentar_page argsort df_filtrado _ tg tr
             (nanmean (compress m ctr)) (nanmean (compress m cpm))
             (ScatterFigure df_filtrado "gasto" "resultados" "campana"
                "impresiones" ["costo_por_resultado"; "CTR"; "CPM"])
             (BarFigure ordenado "campana" ["resultados"; "gasto"])
             ordenado tabla traces).
    + rewrite (D _ _ G3). exact S1.
    + rewrite (D _ _ G1). exact S2.
    + rewrite (D _ _ G4). reflexivity.
    + rewrite (D _ _ G5). reflexivity.
    + exact P1.
    + exact So.
    + exact P2.
    + exact Ev.
    + exact Dt.
  - reflexivity.
Qed.

End Complete.

Lemma app_complete_run_witness :
  exists page,
    app insertion_argsort (Ok exportacion) todo [] = (Done tt, page)
    /\ length (filter presents page) = 8.
Proof.
  destruct (app_complete_run insertion_argsort insertion_argsort_sorts
              exportacion limpio filtrado todo [camp_a; camp_a; camp_b]
              [0; 1000; 2000]%Z
              [day 20249; day 20248; day 20248]
              [day 20277; day 20277; day 20277]
              exportacion_well_formed eq_refl eq_refl)
    as (page & tg & tr & ctr & cpm & p & o & t & tb & E & P & _);
    try reflexivity.
  - vm_compute. lia.
  - repeat constructor; discriminate.
  - intros a b Ha Hb. vm_compute in Ha, Hb. inversion Ha. inversion Hb. lia.
  - exists page. split; [exact E|]. rewrite P. reflexivity.
Defined.
